(** * The slot-scheduling engine of [syncme/backend/calendar/scheduler.py]

    A shallow embedding of the [Scheduler] class: busy-interval
    aggregation, slot generation, conflict filtering, scoring and ranking,
    and the facade operations built on them; of the models of
    [shared/models.py] it uses, of the methods of the two calendar API
    classes it calls, and of the two endpoints of [backend/main.py] that
    call it.

    Conventions of the embedding.
    - Datetimes.  A Python [datetime] is a wall-clock reading in
      microseconds (counted from midnight of proleptic ordinal day 0)
      together with what [utcoffset()] returns: the UTC offset of its
      [tzinfo], or [None] for a naive datetime.  Arithmetic with a
      [timedelta] moves the wall clock and keeps the offset.  Two aware
      datetimes are ordered and subtracted through their UTC instants, two
      naive ones through their wall clocks; for one of each kind Python
      raises [TypeError].  (Two datetimes that share one [tzinfo] object
      are compared by wall clock; that is the same order, since the
      [tzinfo] objects met here, those of [localize], of [fromisoformat]
      and of the parser, have one offset each.)  A loop that compares
      datetimes is embedded as
      the function computing its result, with a test of whether every
      comparison it evaluates is defined; the operations that catch
      exceptions put the two together.  The year range 1..9999 is left
      out: the wall clock is an unbounded [Z].
    - Floats.  Python's [float] is IEEE-754 binary64, as is [PrimFloat]:
      scores are computed with the primitive operations themselves.
    - Exceptions.  A call yields an [outcome]: a value, a raised exception,
      or non-termination of a loop.
    - Dicts.  The values of a [Dict[str, Any]] are [None], strings and
      lists of strings; other values are left out.
    - Collaborators (the calendar services behind the two API classes, the
      timezone database, the clock, the date parser and Unicode's case
      mapping) are fields of the records [Service] and [Runtime]: any
      behaviour can be plugged in. *)

From Stdlib Require Import ZArith List Bool String Ascii Lia Floats Permutation Sorted.
From Stdlib Require Uint63.
Import ListNotations.

Set Warnings "-inexact-float".

Local Open Scope Z_scope.

(** ** Python's [datetime], [date], [time] and [timedelta] *)

Module PyTime.

(** A [timedelta], in microseconds. *)
Definition timedelta := Z.

Definition us_per_second : Z := 1000000.
Definition us_per_minute : Z := 60 * us_per_second.
Definition us_per_hour : Z := 60 * us_per_minute.
Definition us_per_day : Z := 24 * us_per_hour.

Definition timedelta_minutes (m : Z) : timedelta := m * us_per_minute.

(** A [date] is its proleptic Gregorian ordinal ([date.toordinal()]). *)
Definition date := Z.

(** [date.weekday()]: Monday is 0, Sunday is 6. *)
Definition date_weekday (d : date) : Z := (d + 6) mod 7.

(** A [time] of day: microseconds since midnight. *)
Definition time := Z.

Definition mk_time (h m : Z) : time := h * us_per_hour + m * us_per_minute.

Definition time_hour (t : time) : Z := t / us_per_hour.

(** A [datetime]: its wall clock, and what [utcoffset()] returns, which is
    [None] for a naive datetime (one without [tzinfo]). *)
Record datetime := mk_datetime {
  wall : Z;                (* local wall clock, microseconds *)
  utcoffset : option Z     (* microseconds east of UTC; None when naive *)
}.

Definition aware (d : datetime) : bool :=
  match utcoffset d with
  | Some _ => true
  | None => false
  end.

(** The offset as a number: a naive datetime is its wall clock. *)
Definition utcoff (d : datetime) : Z :=
  match utcoffset d with
  | Some offset => offset
  | None => 0
  end.

(** The UTC instant an aware datetime denotes; the wall clock of a naive
    one. *)
Definition instant (d : datetime) : Z := wall d - utcoff d.

(** Python orders and subtracts two datetimes when both are aware (by
    their instants) or both naive (by their wall clocks), and raises
    [TypeError] when one is naive and the other aware. *)
Definition comparable (a b : datetime) : bool := Bool.eqb (aware a) (aware b).

(** A naive datetime, as [datetime(...)] without [tzinfo] builds it. *)
Definition naive (w : Z) : datetime := {| wall := w; utcoffset := None |}.

(** [datetime.combine(d, t)]: the wall clock of a naive datetime. *)
Definition combine (d : date) (t : time) : Z := d * us_per_day + t.

(** [dt.date()], [dt.time()], [dt.weekday()]: read off the wall clock. *)
Definition dt_date (d : datetime) : date := wall d / us_per_day.
Definition dt_time (d : datetime) : time := wall d mod us_per_day.
Definition dt_weekday (d : datetime) : Z := date_weekday (dt_date d).

(** [dt + delta]: the wall clock moves, the tzinfo stays. *)
Definition dt_add (d : datetime) (delta : timedelta) : datetime :=
  {| wall := wall d + delta; utcoffset := utcoffset d |}.

(** [a - b], [a < b], [a <= b] and [a > b] on two datetimes that are
    [comparable]. *)
Definition dt_sub (a b : datetime) : timedelta := instant a - instant b.

Definition dt_ltb (a b : datetime) : bool := instant a <? instant b.
Definition dt_leb (a b : datetime) : bool := instant a <=? instant b.
Definition dt_gtb (a b : datetime) : bool := dt_ltb b a.

(** A pytz timezone: the offset [localize] attaches to a naive wall
    clock reading (with the default [is_dst=False], which never raises). *)
Definition tzinfo := Z -> Z.

Definition localize (tz : tzinfo) (wall_clock : Z) : datetime :=
  {| wall := wall_clock; utcoffset := Some (tz wall_clock) |}.

Definition UTC : tzinfo := fun _ => 0.

End PyTime.
Import PyTime.

(** ** Exceptions and outcomes *)

Inductive exn :=
| ValueError (msg : string)
| ValidationError (msg : string)
| KeyError (key : string)
| ParserError (text : string)
| UnknownTimeZoneError (zone : string)
| AttributeError (name : string)
| TypeError (msg : string)
| Exception (msg : string)
| ApiError (msg : string).

Inductive outcome (A : Type) :=
| Ok (a : A)
| Raise (e : exn)
| Diverge.
Arguments Ok {A} a.
Arguments Raise {A} e.
Arguments Diverge {A}.

Definition bind {A B} (c : outcome A) (k : A -> outcome B) : outcome B :=
  match c with
  | Ok a => k a
  | Raise e => Raise e
  | Diverge => Diverge
  end.

(** [try: body  except Exception as e: handler e]. *)
Definition try_except {A} (body : outcome A) (handler : exn -> outcome A) : outcome A :=
  match body with
  | Raise e => handler e
  | r => r
  end.

Declare Scope outcome_scope.
Delimit Scope outcome_scope with outcome.
Notation "x <- c ;; k" := (bind c (fun x => k))
  (at level 61, c at next level, right associativity) : outcome_scope.
Local Open Scope outcome_scope.

(** What a collaborator call answers once it is awaited: a value or an
    exception (a collaborator returns within its own retry budget). *)
Inductive reply (A : Type) :=
| Returned (a : A)
| Failed (e : exn).
Arguments Returned {A} a.
Arguments Failed {A} e.

Definition await {A} (r : reply A) : outcome A :=
  match r with
  | Returned a => Ok a
  | Failed e => Raise e
  end.

(** ** [shared/models.py] *)

Inductive CalendarProvider := GOOGLE | OUTLOOK | APPLE | ICAL.

Inductive EventStatus := SCHEDULED | CANCELLED | COMPLETED | RESCHEDULED.

Definition EventStatus_eqb (a b : EventStatus) : bool :=
  match a, b with
  | SCHEDULED, SCHEDULED | CANCELLED, CANCELLED
  | COMPLETED, COMPLETED | RESCHEDULED, RESCHEDULED => true
  | _, _ => false
  end.

(** [EventStatus(value)]: lookup by value, [ValueError] otherwise. *)
Definition EventStatus_of_string (s : string) : outcome EventStatus :=
  if String.eqb s "scheduled" then Ok SCHEDULED
  else if String.eqb s "cancelled" then Ok CANCELLED
  else if String.eqb s "completed" then Ok COMPLETED
  else if String.eqb s "rescheduled" then Ok RESCHEDULED
  else Raise (ValueError "not a valid EventStatus").

Record UserPreferences := mk_UserPreferences {
  preferred_meeting_duration : Z;
  work_start_time : time;
  work_end_time : time;
  timezone : string;
  buffer_time : Z;
  max_meetings_per_day : Z;
  preferred_calendar : CalendarProvider
}.

(** [UserPreferences()]: the field defaults. *)
Definition default_UserPreferences : UserPreferences :=
  {| preferred_meeting_duration := 60;
     work_start_time := mk_time 9 0;
     work_end_time := mk_time 17 0;
     timezone := "UTC";
     buffer_time := 15;
     max_meetings_per_day := 8;
     preferred_calendar := GOOGLE |}.

(** A value of a [Dict[str, Any]], as far as this embedding follows
    them: [None], a string, or a list of strings. *)
Inductive pyvalue :=
| PyNone
| PyStr (s : string)
| PyList (items : list string).

(** A dict with string keys, as the list of its items; a key occurs once,
    and a lookup takes the first item that has it. *)
Definition dict (V : Type) := list (string * V).

(** [key in d], [d[key]] and [d.get(key)]: the value, if the key is there. *)
Fixpoint dict_get {V} (key : string) (d : dict V) : option V :=
  match d with
  | [] => None
  | (k, v) :: rest => if String.eqb key k then Some v else dict_get key rest
  end.

(** [d.get(key, default)]; [d.get(key)] is [d.get(key, None)]. *)
Definition dict_get_default {V} (key : string) (d : dict V) (default : V) : V :=
  match dict_get key d with
  | Some v => v
  | None => default
  end.

(** An entry of [UserContext.existing_events]. *)
Definition event_dict := dict pyvalue.

Record UserContext := mk_UserContext {
  user_id : string;
  email : string;
  preferences : UserPreferences;
  current_timezone : string;
  existing_events : list event_dict
}.

Record TimeSlot := mk_TimeSlot {
  start_time : datetime;
  end_time : datetime;
  confidence : float
}.

(** The constructor [TimeSlot(...)] with its validators: [end_after_start]
    (whose comparison fails, and the validation with it, when one of the
    two datetimes is naive and the other aware), and [ge=0.0, le=1.0] on
    the confidence. *)
Definition new_TimeSlot (s e : datetime) (c : float) : outcome TimeSlot :=
  if negb (comparable e s)
  then Raise (ValidationError "can't compare offset-naive and offset-aware datetimes")
  else if dt_leb e s then Raise (ValidationError "End time must be after start time")
  else if (PrimFloat.leb 0 c && PrimFloat.leb c 1)%bool
       then Ok {| start_time := s; end_time := e; confidence := c |}
       else Raise (ValidationError "confidence out of range").

Record Event := mk_Event {
  event_id : option string;
  title : string;
  ev_description : option string;
  ev_start_time : datetime;
  ev_end_time : datetime;
  ev_location : option string;
  ev_attendees : list string;
  calendar_provider : CalendarProvider;
  status : EventStatus
}.

(** Validation of a field declared [str], [Optional[str]] and
    [List[str]]. *)
Definition as_str (field : string) (v : pyvalue) : outcome string :=
  match v with
  | PyStr s => Ok s
  | PyNone => Raise (ValidationError (field ++ ": none is not an allowed value"))
  | PyList _ => Raise (ValidationError (field ++ ": str type expected"))
  end.

Definition as_optional_str (field : string) (v : pyvalue) : outcome (option string) :=
  match v with
  | PyStr s => Ok (Some s)
  | PyNone => Ok None
  | PyList _ => Raise (ValidationError (field ++ ": str type expected"))
  end.

Definition as_list_of_str (field : string) (v : pyvalue) : outcome (list string) :=
  match v with
  | PyList items => Ok items
  | PyNone => Raise (ValidationError (field ++ ": none is not an allowed value"))
  | PyStr _ => Raise (ValidationError (field ++ ": value is not a valid list"))
  end.

(** The validator [end_after_start] of [Event]; its comparison fails, and
    the validation with it, when one datetime is naive and the other
    aware. *)
Definition end_after_start (v start_time : datetime) : outcome datetime :=
  if negb (comparable v start_time)
  then Raise (ValidationError "can't compare offset-naive and offset-aware datetimes")
  else if dt_leb v start_time
       then Raise (ValidationError "End time must be after start time")
       else Ok v.

(** The constructor [Event(...)] as [_dict_to_event] calls it: the fields
    are validated, and the provider is left to its default. *)
Definition new_Event (event_id title description : pyvalue)
    (start_time end_time : datetime) (location attendees : pyvalue)
    (status : EventStatus) : outcome Event :=
  event_id <- as_optional_str "event_id" event_id ;;
  title <- as_str "title" title ;;
  description <- as_optional_str "description" description ;;
  end_time <- end_after_start end_time start_time ;;
  location <- as_optional_str "location" location ;;
  attendees <- as_list_of_str "attendees" attendees ;;
  Ok {| event_id := event_id; title := title; ev_description := description;
        ev_start_time := start_time; ev_end_time := end_time;
        ev_location := location; ev_attendees := attendees;
        calendar_provider := GOOGLE; status := status |}.

(** ** Collaborators *)

(** The payload [create_event] hands to a calendar API. *)
Record event_data := mk_event_data {
  ed_title : string;
  ed_start_time : datetime;
  ed_end_time : datetime;
  ed_description : option string;
  ed_location : option string;
  ed_attendees : list string
}.

(** A calendar API object as the scheduler uses it: what each awaited
    method call answers. *)
Record CalendarAPI := mk_CalendarAPI {
  get_events : date -> date -> reply (list Event);
  api_create_event : event_data -> reply Event;
  api_update_event : string -> list (string * string) -> reply Event;
  api_cancel_event : string -> reply bool;
  get_event : string -> reply (option Event)
}.

(** What a request for one event comes to, once [_make_request] has
    returned and [_convert_google_event] or [_convert_outlook_event] has
    been applied to the payload: no payload at all ([None], or an empty
    one), a payload the converter turns into [None], or an event. *)
Inductive answer :=
| NoResponse
| Unconvertible
| Converted (event : Event).

(** The calendar service behind an API object, as the methods below meet
    it: each field is what the awaited [_make_request] call of a method
    (with its retries and re-authentication) comes to, together with the
    conversion of the payload, or the exception the call raises.  For
    [delete_event] the call returns or raises, and a return does not say
    that anything was deleted; [list_events] stands for the request of
    [get_events] and the conversion of the items that convert. *)
Record Service := mk_Service {
  list_events : date -> date -> reply (list Event);
  insert_event : event_data -> reply answer;
  patch_event : string -> list (string * string) -> reply answer;
  delete_event : string -> reply unit;
  fetch_event : string -> reply answer
}.

(** [class GoogleCalendarAPI] ([google_api.py]): [get_events] answers
    [[]] when its body raises, [cancel_event] answers [True] when the
    request returns and [False] when it raises, [get_event] answers
    [None] when its body raises; [create_event] and [update_event] raise
    an exception of their own when the payload does not convert, and log
    and re-raise every exception. *)
Definition GoogleCalendarAPI (service : Service) : CalendarAPI :=
  {| get_events := fun start_date end_date =>
       match list_events service start_date end_date with
       | Returned converted_events => Returned converted_events
       | Failed _ => Returned []
       end;
     api_create_event := fun event_data =>
       match insert_event service event_data with
       | Returned (Converted result) => Returned result
       | Returned _ => Failed (Exception "Failed to convert created event")
       | Failed e => Failed e
       end;
     api_update_event := fun event_id updates =>
       match patch_event service event_id updates with
       | Returned (Converted result) => Returned result
       | Returned _ => Failed (Exception "Failed to convert updated event")
       | Failed e => Failed e
       end;
     api_cancel_event := fun event_id =>
       match delete_event service event_id with
       | Returned _ => Returned true
       | Failed _ => Returned false
       end;
     get_event := fun event_id =>
       match fetch_event service event_id with
       | Returned (Converted event) => Returned (Some event)
       | Returned _ => Returned None
       | Failed _ => Returned None
       end |}.

(** [class OutlookAPI] ([outlook_api.py]): as above, and [create_event]
    and [update_event] also raise when the request returned no payload
    ([if not response]). *)
Definition OutlookAPI (service : Service) : CalendarAPI :=
  {| get_events := fun start_date end_date =>
       match list_events service start_date end_date with
       | Returned converted_events => Returned converted_events
       | Failed _ => Returned []
       end;
     api_create_event := fun event_data =>
       match insert_event service event_data with
       | Returned NoResponse => Failed (Exception "Failed to create event")
       | Returned Unconvertible => Failed (Exception "Failed to convert created event")
       | Returned (Converted result) => Returned result
       | Failed e => Failed e
       end;
     api_update_event := fun event_id updates =>
       match patch_event service event_id updates with
       | Returned NoResponse => Failed (Exception "Failed to update event")
       | Returned Unconvertible => Failed (Exception "Failed to convert updated event")
       | Returned (Converted result) => Returned result
       | Failed e => Failed e
       end;
     api_cancel_event := fun event_id =>
       match delete_event service event_id with
       | Returned _ => Returned true
       | Failed _ => Returned false
       end;
     get_event := fun event_id =>
       match fetch_event service event_id with
       | Returned (Converted event) => Returned (Some event)
       | Returned _ => Returned None
       | Failed _ => Returned None
       end |}.

(** What the interpreter and its libraries supply: the clock
    ([date.today()]), the timezone database ([pytz.timezone]), the date
    parser ([dateutil.parser.parse]) and the case mapping of Unicode
    ([str.lower]). *)
Record Runtime := mk_Runtime {
  today : date;
  pytz_timezone : string -> option tzinfo;
  parser_parse : string -> option datetime;
  str_lower : string -> string
}.

(** ** [class Scheduler] *)

Record Scheduler := mk_Scheduler {
  google_calendar : CalendarAPI;
  outlook_calendar : CalendarAPI;
  min_slot_duration : Z;
  max_suggestions : nat
}.

(** [Scheduler.__init__]: the two API objects are built here, over
    whatever services they reach. *)
Definition __init__ (google_service outlook_service : Service) : Scheduler :=
  {| google_calendar := GoogleCalendarAPI google_service;
     outlook_calendar := OutlookAPI outlook_service;
     min_slot_duration := 15;
     max_suggestions := 10 |}.

(** ** Comparisons that raise [TypeError]

    The loops below compare and subtract datetimes.  Each is embedded as
    the function that computes its result, and, next to it, the test
    ([..._compares]) of whether Python gets through the loop: whether
    every comparison and subtraction it evaluates, in the order and under
    the short-circuits and [break]s of the source, is between two naive or
    two aware datetimes.  A caller that catches exceptions sees the
    result when the test holds and the [TypeError] when it does not. *)
Definition comparing {A} (compares : bool) (result : A) : outcome A :=
  if compares then Ok result
  else Raise (TypeError "can't compare offset-naive and offset-aware datetimes").

(** [_slots_overlap]. *)
Definition _slots_overlap (slot : TimeSlot) (event : Event) : bool :=
  dt_ltb (start_time slot) (ev_end_time event)
  && dt_gtb (end_time slot) (ev_start_time event).

(** [and] evaluates its second comparison only if the first holds. *)
Definition _slots_overlap_compares (slot : TimeSlot) (event : Event) : bool :=
  comparable (start_time slot) (ev_end_time event)
  && (if dt_ltb (start_time slot) (ev_end_time event)
      then comparable (end_time slot) (ev_start_time event)
      else true).

(** The inner loop of [_filter_conflicting_slots]: the value of
    [is_available] when the loop over [existing_events] ends or breaks. *)
Fixpoint is_available (slot : TimeSlot) (existing_events : list Event)
    (preferences : UserPreferences) : bool :=
  match existing_events with
  | [] => true
  | event :: rest =>
    if EventStatus_eqb (status event) CANCELLED then
      is_available slot rest preferences                      (* continue *)
    else if _slots_overlap slot event then false               (* break *)
    else
      let buffer_time := timedelta_minutes (buffer_time preferences) in
      if (dt_sub (start_time slot) (ev_end_time event) <? buffer_time)
         && dt_gtb (start_time slot) (ev_end_time event) then false
      else if (dt_sub (ev_start_time event) (end_time slot) <? buffer_time)
              && dt_gtb (ev_start_time event) (end_time slot) then false
      else is_available slot rest preferences
  end.

(** The comparisons of the inner loop: those of [_slots_overlap]; then,
    unless the loop breaks, [slot.start_time - event.end_time] (and
    [slot.start_time > event.end_time], on the same pair); then, unless
    the loop breaks, [event.start_time - slot.end_time] (and
    [event.start_time > slot.end_time]). *)
Fixpoint is_available_compares (slot : TimeSlot) (existing_events : list Event)
    (preferences : UserPreferences) : bool :=
  match existing_events with
  | [] => true
  | event :: rest =>
    if EventStatus_eqb (status event) CANCELLED then
      is_available_compares slot rest preferences
    else
      _slots_overlap_compares slot event
      && (if _slots_overlap slot event then true
          else
            let buffer_time := timedelta_minutes (buffer_time preferences) in
            comparable (start_time slot) (ev_end_time event)
            && (if (dt_sub (start_time slot) (ev_end_time event) <? buffer_time)
                   && dt_gtb (start_time slot) (ev_end_time event) then true
                else
                  comparable (ev_start_time event) (end_time slot)
                  && (if (dt_sub (ev_start_time event) (end_time slot) <? buffer_time)
                         && dt_gtb (ev_start_time event) (end_time slot) then true
                      else is_available_compares slot rest preferences)))
  end.

(** [_filter_conflicting_slots]. *)
Fixpoint _filter_conflicting_slots (potential_slots : list TimeSlot)
    (existing_events : list Event) (preferences : UserPreferences)
    : list TimeSlot :=
  match potential_slots with
  | [] => []
  | slot :: rest =>
    if is_available slot existing_events preferences
    then slot :: _filter_conflicting_slots rest existing_events preferences
    else _filter_conflicting_slots rest existing_events preferences
  end.

(** The outer loop goes through every slot. *)
Definition _filter_conflicting_slots_compares (potential_slots : list TimeSlot)
    (existing_events : list Event) (preferences : UserPreferences) : bool :=
  forallb (fun slot => is_available_compares slot existing_events preferences)
          potential_slots.

(** ** Aggregation: [_dict_to_event] and [_get_existing_events] *)

(** [event_dict[key]]: [KeyError] when the key is absent. *)
Definition getitem {V} (key : string) (d : dict V) : outcome V :=
  match dict_get key d with
  | Some v => Ok v
  | None => Raise (KeyError key)
  end.

(** [parser.parse(timestr)]: what is not a string is refused with a
    [TypeError], a string the parser cannot read with a [ParserError]. *)
Definition parse (rt : Runtime) (timestr : pyvalue) : outcome datetime :=
  match timestr with
  | PyStr text =>
    match parser_parse rt text with
    | Some d => Ok d
    | None => Raise (ParserError text)
    end
  | _ => Raise (TypeError "Parser must be a string or character stream")
  end.

(** [EventStatus(value)] on a value of a dict. *)
Definition EventStatus_of_value (v : pyvalue) : outcome EventStatus :=
  match v with
  | PyStr s => EventStatus_of_string s
  | _ => Raise (ValueError "not a valid EventStatus")
  end.

(** [_dict_to_event]: the arguments are evaluated in the order of the
    call, then the constructor validates them. *)
Definition _dict_to_event (rt : Runtime) (event_dict : event_dict) : outcome Event :=
  let event_id := dict_get_default "event_id" event_dict PyNone in
  let title := dict_get_default "title" event_dict (PyStr "") in
  let description := dict_get_default "description" event_dict PyNone in
  start_text <- getitem "start_time" event_dict ;;
  start_time <- parse rt start_text ;;
  end_text <- getitem "end_time" event_dict ;;
  end_time <- parse rt end_text ;;
  let location := dict_get_default "location" event_dict PyNone in
  let attendees := dict_get_default "attendees" event_dict (PyList []) in
  status <- EventStatus_of_value
              (dict_get_default "status" event_dict (PyStr "scheduled")) ;;
  new_Event event_id title description start_time end_time location attendees status.

(** The list comprehension [[f(x) for x in xs]]: the first exception
    aborts it. *)
Fixpoint comprehension {A B} (f : A -> outcome B) (xs : list A) : outcome (list B) :=
  match xs with
  | [] => Ok []
  | x :: rest =>
    y <- f x ;;
    ys <- comprehension f rest ;;
    Ok (y :: ys)
  end.

(** [_get_existing_events].  One [try] block encloses the three sources;
    [all_events] is extended in place, so what was gathered before an
    exception is what the function returns after the handler logged it. *)
Definition _get_existing_events (self : Scheduler) (rt : Runtime)
    (start_date end_date : date) (user_context : option UserContext)
    : outcome (list Event) :=
  let all_events := [] in
  match await (get_events (google_calendar self) start_date end_date) with
  | Diverge => Diverge
  | Raise _ => Ok all_events
  | Ok google_events =>
    let all_events := all_events ++ google_events in
    match await (get_events (outlook_calendar self) start_date end_date) with
    | Diverge => Diverge
    | Raise _ => Ok all_events
    | Ok outlook_events =>
      let all_events := all_events ++ outlook_events in
      match user_context with
      | Some ctx =>
        match existing_events ctx with
        | [] => Ok all_events
        | dicts =>
          match comprehension (_dict_to_event rt) dicts with
          | Diverge => Diverge
          | Raise _ => Ok all_events
          | Ok context_events => Ok (all_events ++ context_events)
          end
        end
      | None => Ok all_events
      end
    end
  end.

(** ** Generation: [_generate_day_slots] and [_generate_potential_slots] *)

(** The [while] loop of [_generate_day_slots], from [current_time] on.
    [fuel] bounds the number of times the loop test is evaluated; a loop
    that outlives it does not terminate. *)
Fixpoint day_loop (fuel : nat) (current_time work_end : datetime)
    (slot_duration buffer_duration : timedelta) : outcome (list TimeSlot) :=
  match fuel with
  | O => Diverge
  | S fuel' =>
    if dt_leb (dt_add current_time slot_duration) work_end then
      let slot_end := dt_add current_time slot_duration in
      slot <- new_TimeSlot current_time slot_end 0.8 ;;
      slots <- day_loop fuel' (dt_add slot_end buffer_duration) work_end
                 slot_duration buffer_duration ;;
      Ok (slot :: slots)
    else Ok []
  end.

(** Loop tests the [while] loop can need when the cursor advances: one
    per step that fits between the two ends of the day, and the last,
    failing one. *)
Definition day_fuel (work_start work_end : datetime)
    (slot_duration buffer_duration : timedelta) : nat :=
  S (S (Z.to_nat ((instant work_end - instant work_start)
                  / (slot_duration + buffer_duration)))).

(** [_generate_day_slots]. *)
Definition _generate_day_slots (target_date : date) (duration : Z)
    (preferences : UserPreferences) (timezone : tzinfo) : outcome (list TimeSlot) :=
  let work_start := combine target_date (work_start_time preferences) in
  let work_end := combine target_date (work_end_time preferences) in
  let work_start := localize timezone work_start in
  let work_end := localize timezone work_end in
  let current_time := work_start in
  let slot_duration := timedelta_minutes duration in
  let buffer_duration := timedelta_minutes (buffer_time preferences) in
  day_loop (day_fuel work_start work_end slot_duration buffer_duration)
    current_time work_end slot_duration buffer_duration.

(** The [while current_date <= end_date] loop of
    [_generate_potential_slots], over the [days] dates that remain. *)
Fixpoint dates_loop (days : nat) (current_date : date) (duration : Z)
    (preferences : UserPreferences) (timezone : tzinfo) (exclude_weekends : bool)
    : outcome (list TimeSlot) :=
  match days with
  | O => Ok []
  | S days' =>
    if exclude_weekends && (date_weekday current_date >=? 5) then
      dates_loop days' (current_date + 1) duration preferences timezone exclude_weekends
    else
      day_slots <- _generate_day_slots current_date duration preferences timezone ;;
      slots <- dates_loop days' (current_date + 1) duration preferences timezone
                 exclude_weekends ;;
      Ok (day_slots ++ slots)
  end.

(** [_generate_potential_slots]. *)
Definition _generate_potential_slots (start_date end_date : date) (duration : Z)
    (preferences : UserPreferences) (timezone : tzinfo) (exclude_weekends : bool)
    : outcome (list TimeSlot) :=
  dates_loop (Z.to_nat (end_date - start_date + 1)) start_date duration
    preferences timezone exclude_weekends.

(** ** Scoring: [_calculate_slot_score] and [_score_time_slots] *)

(** Python's two-argument [max] and [min]: the first argument is kept
    unless the second is strictly greater (resp. smaller). *)
Definition py_max (a b : float) : float := if PrimFloat.ltb a b then b else a.
Definition py_min (a b : float) : float := if PrimFloat.ltb b a then b else a.

(** [float(n)] for an integer of magnitude below 2^63. *)
Definition float_of_Z (n : Z) : float :=
  if n <? 0 then PrimFloat.opp (PrimFloat.of_uint63 (Uint63.of_Z (- n)))
  else PrimFloat.of_uint63 (Uint63.of_Z n).

(** [td.total_seconds()]: the microseconds divided by 10**6.  Python
    rounds the integer quotient once; so does this, as long as the
    microseconds are below 2^53 (some 285 years). *)
Definition total_seconds (td : timedelta) : float :=
  PrimFloat.div (float_of_Z td) (float_of_Z us_per_second).

(** [_calculate_slot_score]. *)
Definition _calculate_slot_score (slot : TimeSlot) (preferred_time : option datetime)
    (preferences : UserPreferences) (timezone : tzinfo) : float :=
  let score := 0.5%float in
  let score :=
    match preferred_time with
    | Some preferred_time =>
      let time_diff :=
        PrimFloat.abs (total_seconds (dt_sub (start_time slot) preferred_time)) in
      let time_bonus :=
        py_max 0 (0.5 - time_diff / float_of_Z (24 * 3600))%float in
      (score + time_bonus)%float
    | None => score
    end in
  let slot_time := dt_time (start_time slot) in
  let score :=
    if (work_start_time preferences <=? slot_time)
       && (slot_time <=? work_end_time preferences)
    then (score + 0.2)%float else score in
  let score :=
    if time_hour slot_time <? 12 then (score + 0.1)%float else score in
  let score :=
    if (time_hour slot_time <? 8) || (time_hour slot_time >? 17)
    then (score - 0.2)%float else score in
  let score :=
    if (11 <=? time_hour slot_time) && (time_hour slot_time <=? 13)
    then (score - 0.1)%float else score in
  let score :=
    if dt_weekday (start_time slot) <? 5 then (score + 0.1)%float else score in
  py_max 0.0 (py_min 1.0 score).

(** [list.sort(key=..., reverse=...)].  The runtime's sort compares keys
    with [<] only and is stable; with [reverse=True] it reverses the list,
    sorts it and reverses it again, so that equal keys keep their
    original order in both directions. *)
Section ListSort.
Context {A : Type} (key : A -> float).

Fixpoint insert_sorted (x : A) (l : list A) : list A :=
  match l with
  | [] => [x]
  | y :: rest =>
    if PrimFloat.ltb (key y) (key x) then y :: insert_sorted x rest
    else x :: y :: rest
  end.

Fixpoint stable_sort (l : list A) : list A :=
  match l with
  | [] => []
  | x :: rest => insert_sorted x (stable_sort rest)
  end.

Definition list_sort (reverse : bool) (l : list A) : list A :=
  if reverse then rev (stable_sort (rev l)) else stable_sort l.

(** No element is followed by a strictly smaller one. *)
Fixpoint ascending (l : list A) : Prop :=
  match l with
  | [] => True
  | a :: rest =>
    match rest with
    | [] => True
    | b :: _ => PrimFloat.ltb (key b) (key a) = false
    end /\ ascending rest
  end.
End ListSort.

(** The assignment [slot.confidence = c]. *)
Definition set_confidence (slot : TimeSlot) (c : float) : TimeSlot :=
  {| start_time := start_time slot; end_time := end_time slot; confidence := c |}.

(** The [for] loop of [_score_time_slots]. *)
Definition score_loop (slots : list TimeSlot) (preferred_time : option datetime)
    (preferences : UserPreferences) (timezone : tzinfo) : list TimeSlot :=
  map (fun slot =>
         let score := _calculate_slot_score slot preferred_time preferences timezone in
         set_confidence slot (py_min score 1.0))
      slots.

(** [_score_time_slots]. *)
Definition _score_time_slots (slots : list TimeSlot) (preferred_time : option datetime)
    (preferences : UserPreferences) (timezone : tzinfo) : list TimeSlot :=
  let scored_slots := score_loop slots preferred_time preferences timezone in
  list_sort confidence true scored_slots.

(** The one subtraction of [_calculate_slot_score],
    [slot.start_time - preferred_time], is made for every slot when a
    preferred time is given. *)
Definition _score_time_slots_compares (slots : list TimeSlot)
    (preferred_time : option datetime) : bool :=
  match preferred_time with
  | Some preferred_time =>
    forallb (fun slot => comparable (start_time slot) preferred_time) slots
  | None => true
  end.

(** ** The facade *)

(** [pytz.timezone(name)]. *)
Definition lookup_timezone (rt : Runtime) (name : string) : outcome tzinfo :=
  match pytz_timezone rt name with
  | Some tz => Ok tz
  | None => Raise (UnknownTimeZoneError name)
  end.

(** [find_available_slots]. *)
Definition find_available_slots (self : Scheduler) (rt : Runtime) (duration : Z)
    (preferred_time : option datetime) (user_context : option UserContext)
    (start_date end_date : option date) (exclude_weekends : bool)
    : outcome (list TimeSlot) :=
  try_except
    (let start_date :=
       match start_date with Some d => d | None => today rt end in
     let end_date :=
       match end_date with Some d => d | None => start_date + 14 end in
     let preferences :=
       match user_context with
       | Some ctx => preferences ctx
       | None => default_UserPreferences
       end in
     timezone <- lookup_timezone rt
                   (match user_context with
                    | Some ctx => current_timezone ctx
                    | None => "UTC"%string
                    end) ;;
     existing_events <- _get_existing_events self rt start_date end_date user_context ;;
     potential_slots <- _generate_potential_slots start_date end_date duration
                          preferences timezone exclude_weekends ;;
     available_slots <-
       comparing
         (_filter_conflicting_slots_compares potential_slots existing_events
            preferences)
         (_filter_conflicting_slots potential_slots existing_events preferences) ;;
     scored_slots <-
       comparing
         (_score_time_slots_compares available_slots preferred_time)
         (_score_time_slots available_slots preferred_time preferences timezone) ;;
     Ok (firstn (max_suggestions self) scored_slots))
    (fun _ => Ok []).

(** The [for] loop of [check_availability]. *)
Fixpoint conflict_free (start_time end_time : datetime) (existing_events : list Event)
    : bool :=
  match existing_events with
  | [] => true
  | event :: rest =>
    if EventStatus_eqb (status event) CANCELLED then
      conflict_free start_time end_time rest
    else if dt_ltb start_time (ev_end_time event)
            && dt_gtb end_time (ev_start_time event) then false
    else conflict_free start_time end_time rest
  end.

(** The comparisons of that loop: [start_time < event.end_time], then
    [end_time > event.start_time] if the first holds, for each event that
    is not cancelled, up to the event at which the loop returns. *)
Fixpoint conflict_free_compares (start_time end_time : datetime)
    (existing_events : list Event) : bool :=
  match existing_events with
  | [] => true
  | event :: rest =>
    if EventStatus_eqb (status event) CANCELLED then
      conflict_free_compares start_time end_time rest
    else
      comparable start_time (ev_end_time event)
      && (if dt_ltb start_time (ev_end_time event) then
            comparable end_time (ev_start_time event)
            && (if dt_gtb end_time (ev_start_time event) then true
                else conflict_free_compares start_time end_time rest)
          else conflict_free_compares start_time end_time rest)
  end.

(** [check_availability]: the handler logs and returns [False]. *)
Definition check_availability (self : Scheduler) (rt : Runtime)
    (start_time end_time : datetime) (user_context : option UserContext)
    : outcome bool :=
  try_except
    (existing_events <- _get_existing_events self rt (dt_date start_time)
                          (dt_date end_time) user_context ;;
     comparing (conflict_free_compares start_time end_time existing_events)
               (conflict_free start_time end_time existing_events))
    (fun _ => Ok false).

Definition unsupported (calendar_provider : string) : exn :=
  ValueError ("Unsupported calendar provider: " ++ calendar_provider).

(** [create_event]: the handler logs and re-raises. *)
Definition create_event (self : Scheduler) (title : string)
    (start_time end_time : datetime) (description location : option string)
    (attendees : list string) (calendar_provider : string) : outcome Event :=
  try_except
    (let event_data :=
       {| ed_title := title; ed_start_time := start_time; ed_end_time := end_time;
          ed_description := description; ed_location := location;
          ed_attendees := attendees |} in
     if String.eqb calendar_provider "google" then
       await (api_create_event (google_calendar self) event_data)
     else if String.eqb calendar_provider "outlook" then
       await (api_create_event (outlook_calendar self) event_data)
     else Raise (unsupported calendar_provider))
    (fun e => Raise e).

(** [update_event]: the handler logs and re-raises. *)
Definition update_event (self : Scheduler) (event_id : string)
    (updates : list (string * string)) (calendar_provider : string) : outcome Event :=
  try_except
    (if String.eqb calendar_provider "google" then
       await (api_update_event (google_calendar self) event_id updates)
     else if String.eqb calendar_provider "outlook" then
       await (api_update_event (outlook_calendar self) event_id updates)
     else Raise (unsupported calendar_provider))
    (fun e => Raise e).

(** [cancel_event]: the handler logs and returns [False]. *)
Definition cancel_event (self : Scheduler) (event_id : string)
    (calendar_provider : string) : outcome bool :=
  try_except
    (if String.eqb calendar_provider "google" then
       await (api_cancel_event (google_calendar self) event_id)
     else if String.eqb calendar_provider "outlook" then
       await (api_cancel_event (outlook_calendar self) event_id)
     else Raise (unsupported calendar_provider))
    (fun _ => Ok false).

(** [int(x)] on a float: truncation towards zero. *)
Definition int_of_float (x : float) : Z :=
  match Prim2SF x with
  | S754_finite s m e =>
    let magnitude :=
      if 0 <=? e then Z.shiftl (Zpos m) e else Z.shiftr (Zpos m) (- e) in
    if s then - magnitude else magnitude
  | _ => 0
  end.

(** Reading an attribute of [original_event], which is [None] when the
    API object found no event. *)
Definition attributes (original_event : option Event) : outcome Event :=
  match original_event with
  | Some event => Ok event
  | None => Raise (AttributeError "'NoneType' object has no attribute")
  end.

(** [suggest_reschedule_options]: the handler logs and returns [[]]. *)
Definition suggest_reschedule_options (self : Scheduler) (rt : Runtime)
    (event_id : string) (new_duration : option Z) (calendar_provider : string)
    : outcome (list TimeSlot) :=
  try_except
    (original_event <-
       (if String.eqb calendar_provider "google" then
          await (get_event (google_calendar self) event_id)
        else if String.eqb calendar_provider "outlook" then
          await (get_event (outlook_calendar self) event_id)
        else Raise (unsupported calendar_provider)) ;;
     original_event <- attributes original_event ;;
     let new_duration :=
       match new_duration with
       | Some n => if n =? 0 then None else Some n
       | None => None
       end in
     duration <-
       match new_duration with
       | Some n => Ok n
       | None =>
         comparing
           (comparable (ev_end_time original_event) (ev_start_time original_event))
           (int_of_float
              (total_seconds (dt_sub (ev_end_time original_event)
                                     (ev_start_time original_event))
               / float_of_Z 60)%float)
       end ;;
     find_available_slots self rt duration (Some (ev_start_time original_event))
       None (Some (today rt)) (Some (today rt + 30)) true)
    (fun _ => Ok []).

(** ** The rest of [class Scheduler] *)

(** [find_meeting_time]: the organizer's slots, anchored on the first of
    the preferred times; the attendees are not consulted. *)
Definition find_meeting_time (self : Scheduler) (rt : Runtime)
    (attendees : list string) (duration : Z)
    (preferred_times : option (list datetime)) (user_context : option UserContext)
    : outcome (list TimeSlot) :=
  try_except
    (available_slots <-
       find_available_slots self rt duration
         (match preferred_times with
          | Some (first :: _) => Some first
          | _ => None
          end)
         user_context None None true ;;
     Ok available_slots)
    (fun _ => Ok []).

(** The dict [type_adjustments] of [get_optimal_meeting_duration]. *)
Definition type_adjustments : dict Z :=
  [ ("standup", 15); ("one_on_one", 30); ("team_meeting", 60); ("review", 90);
    ("presentation", 60); ("workshop", 120); ("all_hands", 60) ]%string.

(** [get_optimal_meeting_duration]. *)
Definition get_optimal_meeting_duration (rt : Runtime) (meeting_type : string)
    (attendee_count : Z) (user_preferences : option UserPreferences) : Z :=
  let base_duration :=
    match user_preferences with
    | Some p => preferred_meeting_duration p
    | None => 60
    end in
  let base_duration :=
    match dict_get (str_lower rt meeting_type) type_adjustments with
    | Some adjusted => adjusted
    | None => base_duration
    end in
  if attendee_count >? 10 then base_duration + 15
  else if attendee_count >? 5 then base_duration + 10
  else base_duration.

(** ** The endpoints of [backend/main.py] that call the scheduler *)

(** [EventStatus.value] and [CalendarProvider.value]: the members are
    strings, and compare equal to them. *)
Definition EventStatus_value (st : EventStatus) : string :=
  match st with
  | SCHEDULED => "scheduled"
  | CANCELLED => "cancelled"
  | COMPLETED => "completed"
  | RESCHEDULED => "rescheduled"
  end.

Definition CalendarProvider_value (p : CalendarProvider) : string :=
  match p with
  | GOOGLE => "google"
  | OUTLOOK => "outlook"
  | APPLE => "apple"
  | ICAL => "ical"
  end.

Record EventRequest := mk_EventRequest {
  req_title : string;
  req_description : option string;
  req_start_time : option datetime;
  req_duration : Z;
  req_preferred_time : option datetime;
  req_location : option string;
  req_attendees : list string;
  req_calendar_provider : CalendarProvider;
  req_user_context : option UserContext
}.

Record EventResponse := mk_EventResponse {
  resp_event_id : string;
  resp_title : string;
  resp_start_time : datetime;
  resp_end_time : datetime;
  resp_status : EventStatus;
  resp_calendar_provider : CalendarProvider
}.

(** The constructor [EventResponse(...)]: [event_id] is a required [str],
    and the event may carry [None]. *)
Definition new_EventResponse (event : Event) (provider : CalendarProvider)
    : outcome EventResponse :=
  match event_id event with
  | None => Raise (ValidationError "event_id: none is not an allowed value")
  | Some id =>
    Ok {| resp_event_id := id; resp_title := title event;
          resp_start_time := ev_start_time event;
          resp_end_time := ev_end_time event;
          resp_status := SCHEDULED; resp_calendar_provider := provider |}
  end.

(** How an endpoint ends: with its response, with an [HTTPException], or
    not at all. *)
Inductive endpoint (A : Type) :=
| Responds (a : A)
| HTTPException (status_code : Z) (detail : string)
| Hangs.
Arguments Responds {A} a.
Arguments HTTPException {A} status_code detail.
Arguments Hangs {A}.

(** What the [try] body of an endpoint does: [HTTPException] is an
    [Exception] like the others, so the handler below catches the ones the
    body raises itself. *)
Inductive body (A : Type) :=
| Returns (a : A)
| RaisesHTTP (status_code : Z) (detail : string)
| Raises (e : exn)
| Loops.
Arguments Returns {A} a.
Arguments RaisesHTTP {A} status_code detail.
Arguments Raises {A} e.
Arguments Loops {A}.

Definition run {A} (c : outcome A) : body A :=
  match c with
  | Ok a => Returns a
  | Raise e => Raises e
  | Diverge => Loops
  end.

Definition then_ {A B} (c : body A) (k : A -> body B) : body B :=
  match c with
  | Returns a => k a
  | RaisesHTTP status_code detail => RaisesHTTP status_code detail
  | Raises e => Raises e
  | Loops => Loops
  end.

(** [except Exception as e: ...; raise HTTPException(status_code=500,
    detail=...)]. *)
Definition except_500 {A} (b : body A) (detail : string) : endpoint A :=
  match b with
  | Returns a => Responds a
  | RaisesHTTP _ _ => HTTPException 500 detail
  | Raises _ => HTTPException 500 detail
  | Loops => Hangs
  end.

(** [schedule_event], the handler of [POST /calendar/schedule]. *)
Definition schedule_event (scheduler : Scheduler) (rt : Runtime)
    (request : EventRequest) : endpoint EventResponse :=
  except_500
    (then_ (run (find_available_slots scheduler rt (req_duration request)
                   (req_preferred_time request) (req_user_context request)
                   None None true))
       (fun available_slots =>
          match available_slots with
          | [] => RaisesHTTP 409 "No available time slots found"
          | first :: _ =>
            then_ (run (create_event scheduler (req_title request)
                          (start_time first) (end_time first)
                          (req_description request) (req_location request) []
                          (CalendarProvider_value (req_calendar_provider request))))
              (fun event =>
                 run (new_EventResponse event (req_calendar_provider request)))
          end))
    "Event scheduling failed".

(** [get_events], the handler of [GET /calendar/events], over the
    module's own [GoogleCalendarAPI] object. *)
Definition get_events_endpoint (google_calendar : CalendarAPI)
    (start_date end_date : date) (calendar_provider : string)
    : endpoint (list Event) :=
  except_500
    (if String.eqb calendar_provider "google" then
       run (await (get_events google_calendar start_date end_date))
     else RaisesHTTP 400 "Unsupported calendar provider")
    "Failed to fetch events".

(** ** Closed forms *)

(** The [k]-th slot of a day and the number of slots of a day, as the
    cursor of [_generate_day_slots] visits them. *)
Definition nth_day_slot (work_start : datetime)
    (slot_duration buffer_duration : timedelta) (k : nat) : TimeSlot :=
  let start := dt_add work_start (Z.of_nat k * (slot_duration + buffer_duration)) in
  {| start_time := start; end_time := dt_add start slot_duration;
     confidence := 0.8 |}.

Definition day_slot_count (work_start work_end : datetime)
    (slot_duration buffer_duration : timedelta) : nat :=
  let span := instant work_end - instant work_start in
  if span <? slot_duration then 0%nat
  else Z.to_nat ((span - slot_duration) / (slot_duration + buffer_duration) + 1).

(** One slot has ended when the other starts. *)
Definition precedes (a b : TimeSlot) : Prop :=
  instant (end_time a) <= instant (start_time b).

(** A timezone with one UTC offset all year. *)
Definition fixed_offset (tz : tzinfo) : Prop := forall w w', tz w = tz w'.

(** ** What the specification says, in its own words *)

(** The three rejection conditions of the conflict filter, for a slot and
    one busy interval [E], with the buffer in minutes. *)
Definition overlap (slot : TimeSlot) (E : Event) : Prop :=
  instant (start_time slot) < instant (ev_end_time E)
  /\ instant (end_time slot) > instant (ev_start_time E).

Definition buffer_violation_before (buffer_minutes : Z) (slot : TimeSlot) (E : Event)
    : Prop :=
  instant (start_time slot) > instant (ev_end_time E)
  /\ instant (start_time slot) - instant (ev_end_time E)
     < timedelta_minutes buffer_minutes.

Definition buffer_violation_after (buffer_minutes : Z) (slot : TimeSlot) (E : Event)
    : Prop :=
  instant (ev_start_time E) > instant (end_time slot)
  /\ instant (ev_start_time E) - instant (end_time slot)
     < timedelta_minutes buffer_minutes.

Definition rejects (buffer_minutes : Z) (slot : TimeSlot) (E : Event) : Prop :=
  status E <> CANCELLED
  /\ (overlap slot E
      \/ buffer_violation_before buffer_minutes slot E
      \/ buffer_violation_after buffer_minutes slot E).

(** Floats that are neither infinite nor NaN. *)
Definition SFfinite (f : spec_float) : Prop :=
  match f with
  | S754_zero _ | S754_finite _ _ _ => True
  | _ => False
  end.

Definition finite (x : float) : Prop := SFfinite (Prim2SF x).

(** The scoring formula: the sum [S] ([score_sum]) and its clamping to [[0, 1]]. *)
Definition clamp (x lo hi : float) : float :=
  if PrimFloat.ltb x lo then lo else if PrimFloat.ltb hi x then hi else x.

Definition hour (d : datetime) : Z := time_hour (dt_time d).

Definition Monday_to_Friday (d : datetime) : bool :=
  existsb (Z.eqb (dt_weekday d)) [0; 1; 2; 3; 4].

(** [max(0, 0.5 - |slot.start - preferred_instant| / 86400 s)], and nothing
    when no preferred instant is given. *)
Definition proximity (slot : TimeSlot) (preferred_instant : option datetime) : float :=
  match preferred_instant with
  | Some p =>
    py_max 0 (0.5 - PrimFloat.abs (total_seconds (dt_sub (start_time slot) p)) / 86400)%float
  | None => 0%float
  end.

(** A conditional term of the sum. *)
Definition bonus (applies : bool) (t : float) (s : float) : float :=
  if applies then (s + t)%float else s.
Definition penalty (applies : bool) (t : float) (s : float) : float :=
  if applies then (s - t)%float else s.

Definition score_sum (slot : TimeSlot) (preferred_instant : option datetime)
    (preferences : UserPreferences) : float :=
  let start := start_time slot in
  let s := (0.5 + proximity slot preferred_instant)%float in
  let s := bonus ((work_start_time preferences <=? dt_time start)
                  && (dt_time start <=? work_end_time preferences)) 0.2 s in
  let s := bonus (hour start <? 12) 0.1 s in
  let s := penalty ((hour start <? 8) || (17 <? hour start)) 0.2 s in
  let s := penalty ((11 <=? hour start) && (hour start <=? 13)) 0.1 s in
  bonus (Monday_to_Friday start) 0.1 s.

(** The confidence [_score_time_slots] assigns to a slot. *)
Definition assigned_confidence (slot : TimeSlot) (preferred_time : option datetime)
    (preferences : UserPreferences) (timezone : tzinfo) : float :=
  py_min (_calculate_slot_score slot preferred_time preferences timezone) 1.0.

(** What generation promises of a slot of the day that runs from
    [work_start] to [work_end]: the requested length, the baseline
    confidence, the tzinfo of [work_start], and a place between the two
    ends of the day. *)
Definition generated_in_day (work_start work_end : datetime)
    (slot_duration : timedelta) (slot : TimeSlot) : Prop :=
  end_time slot = dt_add (start_time slot) slot_duration
  /\ confidence slot = 0.8%float
  /\ 0 < slot_duration
  /\ utcoff (start_time slot) = utcoff work_start
  /\ wall work_start <= wall (start_time slot)
  /\ instant (end_time slot) <= instant work_end.

(** The two ends of the working day of a date, localized. *)
Definition work_start_dt (d : date) (preferences : UserPreferences) (tz : tzinfo)
    : datetime :=
  localize tz (combine d (work_start_time preferences)).
Definition work_end_dt (d : date) (preferences : UserPreferences) (tz : tzinfo)
    : datetime :=
  localize tz (combine d (work_end_time preferences)).

(** A [time] object holds a time of day. *)
Definition valid_time (t : time) : Prop := 0 <= t < us_per_day.

(** The date range, preferences and timezone name [find_available_slots]
    settles on when arguments are left out. *)
Definition resolved_start (rt : Runtime) (start_date : option date) : date :=
  match start_date with Some d => d | None => today rt end.

Definition resolved_end (rt : Runtime) (start_date end_date : option date) : date :=
  match end_date with Some d => d | None => resolved_start rt start_date + 14 end.

Definition preferences_of (user_context : option UserContext) : UserPreferences :=
  match user_context with
  | Some ctx => preferences ctx
  | None => default_UserPreferences
  end.

Definition timezone_of (user_context : option UserContext) : string :=
  match user_context with
  | Some ctx => current_timezone ctx
  | None => "UTC"%string
  end.

(** A slot generated for one of the [days] dates from [first] on, a
    weekday when weekends are excluded. *)
Definition generated_on (first : date) (days : nat) (duration : Z)
    (preferences : UserPreferences) (tz : tzinfo) (exclude_weekends : bool)
    (slot : TimeSlot) : Prop :=
  exists d,
    first <= d < first + Z.of_nat days
    /\ (exclude_weekends = true -> date_weekday d < 5)
    /\ generated_in_day (work_start_dt d preferences tz) (work_end_dt d preferences tz)
         (timedelta_minutes duration) slot.

(** What one source of busy intervals contributes to an aggregation: the
    events its service lists, nothing if the request fails; the converted
    events of the user context, nothing if one does not convert. *)
Definition provided (service : Service) (start_date end_date : date) : list Event :=
  match list_events service start_date end_date with
  | Returned events => events
  | Failed _ => []
  end.

(** A field declared [Optional[str]] holds what the dict gave for it. *)
Definition holds_optional_str (v : pyvalue) (field : option string) : Prop :=
  match v with
  | PyNone => field = None
  | PyStr s => field = Some s
  | PyList _ => False
  end.

Definition context_events (rt : Runtime) (user_context : option UserContext)
    : list Event :=
  match user_context with
  | Some ctx =>
    match comprehension (_dict_to_event rt) (existing_events ctx) with
    | Ok events => events
    | _ => []
    end
  | None => []
  end.

(** The intervals obtained from the user context: every dict converted,
    in order; or none, when a dict does not convert. *)
Definition from_user_context (rt : Runtime) (user_context : option UserContext)
    (intervals : list Event) : Prop :=
  match user_context with
  | None => intervals = []
  | Some ctx =>
    Forall2 (fun d event => _dict_to_event rt d = Ok event)
            (existing_events ctx) intervals
    \/ (intervals = []
        /\ exists d, In d (existing_events ctx)
                     /\ forall event, _dict_to_event rt d <> Ok event)
  end.

(** The same user context with other preferences. *)
Definition with_preferences (preferences : UserPreferences)
    (user_context : option UserContext) : option UserContext :=
  option_map (fun ctx =>
                {| user_id := user_id ctx; email := email ctx;
                   preferences := preferences;
                   current_timezone := current_timezone ctx;
                   existing_events := existing_events ctx |})
             user_context.

(** ** Fixtures: Monday 2024-01-15, in UTC *)

Definition monday : date := 738900.

(** What [str.lower] does to ASCII text: the letters A to Z move to a to
    z and every other character stays. *)
Definition ascii_lower (c : ascii) : ascii :=
  let n := nat_of_ascii c in
  if (65 <=? n)%nat && (n <=? 90)%nat then ascii_of_nat (n + 32) else c.

Fixpoint lower_ascii (s : string) : string :=
  match s with
  | EmptyString => EmptyString
  | String c rest => String (ascii_lower c) (lower_ascii rest)
  end.

(** A runtime whose clock shows that Monday, which knows the zone "UTC",
    and whose parser reads the four timestamps below as [dateutil] does:
    those with an offset as aware datetimes, the others as naive ones. *)
Definition utc_runtime : Runtime :=
  {| today := monday;
     pytz_timezone := fun name => if String.eqb name "UTC" then Some UTC else None;
     parser_parse := fun text =>
       if String.eqb text "2024-01-15T13:00:00+00:00"
       then Some (localize UTC (combine monday (mk_time 13 0)))
       else if String.eqb text "2024-01-15T14:00:00+00:00"
       then Some (localize UTC (combine monday (mk_time 14 0)))
       else if String.eqb text "2024-01-15T13:00:00"
       then Some (naive (combine monday (mk_time 13 0)))
       else if String.eqb text "2024-01-15T14:00:00"
       then Some (naive (combine monday (mk_time 14 0)))
       else None;
     str_lower := lower_ascii |}.

Definition at_time (d : date) (h m : Z) : datetime :=
  localize UTC (combine d (mk_time h m)).

(** The same reading of the clock without a timezone, as
    [datetime(2024, 1, 15, h, m)] gives it. *)
Definition naive_at (d : date) (h m : Z) : datetime :=
  naive (combine d (mk_time h m)).

Definition meeting_10_to_11 : Event :=
  {| event_id := Some "event_1"%string; title := "Morning Meeting";
     ev_description := None;
     ev_start_time := at_time monday 10 0; ev_end_time := at_time monday 11 0;
     ev_location := None; ev_attendees := [];
     calendar_provider := GOOGLE; status := SCHEDULED |}.

(** An entry of a user context: an hour from 13:00, with the offset
    written out, and the same hour without it. *)
Definition lunch_dict : event_dict :=
  [ ("title", PyStr "Lunch"); ("start_time", PyStr "2024-01-15T13:00:00+00:00");
    ("end_time", PyStr "2024-01-15T14:00:00+00:00") ]%string.

Definition lunch : Event :=
  {| event_id := None; title := "Lunch"; ev_description := None;
     ev_start_time := at_time monday 13 0; ev_end_time := at_time monday 14 0;
     ev_location := None; ev_attendees := [];
     calendar_provider := GOOGLE; status := SCHEDULED |}.

Definition naive_lunch_dict : event_dict :=
  [ ("title", PyStr "Lunch"); ("start_time", PyStr "2024-01-15T13:00:00");
    ("end_time", PyStr "2024-01-15T14:00:00") ]%string.

Definition naive_lunch : Event :=
  {| event_id := None; title := "Lunch"; ev_description := None;
     ev_start_time := naive_at monday 13 0; ev_end_time := naive_at monday 14 0;
     ev_location := None; ev_attendees := [];
     calendar_provider := GOOGLE; status := SCHEDULED |}.

Definition context_with (dicts : list event_dict) : UserContext :=
  {| user_id := "user_1"; email := "user@example.com";
     preferences := default_UserPreferences; current_timezone := "UTC";
     existing_events := dicts |}.

Definition slot_at (d : date) (h m : Z) (minutes : Z) : TimeSlot :=
  {| start_time := at_time d h m;
     end_time := dt_add (at_time d h m) (timedelta_minutes minutes);
     confidence := 0.8 |}.

(** Tuesday 2021-09-21 in a zone whose clocks go back an hour at the
    midnight that follows, from +04:30 to +03:30 (the offsets of
    Asia/Tehran that night): [localize] gives the later offset from 23:00
    on.  And a user who works from 08:00 to 23:30. *)
Definition tuesday : date := 738054.

Definition clocks_go_back : tzinfo :=
  fun wall_clock =>
    if wall_clock <? combine tuesday (mk_time 23 0)
    then 4 * us_per_hour + 30 * us_per_minute
    else 3 * us_per_hour + 30 * us_per_minute.

Definition late_worker : UserPreferences :=
  {| preferred_meeting_duration := 60;
     work_start_time := mk_time 8 0;
     work_end_time := mk_time 23 30;
     timezone := "Asia/Tehran";
     buffer_time := 15;
     max_meetings_per_day := 8;
     preferred_calendar := GOOGLE |}.

(** A calendar with nothing in it, one with a meeting, one that cannot be
    reached. *)
Definition empty_service : Service :=
  {| list_events := fun _ _ => Returned [];
     insert_event := fun _ => Failed (ApiError "read-only");
     patch_event := fun _ _ => Failed (ApiError "read-only");
     delete_event := fun _ => Returned tt;
     fetch_event := fun _ => Returned NoResponse |}.

Definition busy_service : Service :=
  {| list_events := fun _ _ => Returned [meeting_10_to_11];
     insert_event := fun _ => Failed (ApiError "read-only");
     patch_event := fun _ _ => Failed (ApiError "read-only");
     delete_event := fun _ => Returned tt;
     fetch_event := fun _ => Returned (Converted meeting_10_to_11) |}.

Definition unreachable_service : Service :=
  {| list_events := fun _ _ => Failed (ApiError "connection refused");
     insert_event := fun _ => Failed (ApiError "connection refused");
     patch_event := fun _ _ => Failed (ApiError "connection refused");
     delete_event := fun _ => Failed (ApiError "connection refused");
     fetch_event := fun _ => Failed (ApiError "connection refused") |}.

(** * Proofs *)

(** ** Booleans of the embedding as propositions *)

Lemma EventStatus_eqb_eq (a b : EventStatus) : EventStatus_eqb a b = true <-> a = b.
Proof. destruct a, b; simpl; split; congruence. Qed.

Lemma EventStatus_eqb_neq (a b : EventStatus) : EventStatus_eqb a b = false <-> a <> b.
Proof. destruct a, b; simpl; split; congruence. Qed.

Lemma dt_leb_le (a b : datetime) : dt_leb a b = true <-> instant a <= instant b.
Proof. apply Z.leb_le. Qed.

Lemma dt_leb_gt (a b : datetime) : dt_leb a b = false <-> instant b < instant a.
Proof. apply Z.leb_gt. Qed.

Lemma instant_dt_add (d : datetime) (delta : timedelta) :
  instant (dt_add d delta) = instant d + delta.
Proof. unfold instant, utcoff, dt_add; simpl; destruct (utcoffset d); lia. Qed.

Lemma aware_dt_add (d : datetime) (delta : timedelta) :
  aware (dt_add d delta) = aware d.
Proof. reflexivity. Qed.

Lemma utcoff_dt_add (d : datetime) (delta : timedelta) :
  utcoff (dt_add d delta) = utcoff d.
Proof. reflexivity. Qed.

Lemma comparable_refl (d : datetime) : comparable d d = true.
Proof. unfold comparable. apply eqb_reflx. Qed.

Lemma comparable_dt_add (d : datetime) (delta : timedelta) :
  comparable (dt_add d delta) d = true.
Proof. unfold comparable. rewrite aware_dt_add. apply eqb_reflx. Qed.

Lemma comparable_iff (a b : datetime) : comparable a b = true <-> aware a = aware b.
Proof. unfold comparable. apply eqb_true_iff. Qed.

Lemma comparable_sym (a b : datetime) : comparable a b = comparable b a.
Proof. unfold comparable. destruct (aware a), (aware b); reflexivity. Qed.

Lemma aware_localize (tz : tzinfo) (w : Z) : aware (localize tz w) = true.
Proof. reflexivity. Qed.

Lemma utcoff_localize (tz : tzinfo) (w : Z) : utcoff (localize tz w) = tz w.
Proof. reflexivity. Qed.

Ltac to_prop :=
  repeat match goal with
  | H : (_ && _)%bool = true |- _ => apply andb_true_iff in H; destruct H
  | H : (_ && _)%bool = false |- _ => apply andb_false_iff in H
  | H : (_ || _)%bool = true |- _ => apply orb_true_iff in H
  | H : (_ || _)%bool = false |- _ => apply orb_false_iff in H; destruct H
  | H : dt_gtb _ _ = _ |- _ => unfold dt_gtb in H
  | H : dt_ltb _ _ = true |- _ => apply Z.ltb_lt in H
  | H : dt_ltb _ _ = false |- _ => apply Z.ltb_ge in H
  | H : dt_leb _ _ = true |- _ => apply Z.leb_le in H
  | H : dt_leb _ _ = false |- _ => apply Z.leb_gt in H
  | H : (_ <? _) = true |- _ => apply Z.ltb_lt in H
  | H : (_ <? _) = false |- _ => apply Z.ltb_ge in H
  | H : (_ <=? _) = true |- _ => apply Z.leb_le in H
  | H : (_ <=? _) = false |- _ => apply Z.leb_gt in H
  | H : (_ >=? _) = true |- _ => apply Z.geb_le in H
  | H : (_ >? _) = true |- _ => apply Z.gtb_lt in H
  | H : EventStatus_eqb _ _ = true |- _ => apply EventStatus_eqb_eq in H
  | H : EventStatus_eqb _ _ = false |- _ => apply EventStatus_eqb_neq in H
  end.

(** ** The conflict filter *)

(** One pass of the inner loop body: an event rejects the slot exactly when
    the three tests of the source say so. *)
Lemma is_available_cons (slot : TimeSlot) (E : Event) (events : list Event)
    (preferences : UserPreferences) :
  is_available slot (E :: events) preferences = true
  <-> ~ rejects (buffer_time preferences) slot E
      /\ is_available slot events preferences = true.
Proof.
  unfold rejects, overlap, buffer_violation_before, buffer_violation_after.
  simpl. unfold _slots_overlap, dt_sub.
  destruct (EventStatus_eqb (status E) CANCELLED) eqn:Hc.
  { to_prop. intuition. }
  destruct (dt_ltb (start_time slot) (ev_end_time E)
            && dt_gtb (end_time slot) (ev_start_time E)) eqn:Ho.
  { to_prop. split; [discriminate|]. intros [Hn _]. exfalso. apply Hn.
    split; [assumption|]. left. lia. }
  destruct ((instant (start_time slot) - instant (ev_end_time E)
             <? timedelta_minutes (buffer_time preferences))
            && dt_gtb (start_time slot) (ev_end_time E)) eqn:Hb.
  { to_prop. split; [discriminate|]. intros [Hn _]. exfalso. apply Hn.
    split; [assumption|]. right; left. lia. }
  destruct ((instant (ev_start_time E) - instant (end_time slot)
             <? timedelta_minutes (buffer_time preferences))
            && dt_gtb (ev_start_time E) (end_time slot)) eqn:Ha.
  { to_prop. split; [discriminate|]. intros [Hn _]. exfalso. apply Hn.
    split; [assumption|]. right; right. lia. }
  split; [|tauto]. intros Hr. split; [|assumption].
  intros [_ [[H1 H2] | [[H1 H2] | [H1 H2]]]];
    to_prop; destruct Ho, Hb, Ha; to_prop; lia.
Qed.

Lemma is_available_iff (slot : TimeSlot) (events : list Event)
    (preferences : UserPreferences) :
  is_available slot events preferences = true
  <-> forall E, In E events -> ~ rejects (buffer_time preferences) slot E.
Proof.
  induction events as [|E events IH].
  - simpl. split; [intros _ E []|reflexivity].
  - rewrite is_available_cons, IH. simpl. split.
    + intros [H1 H2] E' [<-|Hin]; auto.
    + intros H. split; auto.
Qed.

Lemma filter_conflicting_is_filter (slots : list TimeSlot) (events : list Event)
    (preferences : UserPreferences) :
  _filter_conflicting_slots slots events preferences
  = filter (fun slot => is_available slot events preferences) slots.
Proof.
  induction slots as [|slot slots IH]; simpl; [reflexivity|].
  rewrite IH. reflexivity.
Qed.

(** When the slot and the busy intervals are of one kind, the inner loop
    gets through its comparisons. *)
Lemma is_available_compares_same_kind (slot : TimeSlot) (events : list Event)
    (preferences : UserPreferences) :
  (forall E, In E events -> status E <> CANCELLED ->
     comparable (start_time slot) (ev_end_time E) = true
     /\ comparable (ev_start_time E) (end_time slot) = true) ->
  is_available_compares slot events preferences = true.
Proof.
  induction events as [|E events IH]; intros Hall; [reflexivity|].
  assert (Hrest : is_available_compares slot events preferences = true)
    by (apply IH; intros E' Hin; apply Hall; right; assumption).
  simpl. destruct (EventStatus_eqb (status E) CANCELLED) eqn:Hc; [exact Hrest|].
  to_prop. destruct (Hall E (or_introl eq_refl) Hc) as [H1 H2].
  unfold _slots_overlap_compares. rewrite H1, H2, (comparable_sym (end_time slot)), H2.
  rewrite Hrest. simpl.
  repeat match goal with
         | |- context [if ?b then _ else _] => destruct b; simpl
         end; reflexivity.
Qed.

(** A slot the loop finds available was compared with every busy interval
    that is not cancelled, at both ends. *)
Lemma is_available_compares_kept (slot : TimeSlot) (events : list Event)
    (preferences : UserPreferences) :
  is_available slot events preferences = true ->
  is_available_compares slot events preferences = true ->
  forall E, In E events -> status E <> CANCELLED ->
    comparable (start_time slot) (ev_end_time E) = true
    /\ comparable (ev_start_time E) (end_time slot) = true.
Proof.
  induction events as [|E' events IH]; intros Hav Hcmp E Hin Hc; [destruct Hin|].
  simpl in Hav, Hcmp.
  destruct (EventStatus_eqb (status E') CANCELLED) eqn:Hc'.
  { to_prop. destruct Hin as [->|Hin]; [contradiction|]. apply IH; assumption. }
  destruct (_slots_overlap slot E'); [discriminate|].
  destruct ((dt_sub (start_time slot) (ev_end_time E')
             <? timedelta_minutes (buffer_time preferences))
            && dt_gtb (start_time slot) (ev_end_time E')); [discriminate|].
  destruct ((dt_sub (ev_start_time E') (end_time slot)
             <? timedelta_minutes (buffer_time preferences))
            && dt_gtb (ev_start_time E') (end_time slot)); [discriminate|].
  apply andb_true_iff in Hcmp. destruct Hcmp as [_ Hcmp].
  apply andb_true_iff in Hcmp. destruct Hcmp as [H1 Hcmp].
  apply andb_true_iff in Hcmp. destruct Hcmp as [H2 Hcmp].
  destruct Hin as [<-|Hin]; [split; assumption|].
  apply IH; assumption.
Qed.

Lemma filter_compares_same_kind (slots : list TimeSlot) (events : list Event)
    (preferences : UserPreferences) :
  Forall (fun slot => aware (start_time slot) = true /\ aware (end_time slot) = true)
         slots ->
  (forall E, In E events -> status E <> CANCELLED ->
     aware (ev_start_time E) = true /\ aware (ev_end_time E) = true) ->
  _filter_conflicting_slots_compares slots events preferences = true.
Proof.
  intros Hslots Hevents. apply forallb_forall. intros slot Hin.
  destruct (proj1 (Forall_forall _ _) Hslots slot Hin) as [Hs He].
  apply is_available_compares_same_kind. intros E HE Hc.
  destruct (Hevents E HE Hc) as [Hes Hee].
  split; apply comparable_iff; congruence.
Qed.

Lemma score_compares_same_kind (slots : list TimeSlot)
    (preferred_time : option datetime) :
  Forall (fun slot => aware (start_time slot) = true /\ aware (end_time slot) = true)
         slots ->
  (forall p, preferred_time = Some p -> aware p = true) ->
  _score_time_slots_compares slots preferred_time = true.
Proof.
  intros Hslots Hp. destruct preferred_time as [p|]; [|reflexivity].
  apply forallb_forall. intros slot Hin.
  destruct (proj1 (Forall_forall _ _) Hslots slot Hin) as [Hs _].
  apply comparable_iff. rewrite Hs. symmetry. apply Hp. reflexivity.
Qed.

(** C1.  The conflict filter keeps the candidates, in their order, that the
    inner loop leaves available; the loop rejects a slot if and only if
    some interval [E] of the busy list that is not cancelled overlaps it,
    ends less than the buffer before it starts, or starts less than the
    buffer after it ends.  A gap of exactly the buffer on either side
    keeps the slot, and a list of cancelled intervals rejects nothing. *)
Theorem filter_conflicting_slots_spec (slots : list TimeSlot) (events : list Event)
    (preferences : UserPreferences) :
  _filter_conflicting_slots slots events preferences
  = filter (fun slot => is_available slot events preferences) slots
  /\ (forall slot,
        is_available slot events preferences = false
        <-> exists E, In E events /\ rejects (buffer_time preferences) slot E)
  /\ (forall slot E,
        0 <= buffer_time preferences ->
        instant (start_time slot) < instant (end_time slot) ->
        instant (ev_start_time E) < instant (ev_end_time E) ->
        instant (start_time slot) - instant (ev_end_time E)
          = timedelta_minutes (buffer_time preferences)
        \/ instant (ev_start_time E) - instant (end_time slot)
          = timedelta_minutes (buffer_time preferences) ->
        _filter_conflicting_slots [slot] [E] preferences = [slot])
  /\ ((forall E, In E events -> status E = CANCELLED) ->
      _filter_conflicting_slots slots events preferences = slots).
Proof.
  split; [apply filter_conflicting_is_filter|]. split; [|split].
  - intros slot. split.
    + intros Hf. induction events as [|E events IH]; [discriminate|].
      destruct (is_available slot events preferences) eqn:Hrest.
      * exists E. split; [left; reflexivity|].
        unfold rejects, overlap, buffer_violation_before, buffer_violation_after.
        simpl in Hf. unfold _slots_overlap, dt_sub in Hf.
        destruct (EventStatus_eqb (status E) CANCELLED) eqn:Hc; [congruence|].
        to_prop. split; [assumption|].
        destruct (dt_ltb (start_time slot) (ev_end_time E)
                  && dt_gtb (end_time slot) (ev_start_time E)) eqn:Ho.
        { to_prop. left. lia. }
        destruct ((instant (start_time slot) - instant (ev_end_time E)
                   <? timedelta_minutes (buffer_time preferences))
                  && dt_gtb (start_time slot) (ev_end_time E)) eqn:Hb.
        { to_prop. right; left. lia. }
        destruct ((instant (ev_start_time E) - instant (end_time slot)
                   <? timedelta_minutes (buffer_time preferences))
                  && dt_gtb (ev_start_time E) (end_time slot)) eqn:Ha.
        { to_prop. right; right. lia. }
        congruence.
      * destruct (IH eq_refl) as [E' [Hin Hr]]. exists E'. split; [right|]; assumption.
    + intros [E [Hin Hr]].
      destruct (is_available slot events preferences) eqn:Hav; [|reflexivity].
      exfalso. exact (proj1 (is_available_iff slot events preferences) Hav E Hin Hr).
  - intros slot E Hb Hs He Hgap.
    rewrite filter_conflicting_is_filter.
    assert (Hav : is_available slot [E] preferences = true);
      [|cbn [filter]; rewrite Hav; reflexivity].
    apply is_available_iff. intros E' [<-|[]].
    unfold rejects, overlap, buffer_violation_before, buffer_violation_after.
    unfold timedelta_minutes, us_per_minute, us_per_second in *.
    intros [_ [[H1 H2] | [[H1 H2] | [H1 H2]]]]; lia.
  - intros Hall. rewrite filter_conflicting_is_filter.
    apply forallb_filter_id. apply forallb_forall. intros slot _.
    apply is_available_iff. intros E Hin [Hn _]. apply Hn, Hall, Hin.
Qed.

(** ** Order on binary64 floats

    The comparisons of [PrimFloat] are those of [SFcompare] on the
    decoded floats: a total preorder once NaN is left out. *)

Ltac cmp_cases :=
  repeat match goal with
  | |- context [Pos.compare_cont Eq ?a ?b] =>
      change (Pos.compare_cont Eq a b) with (Pos.compare a b)
  | H : context [Pos.compare_cont Eq ?a ?b] |- _ =>
      change (Pos.compare_cont Eq a b) with (Pos.compare a b) in H
  end;
  repeat match goal with
  | H : context [(?a ?= ?b)%Z] |- _ => destruct (Z.compare_spec a b); simpl in H
  | H : context [(?a ?= ?b)%positive] |- _ => destruct (Pos.compare_spec a b); simpl in H
  | |- context [(?a ?= ?b)%Z] => destruct (Z.compare_spec a b); simpl
  | |- context [(?a ?= ?b)%positive] => destruct (Pos.compare_spec a b); simpl
  end.

Lemma SFcompare_antisym (f g : spec_float) :
  SFcompare g f = option_map CompOpp (SFcompare f g).
Proof.
  destruct f as [s1|s1| |s1 m1 e1], g as [s2|s2| |s2 m2 e2]; simpl;
    try destruct s1; try destruct s2; try reflexivity;
    cmp_cases; subst; try reflexivity; try lia.
Qed.

Lemma SFcompare_trans (f g h : spec_float) (c : comparison) :
  SFcompare f g = Some c -> SFcompare g h = Some c -> SFcompare f h = Some c.
Proof.
  destruct f as [s1|s1| |s1 m1 e1], g as [s2|s2| |s2 m2 e2], h as [s3|s3| |s3 m3 e3];
    simpl; try destruct s1; try destruct s2; try destruct s3; simpl;
    try congruence; intros H1 H2;
    cmp_cases; subst; try congruence; try lia.
Qed.

Lemma SFcompare_refl (f : spec_float) : f <> S754_nan -> SFcompare f f = Some Eq.
Proof.
  destruct f as [s|s| |s m e]; simpl; intros Hn; try destruct s; try congruence;
    rewrite Z.compare_refl;
    change (Pos.compare_cont Eq m m) with (Pos.compare m m);
    rewrite Pos.compare_refl; reflexivity.
Qed.

Lemma SFcompare_Some (f g : spec_float) :
  f <> S754_nan -> g <> S754_nan -> exists c, SFcompare f g = Some c.
Proof.
  destruct f as [s1|s1| |s1 m1 e1], g as [s2|s2| |s2 m2 e2]; simpl;
    intros Hf Hg; try congruence; eexists; reflexivity.
Qed.

Lemma SFcompare_nan (f g : spec_float) (c : comparison) :
  SFcompare f g = Some c -> f <> S754_nan /\ g <> S754_nan.
Proof.
  destruct f as [s1|s1| |s1 m1 e1], g as [s2|s2| |s2 m2 e2]; simpl;
    intros H; split; congruence.
Qed.

Lemma is_nan_false (x : float) : is_nan x = false <-> Prim2SF x <> S754_nan.
Proof.
  unfold is_nan. rewrite FloatAxioms.eqb_spec. unfold SFeqb. split.
  - intros H Hn. rewrite Hn in H. discriminate.
  - intros Hn. rewrite (SFcompare_refl _ Hn). reflexivity.
Qed.

Lemma ltb_not_nan (x y : float) :
  PrimFloat.ltb x y = true -> is_nan x = false /\ is_nan y = false.
Proof.
  rewrite FloatAxioms.ltb_spec, !is_nan_false. unfold SFltb.
  destruct (SFcompare (Prim2SF x) (Prim2SF y)) as [c|] eqn:Hc; [|discriminate].
  intros _. exact (SFcompare_nan _ _ _ Hc).
Qed.

Lemma ltb_asym (x y : float) : PrimFloat.ltb x y = true -> PrimFloat.ltb y x = false.
Proof.
  rewrite !FloatAxioms.ltb_spec. unfold SFltb.
  rewrite (SFcompare_antisym (Prim2SF x) (Prim2SF y)).
  destruct (SFcompare (Prim2SF x) (Prim2SF y)) as [[]|]; simpl; congruence.
Qed.

Lemma ltb_trans (x y z : float) :
  PrimFloat.ltb x y = true -> PrimFloat.ltb y z = true -> PrimFloat.ltb x z = true.
Proof.
  rewrite !FloatAxioms.ltb_spec. unfold SFltb.
  destruct (SFcompare (Prim2SF x) (Prim2SF y)) as [[]|] eqn:H1; try discriminate.
  destruct (SFcompare (Prim2SF y) (Prim2SF z)) as [[]|] eqn:H2; try discriminate.
  rewrite (SFcompare_trans _ _ _ _ H1 H2). reflexivity.
Qed.

(** Without NaN the order is total: [not (x < y)] is [y <= x]. *)
Lemma leb_of_not_ltb (x y : float) :
  is_nan x = false -> is_nan y = false ->
  PrimFloat.ltb x y = false -> PrimFloat.leb y x = true.
Proof.
  rewrite !is_nan_false, FloatAxioms.ltb_spec, FloatAxioms.leb_spec. unfold SFltb, SFleb. intros Hx Hy.
  rewrite (SFcompare_antisym (Prim2SF x) (Prim2SF y)).
  destruct (SFcompare_Some _ _ Hx Hy) as [c ->]. destruct c; simpl; congruence.
Qed.

(** Two floats equal to a third are not ordered strictly. *)
Lemma eqb_not_ltb (x y c : float) :
  PrimFloat.eqb x c = true -> PrimFloat.eqb y c = true -> PrimFloat.ltb y x = false.
Proof.
  rewrite !FloatAxioms.eqb_spec, FloatAxioms.ltb_spec. unfold SFeqb, SFltb.
  destruct (SFcompare (Prim2SF x) (Prim2SF c)) as [[]|] eqn:H1; try discriminate.
  destruct (SFcompare (Prim2SF y) (Prim2SF c)) as [[]|] eqn:H2; try discriminate.
  intros _ _.
  assert (H3 : SFcompare (Prim2SF c) (Prim2SF x) = Some Eq).
  { rewrite SFcompare_antisym, H1. reflexivity. }
  rewrite (SFcompare_trans _ _ _ _ H2 H3). reflexivity.
Qed.

Lemma py_max_not_nan (a b : float) : is_nan a = false -> is_nan (py_max a b) = false.
Proof.
  unfold py_max. intros Ha. destruct (PrimFloat.ltb a b) eqn:Hl; [|assumption].
  apply (ltb_not_nan _ _ Hl).
Qed.

Lemma py_min_not_nan (a b : float) : is_nan a = false -> is_nan (py_min a b) = false.
Proof.
  unfold py_min. intros Ha. destruct (PrimFloat.ltb b a) eqn:Hl; [|assumption].
  apply (ltb_not_nan _ _ Hl).
Qed.

(** ** [list.sort]: sorted, stable, a permutation *)

Section ListSortFacts.
Context {A : Type} (key : A -> float).

Lemma insert_sorted_ascending (x : A) (l : list A) :
  ascending key l -> ascending key (insert_sorted key x l).
Proof.
  induction l as [|y rest IH]; simpl; [auto|].
  intros [Hhd Hrest]. destruct (PrimFloat.ltb (key y) (key x)) eqn:Hlt.
  - split; [|apply IH, Hrest].
    destruct rest as [|z rest']; simpl.
    + apply ltb_asym, Hlt.
    + destruct (PrimFloat.ltb (key z) (key x)); [assumption|apply ltb_asym, Hlt].
  - simpl. auto.
Qed.

Lemma stable_sort_ascending (l : list A) : ascending key (stable_sort key l).
Proof.
  induction l as [|x rest IH]; simpl; [exact I|].
  apply insert_sorted_ascending, IH.
Qed.

Lemma ascending_adjacent (l before after : list A) (a b : A) :
  ascending key l -> l = before ++ a :: b :: after ->
  PrimFloat.ltb (key b) (key a) = false.
Proof.
  revert l. induction before as [|c before IH]; intros l Hasc ->.
  - simpl in Hasc. tauto.
  - apply (IH (before ++ a :: b :: after)); [|reflexivity].
    simpl in Hasc. tauto.
Qed.

Lemma insert_sorted_perm (x : A) (l : list A) :
  Permutation (insert_sorted key x l) (x :: l).
Proof.
  induction l as [|y rest IH]; simpl; [reflexivity|].
  destruct (PrimFloat.ltb (key y) (key x)); [|reflexivity].
  rewrite IH. apply perm_swap.
Qed.

Lemma stable_sort_perm (l : list A) : Permutation (stable_sort key l) l.
Proof.
  induction l as [|x rest IH]; simpl; [reflexivity|].
  rewrite insert_sorted_perm, IH. reflexivity.
Qed.

(** An element goes in front of those it is not strictly greater than:
    the elements a predicate selects keep their order, as long as no two
    of them are strictly ordered. *)
Lemma filter_insert_sorted (p : A -> bool) (x : A) (l : list A) :
  (forall a b, p a = true -> p b = true -> PrimFloat.ltb (key b) (key a) = false) ->
  filter p (insert_sorted key x l) = filter p (x :: l).
Proof.
  intros Hp. induction l as [|y rest IH]; simpl; [reflexivity|].
  destruct (PrimFloat.ltb (key y) (key x)) eqn:Hlt; [|reflexivity].
  simpl. rewrite IH. simpl.
  destruct (p x) eqn:Hx, (p y) eqn:Hy; try reflexivity.
  rewrite (Hp x y Hx Hy) in Hlt. discriminate.
Qed.

Lemma filter_stable_sort (p : A -> bool) (l : list A) :
  (forall a b, p a = true -> p b = true -> PrimFloat.ltb (key b) (key a) = false) ->
  filter p (stable_sort key l) = filter p l.
Proof.
  intros Hp. induction l as [|x rest IH]; simpl; [reflexivity|].
  rewrite (filter_insert_sorted p x _ Hp). simpl. rewrite IH. reflexivity.
Qed.

Lemma stable_sort_fixed (l : list A) : ascending key l -> stable_sort key l = l.
Proof.
  induction l as [|x rest IH]; simpl; [reflexivity|].
  intros [Hhd Hrest]. rewrite (IH Hrest).
  destruct rest as [|y rest']; simpl; [reflexivity|].
  rewrite Hhd. reflexivity.
Qed.

Lemma list_sort_perm (reverse : bool) (l : list A) :
  Permutation (list_sort key reverse l) l.
Proof.
  unfold list_sort. destruct reverse; [|apply stable_sort_perm].
  rewrite <- Permutation_rev, stable_sort_perm, <- Permutation_rev. reflexivity.
Qed.

Lemma filter_list_sort (p : A -> bool) (reverse : bool) (l : list A) :
  (forall a b, p a = true -> p b = true -> PrimFloat.ltb (key b) (key a) = false) ->
  filter p (list_sort key reverse l) = filter p l.
Proof.
  intros Hp. unfold list_sort. destruct reverse; [|apply filter_stable_sort, Hp].
  rewrite filter_rev, (filter_stable_sort p _ Hp), filter_rev, rev_involutive.
  reflexivity.
Qed.

(** With [reverse=True] no element is followed by a strictly greater one. *)
Lemma list_sort_reverse_adjacent (l before after : list A) (a b : A) :
  list_sort key true l = before ++ a :: b :: after ->
  PrimFloat.ltb (key a) (key b) = false.
Proof.
  unfold list_sort. intros H.
  apply (ascending_adjacent (stable_sort key (rev l)) (rev after) (rev before) b a).
  - apply stable_sort_ascending.
  - rewrite <- (rev_involutive (stable_sort key (rev l))), H.
    rewrite rev_app_distr. simpl. rewrite <- !app_assoc. reflexivity.
Qed.

Lemma list_sort_reverse_fixed (l : list A) :
  list_sort key true (list_sort key true l) = list_sort key true l.
Proof.
  unfold list_sort. rewrite rev_involutive.
  rewrite (stable_sort_fixed _ (stable_sort_ascending (rev l))). reflexivity.
Qed.
End ListSortFacts.

Lemma eqb_refl_not_nan (x : float) : is_nan x = false -> PrimFloat.eqb x x = true.
Proof. unfold is_nan. destruct (PrimFloat.eqb x x); simpl; congruence. Qed.

Lemma eqb_of_not_ltb (x y : float) :
  is_nan x = false -> is_nan y = false ->
  PrimFloat.ltb x y = false -> PrimFloat.ltb y x = false -> PrimFloat.eqb x y = true.
Proof.
  rewrite !is_nan_false, !FloatAxioms.ltb_spec, FloatAxioms.eqb_spec.
  unfold SFltb, SFeqb. intros Hx Hy.
  rewrite (SFcompare_antisym (Prim2SF x) (Prim2SF y)).
  destruct (SFcompare_Some _ _ Hx Hy) as [c ->]. destruct c; simpl; congruence.
Qed.

(** ** Rounding never produces NaN *)

Lemma shr_1_nonneg (mrs : shr_record) : 0 <= shr_m mrs -> 0 <= shr_m (shr_1 mrs).
Proof.
  destruct mrs as [m r s]. simpl.
  destruct m as [|p|p]; try destruct p; simpl; lia.
Qed.

Lemma iter_pos_invariant {A : Type} (P : A -> Prop) (f : A -> A) :
  (forall x, P x -> P (f x)) -> forall p x, P x -> P (iter_pos f p x).
Proof.
  intros Hf. induction p as [p IH|p IH|]; simpl; intros x Hx; auto.
Qed.

Lemma shr_nonneg (mrs : shr_record) (e n : Z) :
  0 <= shr_m mrs -> 0 <= shr_m (fst (shr mrs e n)).
Proof.
  intros H. unfold shr. destruct n; simpl; try assumption.
  apply (iter_pos_invariant (fun r => 0 <= shr_m r)); [apply shr_1_nonneg|assumption].
Qed.

Lemma shr_fexp_nonneg (prec emax m e : Z) (l : location) :
  0 <= m -> 0 <= shr_m (fst (shr_fexp prec emax m e l)).
Proof.
  intros H. unfold shr_fexp. apply shr_nonneg.
  destruct l as [|[]]; simpl; assumption.
Qed.

Lemma round_nearest_even_nonneg (m : Z) (l : location) :
  0 <= m -> 0 <= round_nearest_even m l.
Proof.
  intros H. destruct l as [|[]]; simpl; try lia.
  destruct (Z.even m); lia.
Qed.

Lemma binary_round_aux_not_nan (prec emax : Z) (sx : bool) (mx ex : Z) (lx : location) :
  0 <= mx -> binary_round_aux prec emax sx mx ex lx <> S754_nan.
Proof.
  intros H. unfold binary_round_aux.
  pose proof (shr_fexp_nonneg prec emax mx ex lx H) as H1.
  destruct (shr_fexp prec emax mx ex lx) as [mrs' e']. simpl in H1.
  pose proof (shr_fexp_nonneg prec emax
                (round_nearest_even (shr_m mrs') (loc_of_shr_record mrs')) e' loc_Exact
                (round_nearest_even_nonneg _ _ H1)) as H2.
  destruct (shr_fexp prec emax _ e' loc_Exact) as [mrs'' e'']. simpl in H2.
  destruct (shr_m mrs'') as [|p|p]; try discriminate; [|lia].
  destruct (e'' <=? emax - prec); discriminate.
Qed.

Lemma binary_normalize_not_nan (prec emax m e : Z) (szero : bool) :
  binary_normalize prec emax m e szero <> S754_nan.
Proof.
  unfold binary_normalize, binary_round.
  destruct m as [|p|p]; [discriminate| |];
    destruct (shl_align _ _ _) as [mz ez]; apply binary_round_aux_not_nan; lia.
Qed.

(** A sum or difference is NaN only if an operand is, or both are
    infinite. *)
Lemma SFadd_not_nan (prec emax : Z) (f g : spec_float) :
  f <> S754_nan -> g <> S754_nan -> SFfinite f \/ SFfinite g ->
  SFadd prec emax f g <> S754_nan.
Proof.
  destruct f as [s1|s1| |s1 m1 e1], g as [s2|s2| |s2 m2 e2]; simpl;
    intros Hf Hg Hfin; try congruence; try tauto;
    try (destruct s1, s2; discriminate).
  apply binary_normalize_not_nan.
Qed.

Lemma SFsub_not_nan (prec emax : Z) (f g : spec_float) :
  f <> S754_nan -> g <> S754_nan -> SFfinite f \/ SFfinite g ->
  SFsub prec emax f g <> S754_nan.
Proof.
  destruct f as [s1|s1| |s1 m1 e1], g as [s2|s2| |s2 m2 e2]; simpl;
    intros Hf Hg Hfin; try congruence; try tauto;
    try (destruct s1, s2; discriminate).
  apply binary_normalize_not_nan.
Qed.

Lemma finite_not_nan (x : float) : finite x -> is_nan x = false.
Proof.
  unfold finite. rewrite is_nan_false. destruct (Prim2SF x); simpl; congruence.
Qed.

Lemma add_not_nan (x y : float) :
  is_nan x = false -> is_nan y = false -> finite x \/ finite y ->
  is_nan (x + y) = false.
Proof.
  rewrite !is_nan_false, add_spec. apply SFadd_not_nan.
Qed.

Lemma sub_not_nan (x y : float) :
  is_nan x = false -> is_nan y = false -> finite x \/ finite y ->
  is_nan (x - y) = false.
Proof.
  rewrite !is_nan_false, sub_spec. apply SFsub_not_nan.
Qed.

(** ** The scorer *)

Ltac finite_constant := unfold finite; vm_compute; exact I.

Lemma proximity_not_nan (slot : TimeSlot) (preferred_instant : option datetime) :
  is_nan (proximity slot preferred_instant) = false.
Proof.
  destruct preferred_instant as [p|]; simpl; [|reflexivity].
  apply py_max_not_nan. reflexivity.
Qed.

Lemma bonus_not_nan (applies : bool) (t s : float) :
  finite t -> is_nan s = false -> is_nan (bonus applies t s) = false.
Proof.
  intros Ht Hs. unfold bonus. destruct applies; [|assumption].
  apply add_not_nan; auto using finite_not_nan.
Qed.

Lemma penalty_not_nan (applies : bool) (t s : float) :
  finite t -> is_nan s = false -> is_nan (penalty applies t s) = false.
Proof.
  intros Ht Hs. unfold penalty. destruct applies; [|assumption].
  apply sub_not_nan; auto using finite_not_nan.
Qed.

(** The sum of the formula is a number, whatever the slot. *)
Lemma score_sum_not_nan (slot : TimeSlot) (preferred_instant : option datetime)
    (preferences : UserPreferences) :
  is_nan (score_sum slot preferred_instant preferences) = false.
Proof.
  unfold score_sum.
  apply bonus_not_nan; [finite_constant|].
  apply penalty_not_nan; [finite_constant|].
  apply penalty_not_nan; [finite_constant|].
  apply bonus_not_nan; [finite_constant|].
  apply bonus_not_nan; [finite_constant|].
  apply add_not_nan; [reflexivity|apply proximity_not_nan|left; finite_constant].
Qed.

Lemma date_weekday_range (d : date) : 0 <= date_weekday d < 7.
Proof. unfold date_weekday. apply Z.mod_pos_bound. lia. Qed.

Lemma Monday_to_Friday_lt (d : datetime) : Monday_to_Friday d = (dt_weekday d <? 5).
Proof.
  unfold Monday_to_Friday, dt_weekday.
  pose proof (date_weekday_range (dt_date d)) as Hr.
  destruct (date_weekday (dt_date d) <? 5) eqn:Hlt; to_prop.
  - assert (Hcase : date_weekday (dt_date d) = 0 \/ date_weekday (dt_date d) = 1
                    \/ date_weekday (dt_date d) = 2 \/ date_weekday (dt_date d) = 3
                    \/ date_weekday (dt_date d) = 4) by lia.
    destruct Hcase as [-> | [-> | [-> | [-> | ->]]]]; reflexivity.
  - simpl. repeat (rewrite (proj2 (Z.eqb_neq _ _)); [|lia]). reflexivity.
Qed.

(** The source computes the sum of the formula, then clamps it with
    [max(0.0, min(1.0, .))]. *)
Lemma calculate_slot_score_sum (slot : TimeSlot) (preferred_time : option datetime)
    (preferences : UserPreferences) (timezone : tzinfo) :
  _calculate_slot_score slot preferred_time preferences timezone
  = py_max 0 (py_min 1 (score_sum slot preferred_time preferences)).
Proof.
  unfold _calculate_slot_score, score_sum, bonus, penalty, hour.
  rewrite Monday_to_Friday_lt, (Z.gtb_ltb (time_hour _) 17).
  destruct preferred_time as [p|]; reflexivity.
Qed.

(** On a number, [max(0.0, min(1.0, .))] followed by [min(., 1.0)] is the
    clamp to the unit interval, up to the sign of a zero. *)
Lemma clamp_unit_interval (x : float) :
  is_nan x = false ->
  py_min (py_max 0 (py_min 1 x)) 1 = py_max 0 (py_min 1 x)
  /\ PrimFloat.eqb (py_max 0 (py_min 1 x)) (clamp x 0 1) = true.
Proof.
  intros Hx. unfold py_min, py_max, clamp.
  destruct (PrimFloat.ltb x 1) eqn:H1.
  - pose proof (ltb_asym _ _ H1) as H1'.
    destruct (PrimFloat.ltb 0 x) eqn:H0.
    + rewrite H1', (ltb_asym _ _ H0). split; [reflexivity|].
      apply eqb_refl_not_nan, Hx.
    + split; [reflexivity|].
      destruct (PrimFloat.ltb x 0) eqn:H0'; [reflexivity|].
      rewrite H1'. apply eqb_of_not_ltb; auto.
  - split; [reflexivity|]. change (PrimFloat.ltb 0 1) with true. cbv iota.
    destruct (PrimFloat.ltb x 0) eqn:H0.
    + assert (Hc : PrimFloat.ltb x 1 = true)
        by (apply (ltb_trans x 0 1); [assumption|reflexivity]).
      congruence.
    + destruct (PrimFloat.ltb 1 x) eqn:H1'; [reflexivity|].
      apply eqb_of_not_ltb; auto.
Qed.

Lemma assigned_confidence_not_nan (slot : TimeSlot) (preferred_time : option datetime)
    (preferences : UserPreferences) (timezone : tzinfo) :
  is_nan (assigned_confidence slot preferred_time preferences timezone) = false.
Proof.
  unfold assigned_confidence, _calculate_slot_score.
  apply py_min_not_nan, py_max_not_nan. reflexivity.
Qed.

Lemma score_loop_map (slots : list TimeSlot) (preferred_time : option datetime)
    (preferences : UserPreferences) (timezone : tzinfo) :
  score_loop slots preferred_time preferences timezone
  = map (fun slot =>
           set_confidence slot
             (assigned_confidence slot preferred_time preferences timezone))
        slots.
Proof. reflexivity. Qed.

Lemma score_loop_confidence (slots : list TimeSlot) (preferred_time : option datetime)
    (preferences : UserPreferences) (timezone : tzinfo) :
  Forall (fun slot =>
            confidence slot
            = assigned_confidence slot preferred_time preferences timezone)
         (score_loop slots preferred_time preferences timezone).
Proof.
  rewrite score_loop_map. apply Forall_forall. intros slot' Hin.
  apply in_map_iff in Hin. destruct Hin as [slot [<- _]]. reflexivity.
Qed.

Lemma score_time_slots_perm (slots : list TimeSlot) (preferred_time : option datetime)
    (preferences : UserPreferences) (timezone : tzinfo) :
  Permutation (_score_time_slots slots preferred_time preferences timezone)
              (score_loop slots preferred_time preferences timezone).
Proof. unfold _score_time_slots. apply list_sort_perm. Qed.

Lemma score_time_slots_confidence (slots : list TimeSlot)
    (preferred_time : option datetime) (preferences : UserPreferences)
    (timezone : tzinfo) :
  Forall (fun slot =>
            confidence slot
            = assigned_confidence slot preferred_time preferences timezone)
         (_score_time_slots slots preferred_time preferences timezone).
Proof.
  apply Forall_forall. intros slot Hin.
  apply (Permutation_in _ (score_time_slots_perm _ _ _ _)) in Hin.
  exact (proj1 (Forall_forall _ _) (score_loop_confidence _ _ _ _) slot Hin).
Qed.

(** C3.  Every slot the scorer returns is a candidate with its confidence
    rewritten, and that confidence equals (Python's [==]) the clamp to
    [[0.0, 1.0]] of the sum [S] of the formula, evaluated in binary64 in
    the order the formula lists its terms; [S] is never NaN. *)
Theorem score_is_clamped_sum (slots : list TimeSlot) (preferred_time : option datetime)
    (preferences : UserPreferences) (timezone : tzinfo) :
  Permutation (_score_time_slots slots preferred_time preferences timezone)
    (map (fun slot =>
            set_confidence slot
              (assigned_confidence slot preferred_time preferences timezone))
         slots)
  /\ Forall (fun slot =>
               is_nan (score_sum slot preferred_time preferences) = false
               /\ confidence slot
                  = py_max 0 (py_min 1 (score_sum slot preferred_time preferences))
               /\ PrimFloat.eqb (confidence slot)
                    (clamp (score_sum slot preferred_time preferences) 0 1) = true)
            (_score_time_slots slots preferred_time preferences timezone).
Proof.
  split; [apply score_time_slots_perm|].
  eapply Forall_impl; [|apply score_time_slots_confidence].
  intros slot ->. unfold assigned_confidence. rewrite calculate_slot_score_sum.
  pose proof (score_sum_not_nan slot preferred_time preferences) as Hn.
  destruct (clamp_unit_interval _ Hn) as [-> Heq]. auto.
Qed.

Lemma set_confidence_same (slot : TimeSlot) : set_confidence slot (confidence slot) = slot.
Proof. destruct slot. reflexivity. Qed.

(** Scoring a list of slots that carry their assigned confidence already
    changes nothing. *)
Lemma score_loop_fixed (slots : list TimeSlot) (preferred_time : option datetime)
    (preferences : UserPreferences) (timezone : tzinfo) :
  Forall (fun slot =>
            confidence slot
            = assigned_confidence slot preferred_time preferences timezone) slots ->
  score_loop slots preferred_time preferences timezone = slots.
Proof.
  intros Hall. rewrite score_loop_map.
  induction Hall as [|slot slots Hslot _ IH]; simpl; [reflexivity|].
  rewrite IH, <- Hslot, set_confidence_same. reflexivity.
Qed.

(** C4.  In the list the scorer returns, every slot has a confidence at
    least that of the slot after it; the slots of any one confidence come
    in the order the candidates had; the list is a rearrangement of the
    scored candidates; scoring the returned list again, with the same
    arguments, returns it unchanged; and two runs of the pipeline on the
    same inputs (the answers of the calendars and the clock among them)
    return the same list in the same order. *)
Theorem score_time_slots_sorted_stable (slots : list TimeSlot)
    (preferred_time : option datetime) (preferences : UserPreferences)
    (timezone : tzinfo) :
  let scored := _score_time_slots slots preferred_time preferences timezone in
  (forall before a b after,
     scored = before ++ a :: b :: after ->
     PrimFloat.leb (confidence b) (confidence a) = true)
  /\ (forall c,
        filter (fun slot => PrimFloat.eqb (confidence slot) c) scored
        = filter (fun slot => PrimFloat.eqb (confidence slot) c)
            (score_loop slots preferred_time preferences timezone))
  /\ Permutation scored (score_loop slots preferred_time preferences timezone)
  /\ _score_time_slots scored preferred_time preferences timezone = scored
  /\ (forall self rt duration user_context start_date end_date exclude_weekends
        first second,
        find_available_slots self rt duration preferred_time user_context
          start_date end_date exclude_weekends = first ->
        find_available_slots self rt duration preferred_time user_context
          start_date end_date exclude_weekends = second ->
        first = second).
Proof.
  intros scored. split; [|split; [|split; [|split]]].
  - intros before a b after Heq.
    pose proof (score_time_slots_confidence slots preferred_time preferences timezone)
      as Hconf.
    fold scored in Hconf. rewrite Heq in Hconf.
    apply Forall_app in Hconf. destruct Hconf as [_ Hconf].
    inversion Hconf as [|? ? Ha Hconf']; subst.
    inversion Hconf' as [|? ? Hb _]; subst.
    apply leb_of_not_ltb.
    + rewrite Ha. apply assigned_confidence_not_nan.
    + rewrite Hb. apply assigned_confidence_not_nan.
    + exact (list_sort_reverse_adjacent confidence _ before after a b Heq).
  - intros c. unfold scored, _score_time_slots. apply filter_list_sort.
    intros a b Ha Hb. exact (eqb_not_ltb _ _ _ Ha Hb).
  - apply score_time_slots_perm.
  - unfold _score_time_slots at 1.
    rewrite (score_loop_fixed scored);
      [|apply score_time_slots_confidence].
    apply list_sort_reverse_fixed.
  - intros self rt duration user_context start_date end_date exclude_weekends
      first second <- <-. reflexivity.
Qed.

(** ** Generation *)

Lemma new_TimeSlot_baseline (s e : datetime) :
  comparable e s = true ->
  new_TimeSlot s e 0.8
  = if dt_leb e s then Raise (ValidationError "End time must be after start time")
    else Ok {| start_time := s; end_time := e; confidence := 0.8 |}.
Proof. unfold new_TimeSlot. intros ->. destruct (dt_leb e s); reflexivity. Qed.

Lemma day_loop_step (fuel : nat) (current_time work_end : datetime)
    (slot_duration buffer_duration : timedelta) :
  day_loop (Datatypes.S fuel) current_time work_end slot_duration buffer_duration
  = if dt_leb (dt_add current_time slot_duration) work_end then
      if dt_leb (dt_add current_time slot_duration) current_time
      then Raise (ValidationError "End time must be after start time")
      else
        slots <- day_loop fuel
                   (dt_add (dt_add current_time slot_duration) buffer_duration)
                   work_end slot_duration buffer_duration ;;
        Ok ({| start_time := current_time;
               end_time := dt_add current_time slot_duration;
               confidence := 0.8 |} :: slots)
    else Ok [].
Proof.
  cbn [day_loop]. rewrite new_TimeSlot_baseline by apply comparable_dt_add.
  destruct (dt_leb (dt_add current_time slot_duration) work_end); [|reflexivity].
  destruct (dt_leb (dt_add current_time slot_duration) current_time); reflexivity.
Qed.

(** A cursor that does not advance never leaves the loop: no amount of
    fuel gives a result. *)
Lemma day_loop_stuck (work_end : datetime) (slot_duration buffer_duration : timedelta) :
  0 < slot_duration -> slot_duration + buffer_duration <= 0 ->
  forall fuel current_time,
    instant current_time + slot_duration <= instant work_end ->
    day_loop fuel current_time work_end slot_duration buffer_duration = Diverge.
Proof.
  intros Hd Hstep. induction fuel as [|fuel IH]; intros cur Hfit; [reflexivity|].
  rewrite day_loop_step.
  replace (dt_leb (dt_add cur slot_duration) work_end) with true
    by (symmetry; apply dt_leb_le; rewrite instant_dt_add; lia).
  replace (dt_leb (dt_add cur slot_duration) cur) with false
    by (symmetry; apply dt_leb_gt; rewrite instant_dt_add; lia).
  rewrite IH; [reflexivity|]. rewrite !instant_dt_add. lia.
Qed.

Lemma generated_in_day_later (a b work_end : datetime) (slot_duration : timedelta)
    (slot : TimeSlot) :
  utcoff b = utcoff a -> wall a <= wall b ->
  generated_in_day b work_end slot_duration slot ->
  generated_in_day a work_end slot_duration slot.
Proof.
  unfold generated_in_day. intros Ho Hw (H1 & H2 & H3 & H4 & H5 & H6).
  repeat split; try assumption; [congruence|lia].
Qed.

Lemma day_loop_slots (work_end : datetime) (slot_duration buffer_duration : timedelta) :
  forall fuel current_time slots,
    day_loop fuel current_time work_end slot_duration buffer_duration = Ok slots ->
    Forall (generated_in_day current_time work_end slot_duration) slots.
Proof.
  induction fuel as [|fuel IH]; intros cur slots Hrun; [discriminate|].
  rewrite day_loop_step in Hrun.
  destruct (dt_leb (dt_add cur slot_duration) work_end) eqn:Hc.
  2:{ injection Hrun as <-. constructor. }
  destruct (dt_leb (dt_add cur slot_duration) cur) eqn:Hv; [discriminate|].
  destruct (day_loop fuel _ work_end slot_duration buffer_duration) as [l| |] eqn:Hrec;
    simpl in Hrun; try discriminate.
  injection Hrun as <-. to_prop. rewrite instant_dt_add in Hc, Hv.
  constructor.
  - unfold generated_in_day. simpl. rewrite instant_dt_add.
    repeat split; try reflexivity; lia.
  - destruct (Z_le_gt_dec (slot_duration + buffer_duration) 0) as [Hstep|Hstep].
    + rewrite (day_loop_stuck work_end slot_duration buffer_duration) in Hrec;
        [discriminate|lia|assumption|].
      rewrite !instant_dt_add. lia.
    + eapply Forall_impl; [|apply IH, Hrec]. intros slot.
      apply generated_in_day_later; rewrite ?utcoff_dt_add; simpl; lia.
Qed.

(** With a positive length and an advancing cursor the loop ends, within
    the fuel [day_fuel] provides. *)
Lemma day_loop_terminates (work_end : datetime) (slot_duration buffer_duration : timedelta) :
  0 < slot_duration -> 0 < slot_duration + buffer_duration ->
  forall fuel current_time,
    instant work_end - instant current_time - slot_duration
      < Z.of_nat fuel * (slot_duration + buffer_duration) ->
    exists slots,
      day_loop (Datatypes.S fuel) current_time work_end slot_duration buffer_duration
      = Ok slots.
Proof.
  intros Hd Hstep. induction fuel as [|fuel IH]; intros cur Hfuel.
  - rewrite day_loop_step.
    destruct (dt_leb (dt_add cur slot_duration) work_end) eqn:Hc; [|eauto].
    to_prop. rewrite instant_dt_add in Hc. simpl in Hfuel. lia.
  - rewrite day_loop_step.
    destruct (dt_leb (dt_add cur slot_duration) work_end) eqn:Hc; [|eauto].
    destruct (dt_leb (dt_add cur slot_duration) cur) eqn:Hv.
    { to_prop. rewrite instant_dt_add in Hv. lia. }
    destruct (IH (dt_add (dt_add cur slot_duration) buffer_duration)) as [l Hl].
    { rewrite !instant_dt_add. lia. }
    rewrite Hl. simpl. eauto.
Qed.

(** A length that is not positive makes the first slot invalid. *)
Lemma day_loop_nonpositive (work_end : datetime) (slot_duration buffer_duration : timedelta)
    (fuel : nat) (current_time : datetime) :
  slot_duration <= 0 ->
  day_loop (Datatypes.S fuel) current_time work_end slot_duration buffer_duration
  = if dt_leb (dt_add current_time slot_duration) work_end
    then Raise (ValidationError "End time must be after start time")
    else Ok [].
Proof.
  intros Hd. rewrite day_loop_step.
  destruct (dt_leb (dt_add current_time slot_duration) work_end); [|reflexivity].
  destruct (dt_leb (dt_add current_time slot_duration) current_time) eqn:Hv;
    [reflexivity|].
  to_prop. rewrite instant_dt_add in Hv. lia.
Qed.

Lemma timedelta_minutes_pos (m : Z) : 0 < m <-> 0 < timedelta_minutes m.
Proof. unfold timedelta_minutes, us_per_minute, us_per_second. lia. Qed.

Lemma timedelta_minutes_add (a b : Z) :
  timedelta_minutes a + timedelta_minutes b = timedelta_minutes (a + b).
Proof. unfold timedelta_minutes. lia. Qed.

Lemma generate_day_slots_unfold (target_date : date) (duration : Z)
    (preferences : UserPreferences) (timezone : tzinfo) :
  _generate_day_slots target_date duration preferences timezone
  = day_loop
      (day_fuel (work_start_dt target_date preferences timezone)
                (work_end_dt target_date preferences timezone)
                (timedelta_minutes duration)
                (timedelta_minutes (buffer_time preferences)))
      (work_start_dt target_date preferences timezone)
      (work_end_dt target_date preferences timezone)
      (timedelta_minutes duration) (timedelta_minutes (buffer_time preferences)).
Proof. reflexivity. Qed.

Lemma generate_day_slots_slots (target_date : date) (duration : Z)
    (preferences : UserPreferences) (timezone : tzinfo) (slots : list TimeSlot) :
  _generate_day_slots target_date duration preferences timezone = Ok slots ->
  Forall (generated_in_day (work_start_dt target_date preferences timezone)
                           (work_end_dt target_date preferences timezone)
                           (timedelta_minutes duration)) slots.
Proof. rewrite generate_day_slots_unfold. apply day_loop_slots. Qed.

Lemma generate_day_slots_terminates (target_date : date) (duration : Z)
    (preferences : UserPreferences) (timezone : tzinfo) :
  0 < duration -> 0 < duration + buffer_time preferences ->
  exists slots, _generate_day_slots target_date duration preferences timezone = Ok slots.
Proof.
  intros Hd Hstep. rewrite generate_day_slots_unfold. unfold day_fuel.
  apply day_loop_terminates.
  - apply (proj1 (timedelta_minutes_pos _) Hd).
  - rewrite timedelta_minutes_add. apply (proj1 (timedelta_minutes_pos _) Hstep).
  - rewrite timedelta_minutes_add.
    apply (proj1 (timedelta_minutes_pos _)) in Hd, Hstep.
    set (step := timedelta_minutes (duration + buffer_time preferences)) in *.
    set (span := instant (work_end_dt target_date preferences timezone)
                 - instant (work_start_dt target_date preferences timezone)).
    destruct (Z_lt_le_dec span 0) as [Hneg|Hpos].
    + rewrite Nat2Z.inj_succ. pose proof (Nat2Z.is_nonneg (Z.to_nat (span / step))). nia.
    + rewrite Nat2Z.inj_succ, Z2Nat.id by (apply Z.div_pos; lia).
      pose proof (Z.mul_succ_div_gt span step Hstep). lia.
Qed.

(** The fuel of [_generate_day_slots] is adequate: it runs out only for a
    loop that no amount of fuel would see through. *)
Lemma generate_day_slots_diverges (target_date : date) (duration : Z)
    (preferences : UserPreferences) (timezone : tzinfo) :
  _generate_day_slots target_date duration preferences timezone = Diverge ->
  forall fuel,
    day_loop fuel (work_start_dt target_date preferences timezone)
      (work_end_dt target_date preferences timezone)
      (timedelta_minutes duration) (timedelta_minutes (buffer_time preferences))
    = Diverge.
Proof.
  intros Hrun fuel.
  destruct (Z_le_gt_dec duration 0) as [Hd|Hd].
  { rewrite generate_day_slots_unfold in Hrun. unfold day_fuel in Hrun.
    rewrite day_loop_nonpositive in Hrun.
    - destruct (dt_leb _ _); discriminate.
    - unfold timedelta_minutes, us_per_minute, us_per_second. lia. }
  destruct (Z_le_gt_dec (duration + buffer_time preferences) 0) as [Hstep|Hstep].
  2:{ destruct (generate_day_slots_terminates target_date duration preferences
                  timezone) as [slots Hok]; [lia|lia|congruence]. }
  assert (Hpos : 0 < timedelta_minutes duration)
    by (apply (proj1 (timedelta_minutes_pos _)); lia).
  assert (Hstuck : timedelta_minutes duration
                   + timedelta_minutes (buffer_time preferences) <= 0).
  { rewrite timedelta_minutes_add.
    unfold timedelta_minutes, us_per_minute, us_per_second. lia. }
  apply day_loop_stuck; try assumption.
  rewrite generate_day_slots_unfold in Hrun. unfold day_fuel in Hrun.
  rewrite day_loop_step in Hrun.
  destruct (dt_leb (dt_add _ _) (work_end_dt target_date preferences timezone))
    eqn:Hc; [|discriminate].
  to_prop. rewrite instant_dt_add in Hc. exact Hc.
Qed.

Lemma generate_day_slots_nonpositive (target_date : date) (duration : Z)
    (preferences : UserPreferences) (timezone : tzinfo) :
  duration <= 0 ->
  _generate_day_slots target_date duration preferences timezone = Ok []
  \/ exists e, _generate_day_slots target_date duration preferences timezone = Raise e.
Proof.
  intros Hd. rewrite generate_day_slots_unfold. unfold day_fuel.
  rewrite day_loop_nonpositive.
  - destruct (dt_leb _ _); eauto.
  - unfold timedelta_minutes, us_per_minute, us_per_second. lia.
Qed.

Lemma dates_loop_slots (duration : Z) (preferences : UserPreferences) (tz : tzinfo)
    (exclude_weekends : bool) :
  forall days current_date slots,
    dates_loop days current_date duration preferences tz exclude_weekends = Ok slots ->
    Forall (generated_on current_date days duration preferences tz exclude_weekends)
           slots.
Proof.
  induction days as [|days IH]; intros cur slots Hrun.
  - injection Hrun as <-. constructor.
  - assert (Hlater : forall l,
              Forall (generated_on (cur + 1) days duration preferences tz
                        exclude_weekends) l ->
              Forall (generated_on cur (Datatypes.S days) duration preferences tz
                        exclude_weekends) l).
    { intros l. apply Forall_impl. intros slot (d & Hd & Hw & Hg).
      exists d. rewrite Nat2Z.inj_succ. split; [lia|split; assumption]. }
    cbn [dates_loop] in Hrun.
    destruct (exclude_weekends && (date_weekday cur >=? 5)) eqn:Hskip.
    + apply Hlater, IH, Hrun.
    + destruct (_generate_day_slots cur duration preferences tz) as [day| |] eqn:Hday;
        simpl in Hrun; try discriminate.
      destruct (dates_loop days (cur + 1) duration preferences tz exclude_weekends)
        as [rest| |] eqn:Hrest; simpl in Hrun; try discriminate.
      injection Hrun as <-. apply Forall_app. split.
      * eapply Forall_impl; [|apply generate_day_slots_slots, Hday].
        intros slot Hg. exists cur. rewrite Nat2Z.inj_succ.
        split; [lia|split; [|assumption]].
        intros ->. simpl in Hskip. rewrite Z.geb_leb in Hskip. to_prop. lia.
      * apply Hlater, IH, Hrest.
Qed.

Lemma dates_loop_terminates (duration : Z) (preferences : UserPreferences) (tz : tzinfo)
    (exclude_weekends : bool) :
  0 < duration -> 0 < duration + buffer_time preferences ->
  forall days current_date,
    exists slots,
      dates_loop days current_date duration preferences tz exclude_weekends = Ok slots.
Proof.
  intros Hd Hstep. induction days as [|days IH]; intros cur; [simpl; eauto|].
  cbn [dates_loop]. destruct (IH (cur + 1)) as [rest Hrest].
  destruct (exclude_weekends && (date_weekday cur >=? 5)); [eauto|].
  destruct (generate_day_slots_terminates cur duration preferences tz Hd Hstep)
    as [day Hday].
  rewrite Hday, Hrest. simpl. eauto.
Qed.

Lemma dates_loop_nonpositive (duration : Z) (preferences : UserPreferences) (tz : tzinfo)
    (exclude_weekends : bool) :
  duration <= 0 ->
  forall days current_date,
    dates_loop days current_date duration preferences tz exclude_weekends = Ok []
    \/ exists e,
         dates_loop days current_date duration preferences tz exclude_weekends
         = Raise e.
Proof.
  intros Hd. induction days as [|days IH]; intros cur; [left; reflexivity|].
  cbn [dates_loop].
  destruct (exclude_weekends && (date_weekday cur >=? 5)); [apply IH|].
  destruct (generate_day_slots_nonpositive cur duration preferences tz Hd)
    as [-> | [e ->]]; simpl; [|eauto].
  destruct (IH (cur + 1)) as [-> | [e ->]]; simpl; eauto.
Qed.

(** The slots of a day are timezone-aware, as its two ends are. *)
Lemma day_loop_aware (work_end : datetime) (slot_duration buffer_duration : timedelta) :
  forall fuel current_time slots,
    aware current_time = true ->
    day_loop fuel current_time work_end slot_duration buffer_duration = Ok slots ->
    Forall (fun slot => aware (start_time slot) = true /\ aware (end_time slot) = true)
           slots.
Proof.
  induction fuel as [|fuel IH]; intros cur slots Haware Hrun; [discriminate|].
  rewrite day_loop_step in Hrun.
  destruct (dt_leb (dt_add cur slot_duration) work_end).
  2:{ injection Hrun as <-. constructor. }
  destruct (dt_leb (dt_add cur slot_duration) cur); [discriminate|].
  destruct (day_loop fuel _ work_end slot_duration buffer_duration) as [l| |] eqn:Hrec;
    simpl in Hrun; try discriminate.
  injection Hrun as <-. constructor.
  - simpl. rewrite aware_dt_add. split; assumption.
  - apply (IH _ _ (eq_trans (aware_dt_add _ _) (eq_trans (aware_dt_add _ _) Haware))
              Hrec).
Qed.

Lemma dates_loop_aware (duration : Z) (preferences : UserPreferences) (tz : tzinfo)
    (exclude_weekends : bool) :
  forall days current_date slots,
    dates_loop days current_date duration preferences tz exclude_weekends = Ok slots ->
    Forall (fun slot => aware (start_time slot) = true /\ aware (end_time slot) = true)
           slots.
Proof.
  induction days as [|days IH]; intros cur slots Hrun.
  - injection Hrun as <-. constructor.
  - cbn [dates_loop] in Hrun.
    destruct (exclude_weekends && (date_weekday cur >=? 5)); [apply (IH _ _ Hrun)|].
    destruct (_generate_day_slots cur duration preferences tz) as [day| |] eqn:Hday;
      simpl in Hrun; try discriminate.
    destruct (dates_loop days (cur + 1) duration preferences tz exclude_weekends)
      as [rest| |] eqn:Hrest; simpl in Hrun; try discriminate.
    injection Hrun as <-. apply Forall_app. split; [|apply (IH _ _ Hrest)].
    rewrite generate_day_slots_unfold in Hday.
    apply (day_loop_aware _ _ _ _ _ _ (aware_localize _ _) Hday).
Qed.

(** ** Aggregation *)

Lemma bind_returns {A B} (c : outcome A) (k : A -> outcome B) :
  c <> Diverge -> (forall a, k a <> Diverge) -> bind c k <> Diverge.
Proof. intros Hc Hk. destruct c; simpl; [apply Hk|discriminate|contradiction]. Qed.

Lemma getitem_returns {V} (key : string) (d : dict V) : getitem key d <> Diverge.
Proof. unfold getitem. destruct (dict_get key d); discriminate. Qed.

Lemma parse_returns (rt : Runtime) (v : pyvalue) : parse rt v <> Diverge.
Proof.
  unfold parse. destruct v as [|text|items]; try discriminate.
  destruct (parser_parse rt text); discriminate.
Qed.

Lemma EventStatus_of_value_returns (v : pyvalue) : EventStatus_of_value v <> Diverge.
Proof.
  unfold EventStatus_of_value, EventStatus_of_string.
  destruct v as [|text|items]; try discriminate.
  repeat match goal with
         | |- context [if ?b then _ else _] => destruct b
         end; discriminate.
Qed.

Lemma new_Event_returns (event_id title description : pyvalue)
    (start_time end_time : datetime) (location attendees : pyvalue)
    (status : EventStatus) :
  new_Event event_id title description start_time end_time location attendees status
  <> Diverge.
Proof.
  unfold new_Event, end_after_start.
  destruct event_id, title, description, location, attendees; simpl;
    try discriminate;
    destruct (negb (comparable end_time start_time)); simpl; try discriminate;
    destruct (dt_leb end_time start_time); simpl; discriminate.
Qed.

Lemma dict_to_event_returns (rt : Runtime) (d : event_dict) :
  _dict_to_event rt d <> Diverge.
Proof.
  unfold _dict_to_event.
  apply bind_returns; [apply getitem_returns|intros start_text].
  apply bind_returns; [apply parse_returns|intros start_time].
  apply bind_returns; [apply getitem_returns|intros end_text].
  apply bind_returns; [apply parse_returns|intros end_time].
  apply bind_returns; [apply EventStatus_of_value_returns|intros status].
  apply new_Event_returns.
Qed.

Lemma comprehension_returns {A B} (f : A -> outcome B) (xs : list A) :
  (forall x, f x <> Diverge) -> comprehension f xs <> Diverge.
Proof.
  intros Hf. induction xs as [|x xs IH]; simpl; [discriminate|].
  specialize (Hf x). destruct (f x); simpl; try congruence.
  destruct (comprehension f xs); simpl; congruence.
Qed.

Lemma comprehension_raises {A B} (f : A -> outcome B) (xs : list A) (x : A) (e : exn) :
  (forall y, f y <> Diverge) -> In x xs -> f x = Raise e ->
  exists e', comprehension f xs = Raise e'.
Proof.
  intros Hf Hin Hx. induction xs as [|y ys IH]; [destruct Hin|].
  simpl. destruct Hin as [->|Hin].
  - rewrite Hx. simpl. eauto.
  - specialize (Hf y). destruct (f y) as [b|e0|]; simpl; [|eauto|congruence].
    destruct (IH Hin) as [e' ->]. simpl. eauto.
Qed.

Lemma comprehension_Ok {A B} (f : A -> outcome B) (xs : list A) (ys : list B) :
  comprehension f xs = Ok ys <-> Forall2 (fun x y => f x = Ok y) xs ys.
Proof.
  revert ys. induction xs as [|x xs IH]; intros ys; simpl.
  - split.
    + intros H. injection H as <-. constructor.
    + intros H. inversion H. reflexivity.
  - split.
    + destruct (f x) as [y| |] eqn:Hx; simpl; try discriminate.
      destruct (comprehension f xs) as [ys'| |] eqn:Hrest; simpl; try discriminate.
      intros H. injection H as <-. constructor; [assumption|].
      apply IH. reflexivity.
    + intros H. inversion H as [|? y ? ys' Hx Hrest]; subst.
      rewrite Hx. simpl. rewrite (proj2 (IH ys') Hrest). reflexivity.
Qed.

(** When the comprehension raises, one of the elements did. *)
Lemma comprehension_Raise {A B} (f : A -> outcome B) (xs : list A) (e : exn) :
  comprehension f xs = Raise e -> exists x e', In x xs /\ f x = Raise e'.
Proof.
  induction xs as [|x xs IH]; simpl; [discriminate|].
  destruct (f x) as [y|e0|] eqn:Hx; simpl; try discriminate.
  - destruct (comprehension f xs) as [ys|e1|]; simpl; try discriminate.
    intros H. injection H as ->. destruct (IH eq_refl) as (x' & e' & Hin & Hx').
    exists x', e'. split; [right|]; assumption.
  - intros _. exists x, e0. split; [left; reflexivity|assumption].
Qed.

(** What the user context contributes: its converted events, or nothing
    when one of them does not convert. *)
Lemma get_existing_events_returns (self : Scheduler) (rt : Runtime)
    (start_date end_date : date) (user_context : option UserContext) :
  exists events,
    _get_existing_events self rt start_date end_date user_context = Ok events.
Proof.
  unfold _get_existing_events.
  destruct (get_events (google_calendar self) start_date end_date);
    cbn [await]; [|eauto].
  destruct (get_events (outlook_calendar self) start_date end_date);
    cbn [await]; [|eauto].
  destruct user_context as [ctx|]; [|eauto].
  destruct (existing_events ctx) as [|d ds] eqn:Hd; [eauto|].
  pose proof (comprehension_returns (_dict_to_event rt) (d :: ds)
                (dict_to_event_returns rt)) as Hc.
  destruct (comprehension (_dict_to_event rt) (d :: ds)) eqn:Hrun; eauto.
  contradiction.
Qed.

(** ** The facade *)

Lemma find_available_slots_unfold (self : Scheduler) (rt : Runtime) (duration : Z)
    (preferred_time : option datetime) (user_context : option UserContext)
    (start_date end_date : option date) (exclude_weekends : bool) :
  exists events,
    _get_existing_events self rt (resolved_start rt start_date)
      (resolved_end rt start_date end_date) user_context = Ok events
    /\ find_available_slots self rt duration preferred_time user_context
         start_date end_date exclude_weekends
       = match pytz_timezone rt (timezone_of user_context) with
         | None => Ok []
         | Some tz =>
           match _generate_potential_slots (resolved_start rt start_date)
                   (resolved_end rt start_date end_date) duration
                   (preferences_of user_context) tz exclude_weekends with
           | Ok potential_slots =>
             let available_slots :=
               _filter_conflicting_slots potential_slots events
                 (preferences_of user_context) in
             if _filter_conflicting_slots_compares potential_slots events
                  (preferences_of user_context)
                && _score_time_slots_compares available_slots preferred_time
             then Ok (firstn (max_suggestions self)
                        (_score_time_slots available_slots preferred_time
                           (preferences_of user_context) tz))
             else Ok []
           | Raise _ => Ok []
           | Diverge => Diverge
           end
         end.
Proof.
  destruct (get_existing_events_returns self rt (resolved_start rt start_date)
              (resolved_end rt start_date end_date) user_context) as [events Hev].
  exists events. split; [assumption|].
  unfold find_available_slots, lookup_timezone.
  fold (resolved_start rt start_date). fold (resolved_end rt start_date end_date).
  fold (preferences_of user_context). fold (timezone_of user_context).
  destruct (pytz_timezone rt (timezone_of user_context)) as [tz|]; simpl; [|reflexivity].
  rewrite Hev. simpl.
  destruct (_generate_potential_slots _ _ duration _ tz exclude_weekends)
    as [potential_slots| |]; try reflexivity.
  simpl.
  destruct (_filter_conflicting_slots_compares potential_slots events
              (preferences_of user_context)); simpl; [|reflexivity].
  destruct (_score_time_slots_compares _ preferred_time); reflexivity.
Qed.

Lemma In_firstn {A} (n : nat) (l : list A) (x : A) : In x (firstn n l) -> In x l.
Proof.
  intros Hin. rewrite <- (firstn_skipn n l). apply in_or_app. left. assumption.
Qed.

(** A returned slot is a generated candidate that passed the filter, with
    its confidence rewritten. *)
Lemma returned_from_candidates (n : nat) (potential_slots : list TimeSlot)
    (events : list Event) (preferred_time : option datetime)
    (preferences : UserPreferences) (tz : tzinfo) (slot : TimeSlot) :
  In slot (firstn n
             (_score_time_slots
                (_filter_conflicting_slots potential_slots events preferences)
                preferred_time preferences tz)) ->
  exists candidate,
    In candidate potential_slots
    /\ is_available candidate events preferences = true
    /\ start_time slot = start_time candidate
    /\ end_time slot = end_time candidate.
Proof.
  intros Hin. apply In_firstn in Hin.
  apply (Permutation_in _ (score_time_slots_perm _ _ _ _)) in Hin.
  rewrite score_loop_map in Hin. apply in_map_iff in Hin.
  destruct Hin as [candidate [<- Hin]].
  rewrite filter_conflicting_is_filter in Hin. apply filter_In in Hin.
  exists candidate. simpl. tauto.
Qed.

(** A slot is returned only if the filter and the scorer got through
    their comparisons: those of the candidate it comes from were all
    between datetimes of one kind. *)
Lemma find_available_slots_compared (self : Scheduler) (rt : Runtime) (duration : Z)
    (preferred_time : option datetime) (user_context : option UserContext)
    (start_date end_date : option date) (exclude_weekends : bool)
    (slots : list TimeSlot) (slot : TimeSlot) :
  find_available_slots self rt duration preferred_time user_context
    start_date end_date exclude_weekends = Ok slots ->
  In slot slots ->
  exists tz events candidate,
    pytz_timezone rt (timezone_of user_context) = Some tz
    /\ _get_existing_events self rt (resolved_start rt start_date)
         (resolved_end rt start_date end_date) user_context = Ok events
    /\ generated_on (resolved_start rt start_date)
         (Z.to_nat (resolved_end rt start_date end_date
                    - resolved_start rt start_date + 1))
         duration (preferences_of user_context) tz exclude_weekends candidate
    /\ is_available candidate events (preferences_of user_context) = true
    /\ start_time slot = start_time candidate
    /\ end_time slot = end_time candidate
    /\ is_available_compares candidate events (preferences_of user_context) = true
    /\ (forall p, preferred_time = Some p -> comparable (start_time slot) p = true)
    /\ aware (start_time slot) = true
    /\ aware (end_time slot) = true.
Proof.
  intros Hrun Hin.
  destruct (find_available_slots_unfold self rt duration preferred_time user_context
              start_date end_date exclude_weekends) as [events [Hev Heq]].
  rewrite Heq in Hrun.
  destruct (pytz_timezone rt (timezone_of user_context)) as [tz|];
    [|injection Hrun as <-; destruct Hin].
  destruct (_generate_potential_slots _ _ duration _ tz exclude_weekends)
    as [potential| |] eqn:Hgen; try discriminate;
    [|injection Hrun as <-; destruct Hin].
  cbv zeta in Hrun.
  destruct (_filter_conflicting_slots_compares potential events
              (preferences_of user_context)) eqn:Hfilter;
    [|injection Hrun as <-; destruct Hin].
  destruct (_score_time_slots_compares _ preferred_time) eqn:Hscore;
    [|injection Hrun as <-; destruct Hin].
  injection Hrun as <-.
  apply returned_from_candidates in Hin.
  destruct Hin as (candidate & Hc & Hav & Hs & He).
  exists tz, events, candidate. repeat split; try assumption.
  - unfold _generate_potential_slots in Hgen.
    exact (proj1 (Forall_forall _ _) (dates_loop_slots _ _ _ _ _ _ _ Hgen) _ Hc).
  - unfold _filter_conflicting_slots_compares in Hfilter.
    exact (proj1 (forallb_forall _ _) Hfilter candidate Hc).
  - intros p ->. unfold _score_time_slots_compares in Hscore. rewrite Hs.
    apply (proj1 (forallb_forall _ _) Hscore candidate).
    rewrite filter_conflicting_is_filter. apply filter_In. split; assumption.
  - rewrite Hs. unfold _generate_potential_slots in Hgen.
    apply (proj1 (Forall_forall _ _) (dates_loop_aware _ _ _ _ _ _ _ Hgen) _ Hc).
  - rewrite He. unfold _generate_potential_slots in Hgen.
    apply (proj1 (Forall_forall _ _) (dates_loop_aware _ _ _ _ _ _ _ Hgen) _ Hc).
Qed.

Lemma find_available_slots_returned (self : Scheduler) (rt : Runtime) (duration : Z)
    (preferred_time : option datetime) (user_context : option UserContext)
    (start_date end_date : option date) (exclude_weekends : bool)
    (slots : list TimeSlot) (slot : TimeSlot) :
  find_available_slots self rt duration preferred_time user_context
    start_date end_date exclude_weekends = Ok slots ->
  In slot slots ->
  exists tz events candidate,
    pytz_timezone rt (timezone_of user_context) = Some tz
    /\ _get_existing_events self rt (resolved_start rt start_date)
         (resolved_end rt start_date end_date) user_context = Ok events
    /\ generated_on (resolved_start rt start_date)
         (Z.to_nat (resolved_end rt start_date end_date
                    - resolved_start rt start_date + 1))
         duration (preferences_of user_context) tz exclude_weekends candidate
    /\ is_available candidate events (preferences_of user_context) = true
    /\ start_time slot = start_time candidate
    /\ end_time slot = end_time candidate.
Proof.
  intros Hrun Hin.
  destruct (find_available_slots_compared _ _ _ _ _ _ _ _ _ _ Hrun Hin)
    as (tz & events & candidate & H1 & H2 & H3 & H4 & H5 & H6 & _).
  exists tz, events, candidate. repeat split; assumption.
Qed.

(** C6.  Every slot [find_available_slots] returns ends exactly the
    requested number of minutes after it starts. *)
Theorem returned_slots_have_requested_duration (self : Scheduler) (rt : Runtime)
    (duration : Z) (preferred_time : option datetime)
    (user_context : option UserContext) (start_date end_date : option date)
    (exclude_weekends : bool) (slots : list TimeSlot) :
  find_available_slots self rt duration preferred_time user_context
    start_date end_date exclude_weekends = Ok slots ->
  Forall (fun slot =>
            dt_sub (end_time slot) (start_time slot) = timedelta_minutes duration)
         slots.
Proof.
  intros Hrun. apply Forall_forall. intros slot Hin.
  destruct (find_available_slots_returned _ _ _ _ _ _ _ _ _ _ Hrun Hin)
    as (tz & events & candidate & _ & _ & (d & _ & _ & Hg) & _ & Hs & He).
  destruct Hg as (Hend & _).
  unfold dt_sub. rewrite Hs, He, Hend, instant_dt_add. lia.
Qed.

(** ** Non-positive durations *)

(** Generation stops at the first slot, which the [TimeSlot] validator
    refuses, or finds no day to work on; either way the facade answers
    with the empty list. *)
Lemma find_available_slots_nonpositive (self : Scheduler) (rt : Runtime)
    (duration : Z) (preferred_time : option datetime)
    (user_context : option UserContext) (start_date end_date : option date)
    (exclude_weekends : bool) :
  duration <= 0 ->
  find_available_slots self rt duration preferred_time user_context
    start_date end_date exclude_weekends = Ok [].
Proof.
  intros Hd.
  destruct (find_available_slots_unfold self rt duration preferred_time user_context
              start_date end_date exclude_weekends) as [events [_ ->]].
  destruct (pytz_timezone rt (timezone_of user_context)) as [tz|]; [|reflexivity].
  unfold _generate_potential_slots.
  destruct (dates_loop_nonpositive duration (preferences_of user_context) tz
              exclude_weekends Hd
              (Z.to_nat (resolved_end rt start_date end_date
                         - resolved_start rt start_date + 1))
              (resolved_start rt start_date)) as [-> | [e ->]]; [|reflexivity].
  simpl. destruct (_score_time_slots_compares [] preferred_time);
    rewrite ?firstn_nil; reflexivity.
Qed.

(** C5 (as the source has it).  No error reaches the caller of
    [find_available_slots] for a duration that is zero or negative: the
    result is the empty list, whatever the other arguments, the calendars
    and the timezone database. *)
Theorem nonpositive_duration_finds_nothing (self : Scheduler) (rt : Runtime)
    (duration : Z) (preferred_time : option datetime)
    (user_context : option UserContext) (start_date end_date : option date)
    (exclude_weekends : bool) :
  duration <= 0 ->
  find_available_slots self rt duration preferred_time user_context
    start_date end_date exclude_weekends = Ok []
  /\ forall e,
       find_available_slots self rt duration preferred_time user_context
         start_date end_date exclude_weekends <> Raise e.
Proof.
  intros Hd.
  rewrite (find_available_slots_nonpositive self rt duration preferred_time
             user_context start_date end_date exclude_weekends Hd).
  split; [reflexivity|discriminate].
Qed.


(** ** Working hours *)

Lemma wall_on_date (d w : Z) :
  d * us_per_day <= w < d * us_per_day + us_per_day ->
  w / us_per_day = d /\ w mod us_per_day = w - d * us_per_day.
Proof.
  intros Hr.
  assert (Hdiv : w / us_per_day = d).
  { symmetry. apply (Z.div_unique_pos w us_per_day d (w - d * us_per_day)); lia. }
  split; [assumption|].
  rewrite Z.mod_eq, Hdiv by (unfold us_per_day, us_per_hour, us_per_minute,
                              us_per_second; lia).
  lia.
Qed.

Lemma generated_in_day_wall (d : date) (preferences : UserPreferences) (tz : tzinfo)
    (slot_duration : timedelta) (slot : TimeSlot) :
  generated_in_day (work_start_dt d preferences tz) (work_end_dt d preferences tz)
    slot_duration slot ->
  valid_time (work_start_time preferences) ->
  valid_time (work_end_time preferences) ->
  utcoff (work_start_dt d preferences tz) = utcoff (work_end_dt d preferences tz) ->
  dt_date (start_time slot) = d
  /\ dt_date (end_time slot) = d
  /\ work_start_time preferences <= dt_time (start_time slot)
  /\ dt_time (start_time slot) < dt_time (end_time slot)
  /\ dt_time (end_time slot) <= work_end_time preferences.
Proof.
  unfold generated_in_day, valid_time, dt_date, dt_time.
  intros (Hend & _ & Hpos & Hoff & Hwall & Hfit) Hws Hwe Hsame.
  rewrite Hend in *. unfold instant in Hfit. rewrite utcoff_dt_add in Hfit.
  unfold work_start_dt, work_end_dt in *. cbn [wall dt_add localize] in *.
  unfold combine in *.
  destruct (wall_on_date d (wall (start_time slot))) as [-> ->]; [lia|].
  destruct (wall_on_date d (wall (start_time slot) + slot_duration)) as [-> ->];
    [lia|].
  lia.
Qed.

(** C7 (as the source has it).  With weekends excluded, every generated
    slot belongs to a date [d] of the range that is a Monday to Friday,
    and lies between the localized work start and work end of [d]; on the
    wall clock too, its start and end are times of day of [d] within
    [[work_start, work_end]], when the timezone has one offset at both
    ends of that working day.  A Saturday or Sunday contributes no slot,
    nor does a date whose work end is before work start plus the duration;
    a date whose work end is exactly work start plus the duration
    contributes the one slot that fills it. *)
Theorem working_hours_containment (start_date end_date : date) (duration : Z)
    (preferences : UserPreferences) (tz : tzinfo) :
  (forall slots,
     _generate_potential_slots start_date end_date duration preferences tz true
     = Ok slots ->
     Forall (fun slot =>
               exists d,
                 start_date <= d <= end_date
                 /\ date_weekday d < 5
                 /\ instant (work_start_dt d preferences tz)
                    <= instant (start_time slot)
                 /\ instant (start_time slot) < instant (end_time slot)
                 /\ instant (end_time slot) <= instant (work_end_dt d preferences tz)
                 /\ (valid_time (work_start_time preferences) ->
                     valid_time (work_end_time preferences) ->
                     utcoff (work_start_dt d preferences tz)
                     = utcoff (work_end_dt d preferences tz) ->
                     dt_date (start_time slot) = d
                     /\ dt_date (end_time slot) = d
                     /\ work_start_time preferences <= dt_time (start_time slot)
                     /\ dt_time (start_time slot) < dt_time (end_time slot)
                     /\ dt_time (end_time slot) <= work_end_time preferences))
            slots)
  /\ (forall d,
        5 <= date_weekday d ->
        _generate_potential_slots d d duration preferences tz true = Ok [])
  /\ (forall d,
        instant (work_end_dt d preferences tz)
        < instant (work_start_dt d preferences tz) + timedelta_minutes duration ->
        _generate_day_slots d duration preferences tz = Ok [])
  /\ (forall d,
        0 < duration -> 0 < duration + buffer_time preferences ->
        instant (work_end_dt d preferences tz)
        = instant (work_start_dt d preferences tz) + timedelta_minutes duration ->
        _generate_day_slots d duration preferences tz
        = Ok [ {| start_time := work_start_dt d preferences tz;
                  end_time := dt_add (work_start_dt d preferences tz)
                                (timedelta_minutes duration);
                  confidence := 0.8 |} ]).
Proof.
  split; [|split; [|split]].
  - intros slots Hgen. unfold _generate_potential_slots in Hgen.
    eapply Forall_impl; [|apply (dates_loop_slots _ _ _ _ _ _ _ Hgen)].
    intros slot (d & Hd & Hw & Hg). exists d.
    split; [lia|]. split; [auto|].
    pose proof (generated_in_day_wall d preferences tz _ slot Hg) as Hwall.
    destruct Hg as (Hend & _ & Hpos & Hoff & Hstart & Hfit).
    split; [unfold instant; rewrite Hoff; lia|].
    split; [rewrite Hend, instant_dt_add; lia|].
    split; assumption.
  - intros d Hd. unfold _generate_potential_slots.
    replace (d - d + 1) with 1 by lia.
    change (Z.to_nat 1) with 1%nat. cbn [dates_loop].
    replace (date_weekday d >=? 5) with true; [reflexivity|].
    symmetry. rewrite Z.geb_leb. apply Z.leb_le, Hd.
  - intros d Hlt. rewrite generate_day_slots_unfold. unfold day_fuel.
    rewrite day_loop_step.
    replace (dt_leb _ (work_end_dt d preferences tz)) with false; [reflexivity|].
    symmetry. apply dt_leb_gt. rewrite instant_dt_add. lia.
  - intros d Hd Hstep Heq. rewrite generate_day_slots_unfold. unfold day_fuel.
    apply (proj1 (timedelta_minutes_pos _)) in Hd, Hstep.
    rewrite <- timedelta_minutes_add in Hstep.
    rewrite !day_loop_step.
    replace (dt_leb (dt_add (work_start_dt d preferences tz)
                       (timedelta_minutes duration))
                    (work_end_dt d preferences tz)) with true
      by (symmetry; apply dt_leb_le; rewrite instant_dt_add; lia).
    replace (dt_leb (dt_add (work_start_dt d preferences tz)
                       (timedelta_minutes duration))
                    (work_start_dt d preferences tz)) with false
      by (symmetry; apply dt_leb_gt; rewrite instant_dt_add; lia).
    replace (dt_leb _ (work_end_dt d preferences tz)) with false; [reflexivity|].
    symmetry. apply dt_leb_gt. rewrite !instant_dt_add. lia.
Qed.

(** ** Aggregation over the scheduler's own API objects *)

(** What the handler of [_get_existing_events] does for API objects of any
    kind: the sources are consulted in the order Google, Outlook, user
    context, and the first exception ends the gathering. *)
Lemma get_existing_events_until_failure (self : Scheduler) (rt : Runtime)
    (start_date end_date : date) (user_context : option UserContext) :
  _get_existing_events self rt start_date end_date user_context
  = match get_events (google_calendar self) start_date end_date with
    | Failed _ => Ok []
    | Returned google_events =>
      match get_events (outlook_calendar self) start_date end_date with
      | Failed _ => Ok google_events
      | Returned outlook_events =>
        Ok ((google_events ++ outlook_events) ++ context_events rt user_context)
      end
    end.
Proof.
  unfold _get_existing_events, context_events.
  destruct (get_events (google_calendar self) start_date end_date) as [g|];
    cbn [await]; [|reflexivity].
  destruct (get_events (outlook_calendar self) start_date end_date) as [o|];
    cbn [await]; [|reflexivity].
  destruct user_context as [ctx|]; [|rewrite app_nil_r; reflexivity].
  destruct (existing_events ctx) as [|d ds] eqn:Hd.
  { simpl. rewrite app_nil_r. reflexivity. }
  pose proof (comprehension_returns (_dict_to_event rt) (d :: ds)
                (dict_to_event_returns rt)) as Hc.
  destruct (comprehension (_dict_to_event rt) (d :: ds)) eqn:Hrun;
    [reflexivity|rewrite app_nil_r; reflexivity|contradiction].
Qed.

(** The converted events of the user context, or nothing: the code's
    comprehension gives the intervals [from_user_context] describes. *)
Lemma context_events_from_user_context (rt : Runtime)
    (user_context : option UserContext) (intervals : list Event) :
  from_user_context rt user_context intervals
  <-> intervals = context_events rt user_context.
Proof.
  unfold from_user_context, context_events.
  destruct user_context as [ctx|]; [|tauto].
  pose proof (comprehension_returns (_dict_to_event rt) (existing_events ctx)
                (dict_to_event_returns rt)) as Hreturns.
  split.
  - intros [Hall | [-> (d & Hin & Hd)]].
    + rewrite (proj2 (comprehension_Ok _ _ _) Hall). reflexivity.
    + destruct (_dict_to_event rt d) as [event|e|] eqn:Hconv.
      * exfalso. exact (Hd event eq_refl).
      * destruct (comprehension_raises _ _ d e (dict_to_event_returns rt) Hin Hconv)
          as [e' ->]. reflexivity.
      * exfalso. exact (dict_to_event_returns rt d Hconv).
  - intros ->.
    destruct (comprehension (_dict_to_event rt) (existing_events ctx))
      as [events|e|] eqn:Hrun.
    + left. apply comprehension_Ok. exact Hrun.
    + right. split; [reflexivity|].
      destruct (comprehension_Raise _ _ _ Hrun) as (d & e' & Hin & Hd).
      exists d. split; [assumption|]. intros event. rewrite Hd. discriminate.
    + contradiction.
Qed.

(** C2.  For the scheduler [__init__] builds, an aggregation always
    returns, and it returns the intervals of every source that answers: a
    calendar whose request fails contributes nothing, and the intervals
    the other calendar lists and those obtained from the user context are
    all there, in the order Google, Outlook, user context; when both
    calendars fail, the intervals of the user context are returned. *)
Theorem aggregation_survives_outage (google_service outlook_service : Service)
    (rt : Runtime) (start_date end_date : date) (user_context : option UserContext)
    (from_context : list Event) :
  from_user_context rt user_context from_context ->
  let aggregation :=
    _get_existing_events (__init__ google_service outlook_service) rt
      start_date end_date user_context in
  (forall google_events outlook_events,
     list_events google_service start_date end_date = Returned google_events ->
     list_events outlook_service start_date end_date = Returned outlook_events ->
     aggregation = Ok (google_events ++ outlook_events ++ from_context))
  /\ (forall e outlook_events,
        list_events google_service start_date end_date = Failed e ->
        list_events outlook_service start_date end_date = Returned outlook_events ->
        aggregation = Ok (outlook_events ++ from_context))
  /\ (forall e google_events,
        list_events google_service start_date end_date = Returned google_events ->
        list_events outlook_service start_date end_date = Failed e ->
        aggregation = Ok (google_events ++ from_context))
  /\ (forall e e',
        list_events google_service start_date end_date = Failed e ->
        list_events outlook_service start_date end_date = Failed e' ->
        aggregation = Ok from_context)
  /\ exists intervals, aggregation = Ok intervals.
Proof.
  intros Hctx aggregation.
  apply context_events_from_user_context in Hctx. subst from_context.
  unfold aggregation. rewrite get_existing_events_until_failure. simpl.
  repeat split.
  - intros g o -> ->. rewrite <- app_assoc. reflexivity.
  - intros e o -> ->. reflexivity.
  - intros e g -> ->. rewrite app_nil_r. reflexivity.
  - intros e e' -> ->. reflexivity.
  - destruct (list_events google_service start_date end_date);
      destruct (list_events outlook_service start_date end_date); eauto.
Qed.

(** ** Availability of one interval *)

Lemma conflict_free_iff (start_time end_time : datetime) (events : list Event) :
  conflict_free start_time end_time events = true
  <-> forall E, In E events -> status E <> CANCELLED ->
        ~ (instant start_time < instant (ev_end_time E)
           /\ instant end_time > instant (ev_start_time E)).
Proof.
  induction events as [|E events IH]; simpl.
  - split; [intros _ E []|reflexivity].
  - destruct (EventStatus_eqb (status E) CANCELLED) eqn:Hc.
    + rewrite IH. to_prop. split.
      * intros H E' [<-|Hin]; [congruence|auto].
      * intros H E' Hin. apply H. right. assumption.
    + destruct (dt_ltb start_time (ev_end_time E)
                && dt_gtb end_time (ev_start_time E)) eqn:Ho.
      * to_prop. split; [discriminate|]. intros Hall. exfalso.
        apply (Hall E); [left; reflexivity|assumption|lia].
      * rewrite IH. split.
        -- intros H E' [<-|Hin]; [|auto]. intros _ [H1 H2].
           to_prop. destruct Ho; to_prop; lia.
        -- intros H E' Hin. apply H. right. assumption.
Qed.

Lemma get_existing_events_preferences (self : Scheduler) (rt : Runtime)
    (start_date end_date : date) (user_context : option UserContext)
    (preferences : UserPreferences) :
  _get_existing_events self rt start_date end_date
    (with_preferences preferences user_context)
  = _get_existing_events self rt start_date end_date user_context.
Proof. destruct user_context; reflexivity. Qed.

(** When the interval asked about and the intervals it is compared with
    are of one kind, the loop gets through. *)
Lemma conflict_free_compares_same_kind (start_time end_time : datetime)
    (events : list Event) :
  (forall E, In E events -> status E <> CANCELLED ->
     comparable start_time (ev_end_time E) = true
     /\ comparable end_time (ev_start_time E) = true) ->
  conflict_free_compares start_time end_time events = true.
Proof.
  induction events as [|E events IH]; intros Hall; [reflexivity|].
  assert (Hrest : conflict_free_compares start_time end_time events = true)
    by (apply IH; intros E' Hin; apply Hall; right; assumption).
  simpl. destruct (EventStatus_eqb (status E) CANCELLED) eqn:Hc; [exact Hrest|].
  to_prop. destruct (Hall E (or_introl eq_refl) Hc) as [-> ->]. simpl.
  rewrite Hrest.
  destruct (dt_ltb start_time (ev_end_time E)); [|reflexivity].
  destruct (dt_gtb end_time (ev_start_time E)); reflexivity.
Qed.

(** A busy interval of the other kind than [start_time] is never passed:
    the loop returns [False] before it, or the comparison with it raises. *)
Lemma conflict_free_compares_mixed (start_time end_time : datetime)
    (events : list Event) (E : Event) :
  In E events -> status E <> CANCELLED ->
  comparable start_time (ev_end_time E) = false ->
  conflict_free_compares start_time end_time events = true ->
  conflict_free start_time end_time events = false.
Proof.
  intros Hin Hc Hmixed. induction events as [|E' events IH]; [destruct Hin|].
  simpl. destruct (EventStatus_eqb (status E') CANCELLED) eqn:Hc'.
  - to_prop. destruct Hin as [->|Hin]; [contradiction|]. apply IH, Hin.
  - destruct Hin as [->|Hin]; [rewrite Hmixed; discriminate|].
    destruct (comparable start_time (ev_end_time E')); [|discriminate]. simpl.
    destruct (dt_ltb start_time (ev_end_time E')); simpl; [|apply IH, Hin].
    destruct (comparable end_time (ev_start_time E')); [|discriminate]. simpl.
    destruct (dt_gtb end_time (ev_start_time E')); [reflexivity|apply IH, Hin].
Qed.

Lemma check_availability_unfold (self : Scheduler) (rt : Runtime)
    (start_time end_time : datetime) (user_context : option UserContext)
    (events : list Event) :
  _get_existing_events self rt (dt_date start_time) (dt_date end_time) user_context
  = Ok events ->
  check_availability self rt start_time end_time user_context
  = Ok (conflict_free_compares start_time end_time events
        && conflict_free start_time end_time events).
Proof.
  intros Hev. unfold check_availability. rewrite Hev. simpl.
  destruct (conflict_free_compares start_time end_time events); reflexivity.
Qed.

(** C8 (as the source has it).  [check_availability] always answers.  It
    answers [True] exactly when the loop gets through its comparisons and
    no aggregated busy interval that is not cancelled overlaps the
    interval asked about, overlap being [start < E.end and end > E.start].
    When the interval and the busy intervals are of one kind (all aware,
    or all naive) that is: exactly when none overlaps.  When a busy
    interval that is not cancelled is aware and [start] naive, or the
    reverse, the answer is [False] whatever the times.  The answer does
    not depend on the preferences, hence not on the buffer. *)
Theorem check_availability_is_strict_overlap (self : Scheduler) (rt : Runtime)
    (start_time end_time : datetime) (user_context : option UserContext) :
  exists events,
    _get_existing_events self rt (dt_date start_time) (dt_date end_time) user_context
    = Ok events
    /\ (check_availability self rt start_time end_time user_context = Ok true
        <-> conflict_free_compares start_time end_time events = true
            /\ forall E, In E events -> status E <> CANCELLED ->
                 ~ (instant start_time < instant (ev_end_time E)
                    /\ instant end_time > instant (ev_start_time E)))
    /\ ((forall E, In E events -> status E <> CANCELLED ->
           comparable start_time (ev_end_time E) = true
           /\ comparable end_time (ev_start_time E) = true) ->
        (check_availability self rt start_time end_time user_context = Ok true
         <-> forall E, In E events -> status E <> CANCELLED ->
               ~ (instant start_time < instant (ev_end_time E)
                  /\ instant end_time > instant (ev_start_time E))))
    /\ ((exists E, In E events /\ status E <> CANCELLED
                   /\ comparable start_time (ev_end_time E) = false) ->
        check_availability self rt start_time end_time user_context = Ok false)
    /\ (exists answer,
          check_availability self rt start_time end_time user_context = Ok answer)
    /\ (forall preferences,
          check_availability self rt start_time end_time
            (with_preferences preferences user_context)
          = check_availability self rt start_time end_time user_context).
Proof.
  destruct (get_existing_events_returns self rt (dt_date start_time)
              (dt_date end_time) user_context) as [events Hev].
  exists events. split; [assumption|].
  rewrite (check_availability_unfold _ _ _ _ _ _ Hev).
  assert (Hiff : Ok (conflict_free_compares start_time end_time events
                     && conflict_free start_time end_time events) = Ok true
                 <-> conflict_free_compares start_time end_time events = true
                     /\ forall E, In E events -> status E <> CANCELLED ->
                          ~ (instant start_time < instant (ev_end_time E)
                             /\ instant end_time > instant (ev_start_time E))).
  { rewrite <- conflict_free_iff, <- andb_true_iff.
    split; [intros H; injection H; auto|intros ->; reflexivity]. }
  split; [exact Hiff|]. split; [|split; [|split]].
  - intros Hkind. rewrite Hiff. split; [tauto|]. intros Hfree.
    split; [apply conflict_free_compares_same_kind, Hkind|exact Hfree].
  - intros (E & Hin & Hc & Hmixed).
    destruct (conflict_free_compares start_time end_time events) eqn:Hcmp;
      [|reflexivity].
    rewrite (conflict_free_compares_mixed _ _ _ E Hin Hc Hmixed Hcmp). reflexivity.
  - eauto.
  - intros preferences.
    apply check_availability_unfold.
    rewrite get_existing_events_preferences. exact Hev.
Qed.

(** ** Provider dispatch *)

(** C9 (as the source has it).  With a provider name that is neither
    "google" nor "outlook", whatever the API objects would answer:
    [create_event] and [update_event] raise the [ValueError] to the
    caller; [cancel_event] returns [False] and
    [suggest_reschedule_options] returns the empty list. *)
Theorem unknown_provider (self : Scheduler) (rt : Runtime) (calendar_provider : string)
    (title event_id : string) (start_time end_time : datetime)
    (description location : option string) (attendees : list string)
    (updates : list (string * string)) (new_duration : option Z) :
  String.eqb calendar_provider "google" = false ->
  String.eqb calendar_provider "outlook" = false ->
  create_event self title start_time end_time description location attendees
    calendar_provider = Raise (unsupported calendar_provider)
  /\ update_event self event_id updates calendar_provider
     = Raise (unsupported calendar_provider)
  /\ cancel_event self event_id calendar_provider = Ok false
  /\ suggest_reschedule_options self rt event_id new_duration calendar_provider
     = Ok [].
Proof.
  intros Hg Ho.
  unfold create_event, update_event, cancel_event, suggest_reschedule_options.
  rewrite Hg, Ho. repeat split; reflexivity.
Qed.

(** ** The theorems at work on Monday 2024-01-15 *)

(** A slot that starts exactly the buffer (15 minutes) after the meeting
    ends is kept. *)
Lemma filter_conflicting_slots_spec_witness :
  _filter_conflicting_slots [slot_at monday 11 15 60] [meeting_10_to_11]
    default_UserPreferences
  = [slot_at monday 11 15 60].
Proof.
  apply (proj1 (proj2 (proj2
           (filter_conflicting_slots_spec [] [] default_UserPreferences)))).
  - vm_compute. discriminate.
  - vm_compute. reflexivity.
  - vm_compute. reflexivity.
  - left. vm_compute. reflexivity.
Defined.

(** Scoring the 09:00 and the 12:15 slot puts them in that order. *)
Lemma score_time_slots_sorted_stable_witness :
  let scored :=
    _score_time_slots [slot_at monday 12 15 60; slot_at monday 9 0 60] None
      default_UserPreferences UTC in
  PrimFloat.leb (confidence (nth 1 scored (slot_at monday 0 0 1)))
                (confidence (nth 0 scored (slot_at monday 0 0 1))) = true.
Proof.
  intros scored.
  apply (proj1 (score_time_slots_sorted_stable
                  [slot_at monday 12 15 60; slot_at monday 9 0 60] None
                  default_UserPreferences UTC) [] _ _ []).
  vm_compute. reflexivity.
Defined.

Lemma nonpositive_duration_finds_nothing_witness :
  find_available_slots (__init__ busy_service empty_service) utc_runtime 0
    None None (Some monday) (Some monday) true = Ok [].
Proof.
  apply (nonpositive_duration_finds_nothing
           (__init__ busy_service empty_service) utc_runtime 0
           None None (Some monday) (Some monday) true).
  lia.
Defined.

(** C5 as stated fails: a zero duration is answered with a list, not with
    an exception. *)
Lemma nonpositive_duration_not_rejected :
  ~ exists e,
      find_available_slots (__init__ busy_service empty_service) utc_runtime 0
        None None (Some monday) (Some monday) true = Raise e.
Proof.
  intros [e He]. vm_compute in He. discriminate.
Qed.

Lemma returned_slots_have_requested_duration_witness :
  exists slots,
    find_available_slots (__init__ busy_service empty_service) utc_runtime 60
      None None (Some monday) (Some monday) true = Ok slots
    /\ slots <> []
    /\ Forall (fun slot =>
                 dt_sub (end_time slot) (start_time slot) = timedelta_minutes 60)
              slots.
Proof.
  eexists. split; [vm_compute; reflexivity|]. split; [discriminate|].
  apply (returned_slots_have_requested_duration
           (__init__ busy_service empty_service) utc_runtime 60
           None None (Some monday) (Some monday) true).
  vm_compute. reflexivity.
Defined.

Lemma working_hours_containment_witness :
  exists slots,
    _generate_potential_slots monday (monday + 6) 60 default_UserPreferences UTC true
    = Ok slots
    /\ List.length slots = 30%nat
    /\ Forall (fun slot =>
                 exists d,
                   monday <= d <= monday + 6
                   /\ date_weekday d < 5
                   /\ dt_date (start_time slot) = d
                   /\ dt_date (end_time slot) = d
                   /\ mk_time 9 0 <= dt_time (start_time slot)
                   /\ dt_time (end_time slot) <= mk_time 17 0)
              slots.
Proof.
  eexists. split; [vm_compute; reflexivity|]. split; [reflexivity|].
  eapply Forall_impl;
    [|apply (proj1 (working_hours_containment monday (monday + 6) 60
                      default_UserPreferences UTC));
      vm_compute; reflexivity].
  intros slot (d & Hd & Hw & _ & _ & _ & Hwall). exists d.
  destruct Hwall as (H1 & H2 & H3 & H4 & H5).
  - vm_compute. split; [discriminate|reflexivity].
  - vm_compute. split; [discriminate|reflexivity].
  - reflexivity.
  - repeat split; try assumption; apply Hd.
Defined.

(** C7 as stated fails at equality: work hours of exactly the duration
    (09:00 to 17:00, 480 minutes) give one slot, not none.  And on the
    wall clock it fails where the offset changes within the working day:
    on the Tuesday the clocks go back, the last 45-minute slot of the late
    worker starts at 23:00 with the offset of the morning and ends before
    the localized work end, yet at 23:45 local time of that Tuesday, a
    quarter of an hour past the work end of 23:30. *)
Lemma working_hours_as_stated_fail :
  (instant (work_end_dt monday default_UserPreferences UTC)
   <= instant (work_start_dt monday default_UserPreferences UTC)
      + timedelta_minutes 480
   /\ _generate_potential_slots monday monday 480 default_UserPreferences UTC true
      = Ok [slot_at monday 9 0 480])
  /\ (exists slots last,
        _generate_potential_slots tuesday tuesday 45 late_worker clocks_go_back true
        = Ok slots
        /\ List.length slots = 16%nat
        /\ nth_error slots 15 = Some last
        /\ date_weekday tuesday < 5
        /\ instant (end_time last)
           <= instant (work_end_dt tuesday late_worker clocks_go_back)
        /\ dt_date (end_time last) = tuesday
        /\ dt_time (end_time last) = mk_time 23 45
        /\ work_end_time late_worker < dt_time (end_time last)).
Proof.
  split; [split; [vm_compute; discriminate|vm_compute; reflexivity]|].
  eexists. eexists. split; [vm_compute; reflexivity|].
  split; [reflexivity|]. split; [reflexivity|].
  repeat split; vm_compute; try reflexivity; discriminate.
Qed.


(** Google cannot be reached: the meeting Outlook reports is still there,
    and so is the lunch of the user context. *)
Lemma aggregation_survives_outage_witness :
  _get_existing_events (__init__ unreachable_service busy_service) utc_runtime
    monday monday (Some (context_with [lunch_dict]))
  = Ok [meeting_10_to_11; lunch].
Proof.
  apply (proj1 (proj2 (aggregation_survives_outage unreachable_service busy_service
                         utc_runtime monday monday
                         (Some (context_with [lunch_dict])) [lunch]
                         (or_introl (Forall2_cons lunch_dict lunch eq_refl
                                       (Forall2_nil _)))))
           (ApiError "connection refused") [meeting_10_to_11]);
    reflexivity.
Defined.

Lemma check_availability_is_strict_overlap_witness :
  check_availability (__init__ busy_service empty_service) utc_runtime
    (at_time monday 11 0) (at_time monday 12 0) None = Ok true.
Proof.
  destruct (check_availability_is_strict_overlap
              (__init__ busy_service empty_service) utc_runtime
              (at_time monday 11 0) (at_time monday 12 0) None)
    as (events & Hev & _ & Hiff & _).
  vm_compute in Hev. injection Hev as <-.
  apply Hiff.
  - intros E [<-|[]] _. split; reflexivity.
  - intros E [<-|[]] _ [H1 _]. vm_compute in H1. discriminate.
Defined.

(** C8 as stated fails when the two kinds of datetime meet: the hour after
    the meeting, asked about with naive datetimes, overlaps no busy
    interval, and yet is reported as not available, because the meeting
    the calendar reports is timezone-aware. *)
Lemma naive_interval_reported_busy :
  let start_time := naive_at monday 11 0 in
  let end_time := naive_at monday 12 0 in
  _get_existing_events (__init__ busy_service empty_service) utc_runtime
    (dt_date start_time) (dt_date end_time) None = Ok [meeting_10_to_11]
  /\ ~ (instant start_time < instant (ev_end_time meeting_10_to_11)
        /\ instant end_time > instant (ev_start_time meeting_10_to_11))
  /\ check_availability (__init__ busy_service empty_service) utc_runtime
       start_time end_time None = Ok false.
Proof.
  split; [reflexivity|]. split; [|reflexivity].
  intros [H _]. vm_compute in H. discriminate.
Qed.

Lemma unknown_provider_witness :
  create_event (__init__ busy_service empty_service) "Review"
    (at_time monday 14 0) (at_time monday 15 0) None None [] "apple"
  = Raise (unsupported "apple")
  /\ cancel_event (__init__ busy_service empty_service) "event_1" "apple" = Ok false.
Proof.
  destruct (unknown_provider (__init__ busy_service empty_service) utc_runtime
              "apple" "Review" "event_1" (at_time monday 14 0) (at_time monday 15 0)
              None None [] [] None eq_refl eq_refl) as (Hc & _ & Hx & _).
  split; assumption.
Defined.

(** C9 as stated fails for two of the four operations: nothing is raised
    to the caller of [cancel_event] or [suggest_reschedule_options]. *)
Lemma unknown_provider_not_raised :
  ~ (exists e,
       cancel_event (__init__ busy_service empty_service) "event_1" "apple"
       = Raise e)
  /\ ~ (exists e,
          suggest_reschedule_options (__init__ busy_service empty_service)
            utc_runtime "event_1" None "apple" = Raise e).
Proof.
  split; intros [e He]; vm_compute in He; discriminate.
Qed.

(** * More of the code *)

(** ** The slots of one day, in closed form *)

Lemma dt_add_0 (d : datetime) : dt_add d 0 = d.
Proof. destruct d as [w o]. unfold dt_add. simpl. f_equal. lia. Qed.

Lemma dt_add_add (d : datetime) (a b : timedelta) :
  dt_add (dt_add d a) b = dt_add d (a + b).
Proof. unfold dt_add. simpl. f_equal. lia. Qed.

Lemma nth_day_slot_next (cur : datetime) (slot_duration buffer_duration : timedelta)
    (k : nat) :
  nth_day_slot (dt_add (dt_add cur slot_duration) buffer_duration)
    slot_duration buffer_duration k
  = nth_day_slot cur slot_duration buffer_duration (Datatypes.S k).
Proof.
  unfold nth_day_slot. cbv zeta. rewrite !dt_add_add, Nat2Z.inj_succ.
  f_equal; f_equal; lia.
Qed.

Lemma day_slot_count_next (cur work_end : datetime)
    (slot_duration buffer_duration : timedelta) :
  0 < slot_duration + buffer_duration ->
  instant cur + slot_duration <= instant work_end ->
  day_slot_count cur work_end slot_duration buffer_duration
  = Datatypes.S
      (day_slot_count (dt_add (dt_add cur slot_duration) buffer_duration) work_end
         slot_duration buffer_duration).
Proof.
  intros Hstep Hfit. unfold day_slot_count. rewrite !instant_dt_add.
  set (step := slot_duration + buffer_duration) in *.
  set (span := instant work_end - instant cur).
  replace (instant work_end - (instant cur + slot_duration + buffer_duration))
    with (span - step) by (unfold span, step; lia).
  replace (span <? slot_duration) with false
    by (symmetry; apply Z.ltb_ge; unfold span; lia).
  destruct (span - step <? slot_duration) eqn:Hnext; to_prop.
  - rewrite Z.div_small by (unfold span in *; lia). reflexivity.
  - replace (span - slot_duration) with (span - step - slot_duration + 1 * step)
      by lia.
    rewrite Z.div_add by lia.
    assert (0 <= (span - step - slot_duration) / step) by (apply Z.div_pos; lia).
    rewrite <- Z2Nat.inj_succ by lia. f_equal; lia.
Qed.

Lemma day_loop_closed_form (work_end : datetime)
    (slot_duration buffer_duration : timedelta) :
  0 < slot_duration -> 0 < slot_duration + buffer_duration ->
  forall fuel current_time,
    instant work_end - instant current_time - slot_duration
      < Z.of_nat fuel * (slot_duration + buffer_duration) ->
    day_loop (Datatypes.S fuel) current_time work_end slot_duration buffer_duration
    = Ok (map (nth_day_slot current_time slot_duration buffer_duration)
            (seq 0 (day_slot_count current_time work_end slot_duration
                      buffer_duration))).
Proof.
  intros Hd Hstep. induction fuel as [|fuel IH]; intros cur Hfuel.
  - rewrite day_loop_step.
    replace (dt_leb (dt_add cur slot_duration) work_end) with false
      by (symmetry; apply dt_leb_gt; rewrite instant_dt_add; simpl in Hfuel; lia).
    unfold day_slot_count.
    replace (instant work_end - instant cur <? slot_duration) with true
      by (symmetry; apply Z.ltb_lt; simpl in Hfuel; lia).
    reflexivity.
  - rewrite day_loop_step.
    destruct (dt_leb (dt_add cur slot_duration) work_end) eqn:Hc; to_prop;
      rewrite instant_dt_add in Hc.
    + replace (dt_leb (dt_add cur slot_duration) cur) with false
        by (symmetry; apply dt_leb_gt; rewrite instant_dt_add; lia).
      rewrite IH by (rewrite !instant_dt_add; lia). simpl.
      rewrite (day_slot_count_next cur work_end) by assumption.
      cbn [seq map]. rewrite <- seq_shift, map_map. f_equal. f_equal.
      * unfold nth_day_slot. simpl. rewrite dt_add_0. reflexivity.
      * apply map_ext. intros k. apply nth_day_slot_next.
    + unfold day_slot_count.
      replace (instant work_end - instant cur <? slot_duration) with true
        by (symmetry; apply Z.ltb_lt; lia).
      reflexivity.
Qed.

Lemma nth_error_map_seq {A} (f : nat -> A) (n i : nat) :
  nth_error (map f (seq 0 n)) i = if (i <? n)%nat then Some (f i) else None.
Proof.
  rewrite nth_error_map.
  destruct (i <? n)%nat eqn:Hi.
  - apply Nat.ltb_lt in Hi. rewrite nth_error_seq.
    replace (i <? n)%nat with true by (symmetry; apply Nat.ltb_lt; assumption).
    reflexivity.
  - apply Nat.ltb_ge in Hi.
    replace (nth_error (seq 0 n) i) with (@None nat); [reflexivity|].
    symmetry. apply nth_error_None. rewrite length_seq. assumption.
Qed.

Lemma generate_day_slots_map_seq (target_date : date) (duration : Z)
    (preferences : UserPreferences) (timezone : tzinfo) :
  0 < duration -> 0 < duration + buffer_time preferences ->
  _generate_day_slots target_date duration preferences timezone
  = Ok (map (nth_day_slot (work_start_dt target_date preferences timezone)
               (timedelta_minutes duration)
               (timedelta_minutes (buffer_time preferences)))
          (seq 0 (day_slot_count (work_start_dt target_date preferences timezone)
                    (work_end_dt target_date preferences timezone)
                    (timedelta_minutes duration)
                    (timedelta_minutes (buffer_time preferences))))).
Proof.
  intros Hd Hstep. rewrite generate_day_slots_unfold. unfold day_fuel.
  apply (proj1 (timedelta_minutes_pos _)) in Hd, Hstep.
  rewrite <- timedelta_minutes_add in Hstep.
  apply day_loop_closed_form; try assumption.
  set (step := timedelta_minutes duration
               + timedelta_minutes (buffer_time preferences)) in *.
  set (span := instant (work_end_dt target_date preferences timezone)
               - instant (work_start_dt target_date preferences timezone)).
  destruct (Z_lt_le_dec span 0) as [Hneg|Hpos].
  - rewrite Nat2Z.inj_succ. pose proof (Nat2Z.is_nonneg (Z.to_nat (span / step))). nia.
  - rewrite Nat2Z.inj_succ, Z2Nat.id by (apply Z.div_pos; lia).
    pose proof (Z.mul_succ_div_gt span step Hstep). lia.
Qed.

(** X1.  For a positive duration and a cursor that advances (duration
    plus buffer positive), the slots of a day are known in closed form:
    none if the working day is shorter than the duration, else
    [(span - duration) / (duration + buffer) + 1] of them, the k-th
    starting k steps of duration plus buffer after the localized work
    start, each with the baseline confidence 0.8. *)
Theorem generate_day_slots_closed_form (target_date : date) (duration : Z)
    (preferences : UserPreferences) (timezone : tzinfo) :
  0 < duration -> 0 < duration + buffer_time preferences ->
  let work_start := work_start_dt target_date preferences timezone in
  let work_end := work_end_dt target_date preferences timezone in
  let slot_duration := timedelta_minutes duration in
  let buffer_duration := timedelta_minutes (buffer_time preferences) in
  let count := day_slot_count work_start work_end slot_duration buffer_duration in
  exists slots,
    _generate_day_slots target_date duration preferences timezone = Ok slots
    /\ List.length slots = count
    /\ (forall k,
          (k < count)%nat ->
          nth_error slots k
          = Some {| start_time :=
                      dt_add work_start
                        (Z.of_nat k * (slot_duration + buffer_duration));
                    end_time :=
                      dt_add (dt_add work_start
                                (Z.of_nat k * (slot_duration + buffer_duration)))
                        slot_duration;
                    confidence := 0.8 |})
    /\ (instant work_end - instant work_start < slot_duration -> count = 0%nat)
    /\ (slot_duration <= instant work_end - instant work_start ->
        Z.of_nat count
        = (instant work_end - instant work_start - slot_duration)
          / (slot_duration + buffer_duration) + 1).
Proof.
  intros Hd Hstep work_start work_end slot_duration buffer_duration count.
  eexists. split; [apply generate_day_slots_map_seq; assumption|].
  split; [rewrite length_map, length_seq; reflexivity|].
  split; [|split].
  - intros k Hk. rewrite nth_error_map_seq.
    replace (k <? _)%nat with true by (symmetry; apply Nat.ltb_lt; exact Hk).
    reflexivity.
  - intros Hshort. unfold count, day_slot_count.
    replace (_ <? slot_duration) with true by (symmetry; apply Z.ltb_lt; exact Hshort).
    reflexivity.
  - intros Hfits. unfold count, day_slot_count.
    replace (_ <? slot_duration) with false by (symmetry; apply Z.ltb_ge; exact Hfits).
    apply (proj1 (timedelta_minutes_pos _)) in Hstep.
    rewrite <- timedelta_minutes_add in Hstep.
    rewrite Z2Nat.id; [reflexivity|].
    assert (0 <= (instant work_end - instant work_start - slot_duration)
                 / (slot_duration + buffer_duration)); [|lia].
    apply Z.div_pos; [lia|exact Hstep].
Qed.

(** X2.  In the slots of a day, each slot starts exactly the buffer after
    the slot before it ends; with a buffer that is not negative an earlier
    slot has ended, and the buffer has passed, when a later one starts. *)
Theorem generate_day_slots_spacing (target_date : date) (duration : Z)
    (preferences : UserPreferences) (timezone : tzinfo) (slots : list TimeSlot) :
  _generate_day_slots target_date duration preferences timezone = Ok slots ->
  (forall i a b,
     nth_error slots i = Some a -> nth_error slots (Datatypes.S i) = Some b ->
     start_time b = dt_add (end_time a) (timedelta_minutes (buffer_time preferences)))
  /\ (0 <= buffer_time preferences ->
      forall i j a b,
        (i < j)%nat -> nth_error slots i = Some a -> nth_error slots j = Some b ->
        instant (end_time a) + timedelta_minutes (buffer_time preferences)
        <= instant (start_time b)).
Proof.
  intros Hrun.
  destruct (Z_le_gt_dec duration 0) as [Hd|Hd].
  { destruct (generate_day_slots_nonpositive target_date duration preferences
                timezone Hd) as [H | [e H]]; rewrite H in Hrun; [|discriminate].
    injection Hrun as <-. split; [intros i a b Ha|intros _ i j a b _ Ha];
      destruct i; discriminate. }
  destruct (Z_le_gt_dec (duration + buffer_time preferences) 0) as [Hstep|Hstep].
  { rewrite generate_day_slots_unfold in Hrun. unfold day_fuel in Hrun.
    destruct (dt_leb (dt_add (work_start_dt target_date preferences timezone)
                        (timedelta_minutes duration))
                     (work_end_dt target_date preferences timezone)) eqn:Hc.
    - to_prop. rewrite instant_dt_add in Hc.
      rewrite day_loop_stuck in Hrun; try discriminate; try assumption.
      + apply (proj1 (timedelta_minutes_pos _)). lia.
      + rewrite timedelta_minutes_add.
        unfold timedelta_minutes, us_per_minute, us_per_second. lia.
    - rewrite day_loop_step, Hc in Hrun. injection Hrun as <-.
      split; [intros i a b Ha|intros _ i j a b _ Ha]; destruct i; discriminate. }
  rewrite generate_day_slots_map_seq in Hrun by lia.
  injection Hrun as <-.
  set (ws := work_start_dt target_date preferences timezone).
  set (sd := timedelta_minutes duration).
  set (bd := timedelta_minutes (buffer_time preferences)).
  split.
  - intros i a b Ha Hb. rewrite nth_error_map_seq in Ha, Hb.
    destruct (i <? _)%nat; [|discriminate].
    destruct (Datatypes.S i <? _)%nat; [|discriminate].
    injection Ha as <-. injection Hb as <-.
    rewrite <- nth_day_slot_next. unfold nth_day_slot. simpl.
    rewrite !dt_add_add. f_equal. lia.
  - intros Hbuf i j a b Hij Ha Hb. rewrite nth_error_map_seq in Ha, Hb.
    destruct (i <? _)%nat; [|discriminate].
    destruct (j <? _)%nat; [|discriminate].
    injection Ha as <-. injection Hb as <-.
    unfold nth_day_slot. simpl. rewrite !instant_dt_add.
    assert (0 < sd) by (apply (proj1 (timedelta_minutes_pos _)); lia).
    assert (0 <= bd)
      by (unfold bd, timedelta_minutes, us_per_minute, us_per_second; lia).
    assert (Z.of_nat i + 1 <= Z.of_nat j) by lia.
    nia.
Qed.

(** ** What the returned slots promise *)

Lemma rejects_same_span (buffer_minutes : Z) (a b : TimeSlot) (E : Event) :
  start_time a = start_time b -> end_time a = end_time b ->
  rejects buffer_minutes a E -> rejects buffer_minutes b E.
Proof.
  unfold rejects, overlap, buffer_violation_before, buffer_violation_after.
  intros -> ->. auto.
Qed.

(** X3.  What [find_available_slots] returns is free.  For every slot
    returned and every event of the aggregation that is not cancelled:
    both are timezone-aware; they do not overlap; and when there is a gap
    between them, before the slot or after it, the gap is at least the
    buffer.  (A slot that touches the event, with no gap at all, is
    therefore not excluded.) *)
Theorem returned_slots_are_free (self : Scheduler) (rt : Runtime) (duration : Z)
    (preferred_time : option datetime) (user_context : option UserContext)
    (start_date end_date : option date) (exclude_weekends : bool)
    (slots : list TimeSlot) :
  find_available_slots self rt duration preferred_time user_context
    start_date end_date exclude_weekends = Ok slots ->
  exists events,
    _get_existing_events self rt (resolved_start rt start_date)
      (resolved_end rt start_date end_date) user_context = Ok events
    /\ forall slot E,
         In slot slots -> In E events -> status E <> CANCELLED ->
         (aware (start_time slot) = true /\ aware (end_time slot) = true
          /\ aware (ev_start_time E) = true /\ aware (ev_end_time E) = true)
         /\ (instant (ev_end_time E) <= instant (start_time slot)
             \/ instant (end_time slot) <= instant (ev_start_time E))
         /\ (instant (ev_end_time E) < instant (start_time slot) ->
             timedelta_minutes (buffer_time (preferences_of user_context))
             <= instant (start_time slot) - instant (ev_end_time E))
         /\ (instant (end_time slot) < instant (ev_start_time E) ->
             timedelta_minutes (buffer_time (preferences_of user_context))
             <= instant (ev_start_time E) - instant (end_time slot)).
Proof.
  intros Hrun.
  destruct (get_existing_events_returns self rt (resolved_start rt start_date)
              (resolved_end rt start_date end_date) user_context) as [events Hev].
  exists events. split; [assumption|].
  intros slot E Hin HE Hc.
  destruct (find_available_slots_compared _ _ _ _ _ _ _ _ _ _ Hrun Hin)
    as (tz & events' & candidate & _ & Hev' & _ & Hav & Hs & He & Hcmp & _
        & Has & Hae).
  rewrite Hev in Hev'. injection Hev' as <-.
  destruct (is_available_compares_kept _ _ _ Hav Hcmp E HE Hc) as [Hk1 Hk2].
  rewrite <- Hs in Hk1. rewrite <- He in Hk2.
  apply comparable_iff in Hk1, Hk2.
  split; [repeat split; congruence|].
  pose proof (proj1 (is_available_iff candidate events (preferences_of user_context))
                Hav E HE) as Hfree.
  assert (Hslot : ~ rejects (buffer_time (preferences_of user_context)) slot E)
    by (intros Hrej; apply Hfree, (rejects_same_span _ slot candidate E Hs He Hrej)).
  unfold rejects, overlap, buffer_violation_before, buffer_violation_after in Hslot.
  split; [|split].
  - destruct (Z_le_gt_dec (instant (ev_end_time E)) (instant (start_time slot)));
      [left; assumption|].
    destruct (Z_le_gt_dec (instant (end_time slot)) (instant (ev_start_time E)));
      [right; assumption|].
    exfalso. apply Hslot. split; [assumption|]. left. lia.
  - intros Hgap.
    destruct (Z_le_gt_dec (timedelta_minutes (buffer_time (preferences_of user_context)))
                (instant (start_time slot) - instant (ev_end_time E)));
      [assumption|].
    exfalso. apply Hslot. split; [assumption|]. right. left. lia.
  - intros Hgap.
    destruct (Z_le_gt_dec (timedelta_minutes (buffer_time (preferences_of user_context)))
                (instant (ev_start_time E) - instant (end_time slot)));
      [assumption|].
    exfalso. apply Hslot. split; [assumption|]. right. right. lia.
Qed.

Lemma ltb_leb (x y : float) : PrimFloat.ltb x y = true -> PrimFloat.leb x y = true.
Proof.
  rewrite FloatAxioms.ltb_spec, FloatAxioms.leb_spec. unfold SFltb, SFleb.
  destruct (SFcompare (Prim2SF x) (Prim2SF y)) as [[]|]; congruence.
Qed.

Lemma SFleb_trans (f g h : spec_float) :
  SFleb f g = true -> SFleb g h = true -> SFleb f h = true.
Proof.
  unfold SFleb.
  destruct f as [s1|s1| |s1 m1 e1], g as [s2|s2| |s2 m2 e2], h as [s3|s3| |s3 m3 e3];
    simpl; try destruct s1; try destruct s2; try destruct s3; simpl;
    try congruence; intros H1 H2;
    cmp_cases; subst; try congruence; try lia.
Qed.

Lemma leb_trans (x y z : float) :
  PrimFloat.leb x y = true -> PrimFloat.leb y z = true -> PrimFloat.leb x z = true.
Proof. rewrite !FloatAxioms.leb_spec. apply SFleb_trans. Qed.

(** [max(0.0, min(1.0, s))] followed by [min(., 1.0)] lands in the unit
    interval, whatever [s] is. *)
Lemma confidence_in_unit_interval (s : float) :
  let c := py_min (py_max 0 (py_min 1 s)) 1 in
  PrimFloat.leb 0 c = true /\ PrimFloat.leb c 1 = true.
Proof.
  unfold py_min, py_max.
  destruct (PrimFloat.ltb s 1) eqn:H1.
  - destruct (PrimFloat.ltb 0 s) eqn:H0.
    + rewrite (ltb_asym _ _ H1). split; apply ltb_leb; assumption.
    + change (PrimFloat.ltb 1 0) with false. cbv iota. split; reflexivity.
  - change (PrimFloat.ltb 0 1) with true. cbv iota.
    change (PrimFloat.ltb 1 1) with false. cbv iota. split; reflexivity.
Qed.

(** X4.  The scorer keeps the invariant of the [confidence] field that
    its assignment does not validate: every slot of its output, and so
    every slot [find_available_slots] returns, has a confidence between
    0.0 and 1.0. *)
Theorem confidence_stays_in_range (slots : list TimeSlot)
    (preferred_time : option datetime) (preferences : UserPreferences)
    (timezone : tzinfo) :
  Forall (fun slot =>
            PrimFloat.leb 0 (confidence slot) = true
            /\ PrimFloat.leb (confidence slot) 1 = true)
         (_score_time_slots slots preferred_time preferences timezone)
  /\ (forall self rt duration user_context start_date end_date exclude_weekends
        returned,
        find_available_slots self rt duration preferred_time user_context
          start_date end_date exclude_weekends = Ok returned ->
        Forall (fun slot =>
                  PrimFloat.leb 0 (confidence slot) = true
                  /\ PrimFloat.leb (confidence slot) 1 = true) returned).
Proof.
  assert (Hscored : forall l p prefs tz,
            Forall (fun slot =>
                      PrimFloat.leb 0 (confidence slot) = true
                      /\ PrimFloat.leb (confidence slot) 1 = true)
                   (_score_time_slots l p prefs tz)).
  { intros l p prefs tz. eapply Forall_impl; [|apply score_time_slots_confidence].
    intros slot ->. unfold assigned_confidence, _calculate_slot_score.
    apply confidence_in_unit_interval. }
  split; [apply Hscored|].
  intros self rt duration user_context start_date end_date exclude_weekends
    returned Hrun.
  destruct (find_available_slots_unfold self rt duration preferred_time user_context
              start_date end_date exclude_weekends) as [events [_ Heq]].
  rewrite Heq in Hrun.
  destruct (pytz_timezone rt (timezone_of user_context)) as [tz|];
    [|injection Hrun as <-; constructor].
  destruct (_generate_potential_slots _ _ duration _ tz exclude_weekends)
    as [potential| |]; try discriminate; [|injection Hrun as <-; constructor].
  cbv zeta in Hrun.
  destruct (_filter_conflicting_slots_compares potential events _
            && _score_time_slots_compares _ preferred_time);
    injection Hrun as <-; [|constructor].
  apply Forall_forall. intros slot Hin. apply In_firstn in Hin.
  exact (proj1 (Forall_forall _ _) (Hscored _ _ _ _) slot Hin).
Qed.

Section SortedOrder.
Context {A : Type} (key : A -> float).

Lemma ascending_suffix (before l : list A) :
  ascending key (before ++ l) -> ascending key l.
Proof.
  induction before as [|c before IH]; simpl; [auto|].
  intros [_ H]. apply IH, H.
Qed.

Lemma ascending_head_least (rest : list A) :
  forall a,
    Forall (fun x => is_nan (key x) = false) (a :: rest) ->
    ascending key (a :: rest) ->
    Forall (fun b => PrimFloat.leb (key a) (key b) = true) rest.
Proof.
  induction rest as [|b rest IH]; intros a Hnan Hasc; [constructor|].
  inversion Hnan as [|? ? Ha Hnan']; subst.
  inversion Hnan' as [|? ? Hb _]; subst.
  destruct Hasc as [Hab Hasc].
  assert (Hle : PrimFloat.leb (key a) (key b) = true)
    by (apply leb_of_not_ltb; assumption).
  constructor; [assumption|].
  eapply Forall_impl; [|apply (IH b Hnan' Hasc)].
  intros c Hbc. exact (leb_trans _ _ _ Hle Hbc).
Qed.

Lemma ascending_ordered (before after : list A) (a b : A) :
  Forall (fun x => is_nan (key x) = false) (before ++ a :: after) ->
  ascending key (before ++ a :: after) ->
  In b before -> PrimFloat.leb (key b) (key a) = true.
Proof.
  intros Hnan Hasc Hin.
  destruct (in_split _ _ Hin) as (p1 & p2 & ->).
  rewrite <- app_assoc in Hnan, Hasc. simpl in Hnan, Hasc.
  apply Forall_app in Hnan. destruct Hnan as [_ Hnan].
  apply ascending_suffix in Hasc.
  pose proof (ascending_head_least _ b Hnan Hasc) as Hall.
  apply (proj1 (Forall_forall _ _) Hall). apply in_or_app. right. left. reflexivity.
Qed.

(** In a list sorted with [reverse=True] whose keys are numbers, the key
    of an element is at least that of every element after it. *)
Lemma list_sort_reverse_ordered (l first rest : list A) (a b : A) :
  Forall (fun x => is_nan (key x) = false) l ->
  list_sort key true l = first ++ rest ->
  In a first -> In b rest -> PrimFloat.leb (key b) (key a) = true.
Proof.
  intros Hnan Heq Ha Hb.
  destruct (in_split _ _ Ha) as (f1 & f2 & ->).
  assert (Hrev : stable_sort key (rev l) = rev (f2 ++ rest) ++ a :: rev f1).
  { unfold list_sort in Heq.
    rewrite <- (rev_involutive (stable_sort key (rev l))), Heq.
    rewrite <- !app_assoc. simpl. rewrite rev_app_distr. simpl.
    rewrite <- app_assoc. reflexivity. }
  apply (ascending_ordered (rev (f2 ++ rest)) (rev f1) a b).
  - rewrite <- Hrev. apply Forall_forall. intros x Hx.
    apply (Permutation_in _ (stable_sort_perm key (rev l))) in Hx.
    apply in_rev in Hx. exact (proj1 (Forall_forall _ _) Hnan x Hx).
  - rewrite <- Hrev. apply stable_sort_ascending.
  - apply in_rev. rewrite rev_involutive. apply in_or_app. right. assumption.
Qed.
End SortedOrder.

(** X5.  The truncation to [max_suggestions] keeps the best.  When the
    timezone is known and aggregation and generation succeed, the result
    is the front of the ranked list or, if a comparison of the filter or
    of the scorer raised, the empty list; it is the front of the ranked
    list when the busy intervals that are not cancelled and the preferred
    time (if given) are timezone-aware.  No candidate left out of that
    front has a confidence above that of a slot in it. *)
Theorem truncation_keeps_the_best (self : Scheduler) (rt : Runtime) (duration : Z)
    (preferred_time : option datetime) (user_context : option UserContext)
    (start_date end_date : option date) (exclude_weekends : bool)
    (tz : tzinfo) (events : list Event) (potential_slots : list TimeSlot) :
  pytz_timezone rt (timezone_of user_context) = Some tz ->
  _get_existing_events self rt (resolved_start rt start_date)
    (resolved_end rt start_date end_date) user_context = Ok events ->
  _generate_potential_slots (resolved_start rt start_date)
    (resolved_end rt start_date end_date) duration (preferences_of user_context)
    tz exclude_weekends = Ok potential_slots ->
  let ranked :=
    _score_time_slots
      (_filter_conflicting_slots potential_slots events (preferences_of user_context))
      preferred_time (preferences_of user_context) tz in
  let result :=
    find_available_slots self rt duration preferred_time user_context
      start_date end_date exclude_weekends in
  (result = Ok (firstn (max_suggestions self) ranked) \/ result = Ok [])
  /\ ((forall E, In E events -> status E <> CANCELLED ->
         aware (ev_start_time E) = true /\ aware (ev_end_time E) = true) ->
      (forall p, preferred_time = Some p -> aware p = true) ->
      result = Ok (firstn (max_suggestions self) ranked))
  /\ forall returned left_out,
       In returned (firstn (max_suggestions self) ranked) ->
       In left_out (skipn (max_suggestions self) ranked) ->
       PrimFloat.leb (confidence left_out) (confidence returned) = true.
Proof.
  intros Htz Hev Hgen ranked result.
  assert (Heq : result
                = if _filter_conflicting_slots_compares potential_slots events
                       (preferences_of user_context)
                     && _score_time_slots_compares
                          (_filter_conflicting_slots potential_slots events
                             (preferences_of user_context)) preferred_time
                  then Ok (firstn (max_suggestions self) ranked) else Ok []).
  { unfold result.
    destruct (find_available_slots_unfold self rt duration preferred_time
                user_context start_date end_date exclude_weekends)
      as [events' [Hev' ->]].
    rewrite Hev in Hev'. injection Hev' as <-. rewrite Htz, Hgen. reflexivity. }
  split; [|split].
  - rewrite Heq. destruct (_ && _); auto.
  - intros Hevents Hp. rewrite Heq.
    assert (Haware : Forall (fun slot => aware (start_time slot) = true
                                         /\ aware (end_time slot) = true)
                            potential_slots)
      by (unfold _generate_potential_slots in Hgen;
          apply (dates_loop_aware _ _ _ _ _ _ _ Hgen)).
    rewrite (filter_compares_same_kind _ _ _ Haware Hevents).
    rewrite score_compares_same_kind; [reflexivity| |exact Hp].
    rewrite filter_conflicting_is_filter. apply Forall_forall. intros slot Hin.
    apply filter_In in Hin.
    exact (proj1 (Forall_forall _ _) Haware slot (proj1 Hin)).
  - intros returned left_out Hr Hl.
    apply (list_sort_reverse_ordered confidence
             (score_loop (_filter_conflicting_slots potential_slots events
                            (preferences_of user_context))
                preferred_time (preferences_of user_context) tz)
             (firstn (max_suggestions self) ranked)
             (skipn (max_suggestions self) ranked)); try assumption.
    + eapply Forall_impl; [|apply score_loop_confidence].
      intros slot ->. apply assigned_confidence_not_nan.
    + rewrite firstn_skipn. reflexivity.
Qed.

(** ** The conflict filter as an operation *)


Lemma is_available_bool_iff (a b : bool) : (a = true <-> b = true) -> a = b.
Proof. destruct a, b; intuition congruence. Qed.




(** X8.  The filter is at least as strict as [check_availability]: a slot
    it keeps passes the overlap test of [check_availability] against the
    same events; and with a buffer of zero (or less) the two tests are the
    same. *)
Theorem filter_refines_check_availability (slot : TimeSlot) (events : list Event)
    (preferences : UserPreferences) :
  (is_available slot events preferences = true ->
   conflict_free (start_time slot) (end_time slot) events = true)
  /\ (buffer_time preferences <= 0 ->
      is_available slot events preferences
      = conflict_free (start_time slot) (end_time slot) events).
Proof.
  split.
  - rewrite is_available_iff, conflict_free_iff.
    intros H E HE Hc Ho. apply (H E HE). split; [assumption|left; exact Ho].
  - intros Hbuf. apply is_available_bool_iff.
    rewrite is_available_iff, conflict_free_iff. split.
    + intros H E HE Hc Ho. apply (H E HE). split; [assumption|left; exact Ho].
    + intros H E HE [Hc [Ho | [[H1 H2] | [H1 H2]]]].
      * exact (H E HE Hc Ho).
      * unfold timedelta_minutes, us_per_minute, us_per_second in *. lia.
      * unfold timedelta_minutes, us_per_minute, us_per_second in *. lia.
Qed.

(** ** Events supplied in the user context *)

(** X9.  [_dict_to_event] on a dict whose values are strings, lists of
    strings or [None].  It returns an event exactly when: "start_time" and
    "end_time" are there and hold strings that parse, to datetimes of one
    kind with the end after the start; the status (if given) is a string
    that names a member of [EventStatus]; the title (if given) is a
    string; the attendees (if given) are a list; and "event_id",
    "description" and "location" hold a string or [None].  The event then
    carries these values, an absent title reads as the empty string, an
    absent status as scheduled, absent attendees as no attendees.  A dict
    without "start_time" raises [KeyError], and a title given as [None]
    is refused. *)
Theorem dict_to_event_spec (rt : Runtime) (d : event_dict) :
  (forall event,
     _dict_to_event rt d = Ok event
     <-> exists start_text end_text status_text,
           dict_get "start_time" d = Some (PyStr start_text)
           /\ parser_parse rt start_text = Some (ev_start_time event)
           /\ dict_get "end_time" d = Some (PyStr end_text)
           /\ parser_parse rt end_text = Some (ev_end_time event)
           /\ aware (ev_end_time event) = aware (ev_start_time event)
           /\ instant (ev_start_time event) < instant (ev_end_time event)
           /\ dict_get_default "status" d (PyStr "scheduled") = PyStr status_text
           /\ EventStatus_of_string status_text = Ok (status event)
           /\ dict_get_default "title" d (PyStr "") = PyStr (title event)
           /\ dict_get_default "attendees" d (PyList []) = PyList (ev_attendees event)
           /\ holds_optional_str (dict_get_default "event_id" d PyNone) (event_id event)
           /\ holds_optional_str (dict_get_default "description" d PyNone)
                (ev_description event)
           /\ holds_optional_str (dict_get_default "location" d PyNone)
                (ev_location event)
           /\ calendar_provider event = GOOGLE)
  /\ (dict_get "start_time" d = None ->
      _dict_to_event rt d = Raise (KeyError "start_time"))
  /\ (dict_get "title" d = Some PyNone ->
      forall event, _dict_to_event rt d <> Ok event)
  /\ (forall event,
        _dict_to_event rt d = Ok event ->
        (dict_get "status" d = None -> status event = SCHEDULED)
        /\ (dict_get "title" d = None -> title event = ""%string)
        /\ (dict_get "attendees" d = None -> ev_attendees event = [])).
Proof.
  assert (Hiff : forall event,
     _dict_to_event rt d = Ok event
     <-> exists start_text end_text status_text,
           dict_get "start_time" d = Some (PyStr start_text)
           /\ parser_parse rt start_text = Some (ev_start_time event)
           /\ dict_get "end_time" d = Some (PyStr end_text)
           /\ parser_parse rt end_text = Some (ev_end_time event)
           /\ aware (ev_end_time event) = aware (ev_start_time event)
           /\ instant (ev_start_time event) < instant (ev_end_time event)
           /\ dict_get_default "status" d (PyStr "scheduled") = PyStr status_text
           /\ EventStatus_of_string status_text = Ok (status event)
           /\ dict_get_default "title" d (PyStr "") = PyStr (title event)
           /\ dict_get_default "attendees" d (PyList []) = PyList (ev_attendees event)
           /\ holds_optional_str (dict_get_default "event_id" d PyNone) (event_id event)
           /\ holds_optional_str (dict_get_default "description" d PyNone)
                (ev_description event)
           /\ holds_optional_str (dict_get_default "location" d PyNone)
                (ev_location event)
           /\ calendar_provider event = GOOGLE).
  { intros event. unfold _dict_to_event, getitem. split.
    - destruct (dict_get "start_time" d) as [[|start_text|items]|];
        cbn [bind parse]; try discriminate.
      destruct (parser_parse rt start_text) as [s|] eqn:Hs; cbn [bind];
        [|discriminate].
      destruct (dict_get "end_time" d) as [[|end_text|items]|];
        cbn [bind parse]; try discriminate.
      destruct (parser_parse rt end_text) as [e|] eqn:He; cbn [bind];
        [|discriminate].
      destruct (dict_get_default "status" d (PyStr "scheduled"))
        as [|status_text|items]; cbn [bind EventStatus_of_value]; try discriminate.
      destruct (EventStatus_of_string status_text) as [st| |] eqn:Hst; cbn [bind];
        try discriminate.
      unfold new_Event, end_after_start.
      destruct (dict_get_default "event_id" d PyNone) as [|id|items];
        cbn [bind as_optional_str]; try discriminate;
        (destruct (dict_get_default "title" d (PyStr "")) as [|t|items];
         cbn [bind as_str]; try discriminate);
        (destruct (dict_get_default "description" d PyNone) as [|de|items];
         cbn [bind as_optional_str]; try discriminate);
        (destruct (comparable e s) eqn:Hkind; cbn [negb bind]; try discriminate);
        (destruct (dt_leb e s) eqn:Hle; cbn [bind]; try discriminate);
        (destruct (dict_get_default "location" d PyNone) as [|lo|items];
         cbn [bind as_optional_str]; try discriminate);
        (destruct (dict_get_default "attendees" d (PyList [])) as [|a|items];
         cbn [bind as_list_of_str]; try discriminate);
        intros Heq; injection Heq as <-; to_prop; apply comparable_iff in Hkind;
        exists start_text, end_text, status_text; simpl;
        repeat split; try reflexivity; assumption.
    - intros (start_text & end_text & status_text & Hks & Hs & Hke & He & Hkind & Hlt
              & Hkst & Hst & Ht & Ha & Hid & Hde & Hlo & Hp).
      rewrite Hks. cbn [bind parse]. rewrite Hs. cbn [bind].
      rewrite Hke. cbn [bind parse]. rewrite He. cbn [bind].
      rewrite Hkst. cbn [bind EventStatus_of_value]. rewrite Hst. cbn [bind].
      unfold new_Event, end_after_start. rewrite Ht, Ha.
      replace (comparable (ev_end_time event) (ev_start_time event)) with true
        by (symmetry; apply comparable_iff; assumption).
      replace (dt_leb (ev_end_time event) (ev_start_time event)) with false
        by (symmetry; apply dt_leb_gt; assumption).
      destruct event as [id t de s e lo a p st]. simpl in *. subst p.
      destruct (dict_get_default "event_id" d PyNone); simpl in Hid;
        try contradiction; subst id;
        destruct (dict_get_default "description" d PyNone); simpl in Hde;
        try contradiction; subst de;
        destruct (dict_get_default "location" d PyNone); simpl in Hlo;
        try contradiction; subst lo; reflexivity. }
  split; [exact Hiff|]. split; [|split].
  - intros Hnone. unfold _dict_to_event, getitem. rewrite Hnone. reflexivity.
  - intros Hnone event Hok. apply Hiff in Hok.
    destruct Hok as (_ & _ & _ & _ & _ & _ & _ & _ & _ & _ & _ & Ht & _).
    unfold dict_get_default in Ht. rewrite Hnone in Ht. discriminate.
  - intros event Hok. apply Hiff in Hok.
    destruct Hok as (start_text & end_text & status_text & _ & _ & _ & _ & _ & _
                     & Hkst & Hst & Ht & Ha & _).
    unfold dict_get_default in *. repeat split; intros Hnone.
    + rewrite Hnone in Hkst. injection Hkst as <-. simpl in Hst.
      injection Hst as <-. reflexivity.
    + rewrite Hnone in Ht. injection Ht as <-. reflexivity.
    + rewrite Hnone in Ha. injection Ha as <-. reflexivity.
Qed.

(** X10.  The events of the user context come all or not at all.  For the
    scheduler [__init__] builds: if every dict converts, the aggregation
    ends with the converted events, in the order of the dicts; if a single
    dict does not convert, none of the context's events is there, and the
    events of the two calendars are returned alone. *)
Theorem context_events_all_or_nothing (google_service outlook_service : Service)
    (rt : Runtime) (start_date end_date : date) (ctx : UserContext) :
  let self := __init__ google_service outlook_service in
  (forall events,
     Forall2 (fun d event => _dict_to_event rt d = Ok event)
       (existing_events ctx) events ->
     _get_existing_events self rt start_date end_date (Some ctx)
     = Ok (provided google_service start_date end_date
           ++ provided outlook_service start_date end_date ++ events))
  /\ (forall d e,
        In d (existing_events ctx) -> _dict_to_event rt d = Raise e ->
        _get_existing_events self rt start_date end_date (Some ctx)
        = Ok (provided google_service start_date end_date
              ++ provided outlook_service start_date end_date)).
Proof.
  intros self.
  assert (Hall : _get_existing_events self rt start_date end_date (Some ctx)
                 = Ok (provided google_service start_date end_date
                       ++ provided outlook_service start_date end_date
                       ++ context_events rt (Some ctx))).
  { rewrite get_existing_events_until_failure. unfold self, provided. simpl.
    destruct (list_events google_service start_date end_date);
      destruct (list_events outlook_service start_date end_date);
      simpl; rewrite ?app_nil_r, ?app_assoc; reflexivity. }
  split.
  - intros events Hconv. rewrite Hall. unfold context_events.
    rewrite (proj2 (comprehension_Ok _ _ _) Hconv). reflexivity.
  - intros d e Hin Hd. rewrite Hall. unfold context_events.
    destruct (comprehension_raises (_dict_to_event rt) (existing_events ctx) d e
                (dict_to_event_returns rt) Hin Hd) as [e' ->].
    rewrite app_nil_r. reflexivity.
Qed.

(** ** Operations built on [find_available_slots] *)

Lemma find_available_slots_outcome (self : Scheduler) (rt : Runtime) (duration : Z)
    (preferred_time : option datetime) (user_context : option UserContext)
    (start_date end_date : option date) (exclude_weekends : bool) :
  (exists slots,
     find_available_slots self rt duration preferred_time user_context
       start_date end_date exclude_weekends = Ok slots
     /\ (List.length slots <= max_suggestions self)%nat)
  \/ find_available_slots self rt duration preferred_time user_context
       start_date end_date exclude_weekends = Diverge.
Proof.
  destruct (find_available_slots_unfold self rt duration preferred_time user_context
              start_date end_date exclude_weekends) as [events [_ ->]].
  destruct (pytz_timezone rt (timezone_of user_context)) as [tz|].
  - destruct (_generate_potential_slots _ _ duration _ tz exclude_weekends)
      as [potential| |].
    + cbv zeta.
      destruct (_filter_conflicting_slots_compares potential events _
                && _score_time_slots_compares _ preferred_time).
      * left. eexists. split; [reflexivity|apply firstn_le_length].
      * left. exists []. split; [reflexivity|apply Nat.le_0_l].
    + left. exists []. split; [reflexivity|apply Nat.le_0_l].
    + right. reflexivity.
  - left. exists []. split; [reflexivity|apply Nat.le_0_l].
Qed.

Lemma try_except_find_available_slots (self : Scheduler) (rt : Runtime) (duration : Z)
    (preferred_time : option datetime) (user_context : option UserContext)
    (start_date end_date : option date) (exclude_weekends : bool)
    (handler : exn -> outcome (list TimeSlot)) :
  try_except
    (available_slots <-
       find_available_slots self rt duration preferred_time user_context
         start_date end_date exclude_weekends ;;
     Ok available_slots)
    handler
  = find_available_slots self rt duration preferred_time user_context
      start_date end_date exclude_weekends.
Proof.
  destruct (find_available_slots_outcome self rt duration preferred_time
              user_context start_date end_date exclude_weekends)
    as [[slots [-> _]] | ->]; reflexivity.
Qed.

(** X13.  [suggest_reschedule_options] never raises and returns at most
    [max_suggestions] slots.  A new duration of 0 counts as none given.
    For the provider "google" as for "outlook", with the API object of
    that provider: when the object finds no event, or its lookup raises,
    the result is the empty list; with an event and a new duration that
    is not 0, the result is that of [find_available_slots] for this
    duration, anchored on the start of the event, over today and the 30
    days after it, without user context; with an event and no new
    duration, the duration is the whole number of minutes between the
    start and the end of the event, and the result is the empty list if
    the event has one naive and one aware end. *)
Theorem suggest_reschedule_options_spec (self : Scheduler) (rt : Runtime)
    (event_id : string) (new_duration : option Z) (calendar_provider : string) :
  (forall e,
     suggest_reschedule_options self rt event_id new_duration calendar_provider
     <> Raise e)
  /\ (forall slots,
        suggest_reschedule_options self rt event_id new_duration calendar_provider
        = Ok slots ->
        (List.length slots <= max_suggestions self)%nat)
  /\ suggest_reschedule_options self rt event_id (Some 0) calendar_provider
     = suggest_reschedule_options self rt event_id None calendar_provider
  /\ (forall api,
        calendar_provider = "google"%string /\ api = google_calendar self
        \/ calendar_provider = "outlook"%string /\ api = outlook_calendar self ->
        (get_event api event_id = Returned None
         \/ (exists e, get_event api event_id = Failed e) ->
         suggest_reschedule_options self rt event_id new_duration calendar_provider
         = Ok [])
        /\ (forall n event,
              n <> 0 ->
              get_event api event_id = Returned (Some event) ->
              suggest_reschedule_options self rt event_id (Some n) calendar_provider
              = find_available_slots self rt n (Some (ev_start_time event)) None
                  (Some (today rt)) (Some (today rt + 30)) true)
        /\ (forall event,
              get_event api event_id = Returned (Some event) ->
              suggest_reschedule_options self rt event_id None calendar_provider
              = if comparable (ev_end_time event) (ev_start_time event)
                then find_available_slots self rt
                       (int_of_float
                          (total_seconds (dt_sub (ev_end_time event)
                                                 (ev_start_time event))
                           / float_of_Z 60)%float)
                       (Some (ev_start_time event)) None
                       (Some (today rt)) (Some (today rt + 30)) true
                else Ok [])).
Proof.
  assert (Hfind : forall d p,
            try_except
              (find_available_slots self rt d p None (Some (today rt))
                 (Some (today rt + 30)) true)
              (fun _ => Ok [])
            = find_available_slots self rt d p None (Some (today rt))
                (Some (today rt + 30)) true).
  { intros d p.
    destruct (find_available_slots_outcome self rt d p None (Some (today rt))
                (Some (today rt + 30)) true) as [[slots [-> _]] | ->]; reflexivity. }
  assert (Hshape : forall nd,
            (exists slots,
               suggest_reschedule_options self rt event_id nd calendar_provider
               = Ok slots
               /\ (List.length slots <= max_suggestions self)%nat)
            \/ suggest_reschedule_options self rt event_id nd calendar_provider
               = Diverge).
  { intros nd. unfold suggest_reschedule_options.
    destruct (if String.eqb calendar_provider "google"
              then await (get_event (google_calendar self) event_id)
              else if String.eqb calendar_provider "outlook"
                   then await (get_event (outlook_calendar self) event_id)
                   else Raise (unsupported calendar_provider)) as [[event|]| |];
      simpl; try (left; exists []; split; [reflexivity|apply Nat.le_0_l]);
      try (right; reflexivity).
    destruct (match nd with
              | Some n => if n =? 0 then None else Some n
              | None => None
              end) as [n|]; cbn [bind].
    - rewrite Hfind.
      destruct (find_available_slots_outcome self rt n (Some (ev_start_time event))
                  None (Some (today rt)) (Some (today rt + 30)) true)
        as [[slots [-> Hlen]] | ->]; [left; eauto|right; reflexivity].
    - unfold comparing.
      destruct (comparable (ev_end_time event) (ev_start_time event)); cbn [bind].
      + rewrite Hfind.
        match goal with
        | |- context [find_available_slots ?s ?r ?d ?p ?u ?a ?b ?x] =>
            destruct (find_available_slots_outcome s r d p u a b x)
              as [[slots [-> Hlen]] | ->]
        end; [left; eauto|right; reflexivity].
      + left. exists []. split; [reflexivity|apply Nat.le_0_l]. }
  split; [|split; [|split]].
  - intros e. destruct (Hshape new_duration) as [[slots [-> _]] | ->]; discriminate.
  - intros slots Hok. destruct (Hshape new_duration) as [[slots' [H Hlen]] | H];
      rewrite H in Hok; [injection Hok as <-; exact Hlen|discriminate].
  - reflexivity.
  - intros api Hapi.
    assert (Hdispatch :
              (if String.eqb calendar_provider "google"
               then await (get_event (google_calendar self) event_id)
               else if String.eqb calendar_provider "outlook"
                    then await (get_event (outlook_calendar self) event_id)
                    else Raise (unsupported calendar_provider))
              = await (get_event api event_id))
      by (destruct Hapi as [[-> ->] | [-> ->]]; reflexivity).
    unfold suggest_reschedule_options. rewrite Hdispatch.
    split; [|split].
    + intros [-> | [e ->]]; reflexivity.
    + intros n event Hn ->. cbn [await bind attributes].
      replace (n =? 0) with false by (symmetry; apply Z.eqb_neq; exact Hn).
      cbn [bind]. apply Hfind.
    + intros event ->. cbn [await bind attributes]. unfold comparing.
      destruct (comparable (ev_end_time event) (ev_start_time event)); cbn [bind];
        [apply Hfind|reflexivity].
Qed.

(** X14.  [find_meeting_time] is [find_available_slots] for the
    organizer: it returns what that returns with the first preferred time
    (none for an absent or empty list), the default date range and
    weekends excluded; neither the attendees nor the later preferred times
    change the answer. *)
Theorem find_meeting_time_is_organizer_only (self : Scheduler) (rt : Runtime)
    (attendees : list string) (duration : Z) (preferred_times : option (list datetime))
    (user_context : option UserContext) :
  find_meeting_time self rt attendees duration preferred_times user_context
  = find_available_slots self rt duration
      (match preferred_times with
       | Some times => hd_error times
       | None => None
       end)
      user_context None None true
  /\ (forall attendees' first rest rest',
        find_meeting_time self rt attendees duration (Some (first :: rest))
          user_context
        = find_meeting_time self rt attendees' duration (Some (first :: rest'))
            user_context)
  /\ find_meeting_time self rt attendees duration (Some []) user_context
     = find_meeting_time self rt attendees duration None user_context.
Proof.
  split; [|split].
  - unfold find_meeting_time. rewrite try_except_find_available_slots.
    destruct preferred_times as [[|first rest]|]; reflexivity.
  - reflexivity.
  - reflexivity.
Qed.

(** ** [get_optimal_meeting_duration] *)

(** X15.  The suggested duration depends on the meeting type through
    its lower-case form only; it never decreases when the number of
    attendees grows, and the attendees add 0, 10 or 15 minutes; for a
    type whose lower-case form is a key of the table the base is the
    table's value and the user's preferences play no part, and for any
    other type the base is the preferred duration (60 without
    preferences). *)
Theorem optimal_meeting_duration_spec (rt : Runtime) (meeting_type : string)
    (attendee_count : Z) (user_preferences : option UserPreferences) :
  (forall other_type,
     str_lower rt other_type = str_lower rt meeting_type ->
     get_optimal_meeting_duration rt other_type attendee_count user_preferences
     = get_optimal_meeting_duration rt meeting_type attendee_count user_preferences)
  /\ (forall more,
        attendee_count <= more ->
        get_optimal_meeting_duration rt meeting_type attendee_count user_preferences
        <= get_optimal_meeting_duration rt meeting_type more user_preferences)
  /\ (let added :=
        get_optimal_meeting_duration rt meeting_type attendee_count user_preferences
        - get_optimal_meeting_duration rt meeting_type 0 user_preferences in
      (attendee_count <= 5 -> added = 0)
      /\ (5 < attendee_count <= 10 -> added = 10)
      /\ (10 < attendee_count -> added = 15))
  /\ (forall key minutes other_preferences,
        In (key, minutes) type_adjustments ->
        str_lower rt meeting_type = key ->
        get_optimal_meeting_duration rt meeting_type 0 other_preferences = minutes)
  /\ ((forall key minutes,
         In (key, minutes) type_adjustments -> str_lower rt meeting_type <> key) ->
      get_optimal_meeting_duration rt meeting_type 0 user_preferences
      = match user_preferences with
        | Some p => preferred_meeting_duration p
        | None => 60
        end).
Proof.
  unfold get_optimal_meeting_duration.
  set (base := match dict_get (str_lower rt meeting_type) type_adjustments with
               | Some adjusted => adjusted
               | None => match user_preferences with
                         | Some p => preferred_meeting_duration p
                         | None => 60
                         end
               end).
  split; [intros other_type ->; reflexivity|]. split; [|split; [|split]].
  - intros more Hle.
    destruct (attendee_count >? 10) eqn:H1, (attendee_count >? 5) eqn:H2,
             (more >? 10) eqn:H3, (more >? 5) eqn:H4;
      rewrite ?Z.gtb_ltb in *; to_prop; lia.
  - change (0 >? 10) with false. change (0 >? 5) with false. cbv iota zeta.
    destruct (attendee_count >? 10) eqn:H1, (attendee_count >? 5) eqn:H2;
      rewrite ?Z.gtb_ltb in *; to_prop; repeat split; intros; lia.
  - intros key minutes other_preferences Hin ->.
    simpl in Hin.
    repeat (destruct Hin as [Hin|Hin]; [injection Hin as <- <-; reflexivity|]).
    destruct Hin.
  - intros Hnone. unfold base.
    destruct (dict_get (str_lower rt meeting_type) type_adjustments) as [minutes|]
      eqn:Hget; [|reflexivity].
    exfalso. apply (Hnone (str_lower rt meeting_type) minutes); [|reflexivity].
    clear - Hget. unfold type_adjustments in *. simpl in Hget.
    repeat match type of Hget with
           | (if String.eqb ?a ?b then _ else _) = _ =>
               destruct (String.eqb_spec a b) as [->|_];
               [injection Hget as <-; simpl; tauto|]
           end.
    discriminate.
Qed.

(** ** The enumerations of [shared/models.py] *)

(** X16.  [EventStatus(value)] undoes [.value]: each member is recovered
    from its string, a string is accepted only if it is the value of the
    member returned, and any other string raises [ValueError]. *)
Theorem EventStatus_round_trip (text : string) (st : EventStatus) :
  EventStatus_of_string (EventStatus_value st) = Ok st
  /\ (EventStatus_of_string text = Ok st <-> text = EventStatus_value st)
  /\ ((forall member, text <> EventStatus_value member) ->
      EventStatus_of_string text = Raise (ValueError "not a valid EventStatus")).
Proof.
  split; [destruct st; reflexivity|]. split.
  - split.
    + unfold EventStatus_of_string.
      destruct (String.eqb_spec text "scheduled") as [->|_];
        [intros H; injection H as <-; reflexivity|].
      destruct (String.eqb_spec text "cancelled") as [->|_];
        [intros H; injection H as <-; reflexivity|].
      destruct (String.eqb_spec text "completed") as [->|_];
        [intros H; injection H as <-; reflexivity|].
      destruct (String.eqb_spec text "rescheduled") as [->|_];
        [intros H; injection H as <-; reflexivity|discriminate].
    + intros ->. destruct st; reflexivity.
  - intros Hnone. unfold EventStatus_of_string.
    destruct (String.eqb_spec text "scheduled") as [->|_];
      [exfalso; exact (Hnone SCHEDULED eq_refl)|].
    destruct (String.eqb_spec text "cancelled") as [->|_];
      [exfalso; exact (Hnone CANCELLED eq_refl)|].
    destruct (String.eqb_spec text "completed") as [->|_];
      [exfalso; exact (Hnone COMPLETED eq_refl)|].
    destruct (String.eqb_spec text "rescheduled") as [->|_];
      [exfalso; exact (Hnone RESCHEDULED eq_refl)|reflexivity].
Qed.

(** ** The endpoints *)

(** X17.  [POST /calendar/schedule] fails with status 500 only: the 409 it
    raises when no slot is found is caught by its own handler, as is the
    [ValueError] for the providers "apple" and "ical", which therefore
    never get a response.  A response means that a slot was found and the
    event was created over the first slot of the ranking, which lasts the
    requested duration; the response carries the event's id and times and
    the status scheduled. *)
Theorem schedule_event_outcomes (scheduler : Scheduler) (rt : Runtime)
    (request : EventRequest) :
  (forall status_code detail,
     schedule_event scheduler rt request = HTTPException status_code detail ->
     status_code = 500 /\ detail = "Event scheduling failed"%string)
  /\ (find_available_slots scheduler rt (req_duration request)
        (req_preferred_time request) (req_user_context request) None None true
      = Ok [] ->
      schedule_event scheduler rt request
      = HTTPException 500 "Event scheduling failed")
  /\ (req_calendar_provider request = APPLE \/ req_calendar_provider request = ICAL ->
      forall response, schedule_event scheduler rt request <> Responds response)
  /\ (forall response,
        schedule_event scheduler rt request = Responds response ->
        exists first rest event,
          find_available_slots scheduler rt (req_duration request)
            (req_preferred_time request) (req_user_context request) None None true
          = Ok (first :: rest)
          /\ create_event scheduler (req_title request) (start_time first)
               (end_time first) (req_description request) (req_location request) []
               (CalendarProvider_value (req_calendar_provider request)) = Ok event
          /\ dt_sub (end_time first) (start_time first)
             = timedelta_minutes (req_duration request)
          /\ event_id event = Some (resp_event_id response)
          /\ resp_start_time response = ev_start_time event
          /\ resp_end_time response = ev_end_time event
          /\ resp_status response = SCHEDULED
          /\ resp_calendar_provider response = req_calendar_provider request).
Proof.
  unfold schedule_event.
  set (found := find_available_slots scheduler rt (req_duration request)
                  (req_preferred_time request) (req_user_context request)
                  None None true).
  split; [|split; [|split]].
  - intros status_code detail.
    destruct (then_ (run found) _); simpl; intros H; try discriminate;
      injection H as <- <-; split; reflexivity.
  - intros ->. reflexivity.
  - intros Hprov response.
    destruct found as [[|first rest]| |]; simpl; try discriminate.
    unfold create_event.
    destruct Hprov as [-> | ->]; simpl; discriminate.
  - intros response.
    destruct found as [[|first rest]| |] eqn:Hfound; simpl; try discriminate.
    destruct (create_event scheduler (req_title request) (start_time first)
                (end_time first) (req_description request) (req_location request)
                [] (CalendarProvider_value (req_calendar_provider request)))
      as [event| |] eqn:Hcreate; simpl; try discriminate.
    unfold new_EventResponse.
    destruct (event_id event) as [id|] eqn:Hid; simpl; [|discriminate].
    intros H. injection H as <-. simpl.
    exists first, rest, event. repeat split; try assumption; try reflexivity.
    pose proof (find_available_slots_returned scheduler rt (req_duration request)
                  (req_preferred_time request) (req_user_context request)
                  None None true (first :: rest) first Hfound
                  (or_introl eq_refl))
      as (tz & events & candidate & _ & _ & (d & _ & _ & Hg) & _ & Hs & He).
    destruct Hg as (Hend & _).
    unfold dt_sub. rewrite Hs, He, Hend, instant_dt_add. lia.
Qed.

(** X18.  [GET /calendar/events] over a [GoogleCalendarAPI] object: for
    the provider "google" it always responds, with the events the service
    lists or with none if the service cannot be reached; for any other
    provider the 400 it raises is caught by its own handler and the
    client gets status 500. *)
Theorem get_events_endpoint_outcomes (service : Service) (start_date end_date : date)
    (calendar_provider : string) :
  get_events_endpoint (GoogleCalendarAPI service) start_date end_date "google"
  = Responds (provided service start_date end_date)
  /\ (calendar_provider <> "google"%string ->
      get_events_endpoint (GoogleCalendarAPI service) start_date end_date
        calendar_provider
      = HTTPException 500 "Failed to fetch events").
Proof.
  unfold get_events_endpoint, provided. split.
  - simpl. destruct (list_events service start_date end_date); reflexivity.
  - intros Hp. destruct (String.eqb_spec calendar_provider "google");
      [contradiction|reflexivity].
Qed.

(** ** Scores without a preferred time *)

(** X19.  Without a preferred time no score is clamped: the confidence
    assigned to a slot is the plain sum of the terms that apply to it, and
    lies between 0.19 and 0.9 whatever the slot and the preferences. *)
Theorem score_without_preferred_time (slot : TimeSlot) (preferences : UserPreferences)
    (timezone : tzinfo) :
  assigned_confidence slot None preferences timezone
  = score_sum slot None preferences
  /\ PrimFloat.leb 0.19 (score_sum slot None preferences) = true
  /\ PrimFloat.leb (score_sum slot None preferences) 0.9 = true.
Proof.
  unfold assigned_confidence. rewrite calculate_slot_score_sum.
  unfold score_sum, proximity, bonus, penalty.
  destruct ((work_start_time preferences <=? dt_time (start_time slot))
            && (dt_time (start_time slot) <=? work_end_time preferences));
    destruct (hour (start_time slot) <? 12);
    destruct ((hour (start_time slot) <? 8) || (17 <? hour (start_time slot)));
    destruct ((11 <=? hour (start_time slot)) && (hour (start_time slot) <=? 13));
    destruct (Monday_to_Friday (start_time slot));
    vm_compute; repeat split; reflexivity.
Qed.

(** ** The candidates in chronological order *)

Lemma StronglySorted_app {A} (R : A -> A -> Prop) (l1 l2 : list A) :
  StronglySorted R l1 -> StronglySorted R l2 ->
  (forall a b, In a l1 -> In b l2 -> R a b) ->
  StronglySorted R (l1 ++ l2).
Proof.
  intros H1 H2 Hcross. induction H1 as [|a l1 H1 IH Ha]; simpl; [assumption|].
  constructor.
  - apply IH. intros x y Hx Hy. apply Hcross; [right|]; assumption.
  - apply Forall_app. split; [assumption|].
    apply Forall_forall. intros b Hb. apply Hcross; [left; reflexivity|assumption].
Qed.

Lemma StronglySorted_map_seq {A} (R : A -> A -> Prop) (f : nat -> A) (n : nat) :
  (forall i j, (i < j)%nat -> R (f i) (f j)) ->
  forall s, StronglySorted R (map f (seq s n)).
Proof.
  intros Hmono. induction n as [|n IH]; intros s; simpl; constructor.
  - apply IH.
  - apply Forall_forall. intros b Hb. apply in_map_iff in Hb.
    destruct Hb as [j [<- Hj]]. apply in_seq in Hj. apply Hmono. lia.
Qed.

Lemma generate_day_slots_chronological (target_date : date) (duration : Z)
    (preferences : UserPreferences) (timezone : tzinfo) (slots : list TimeSlot) :
  0 <= buffer_time preferences ->
  _generate_day_slots target_date duration preferences timezone = Ok slots ->
  StronglySorted precedes slots.
Proof.
  intros Hbuf Hrun.
  destruct (Z_le_gt_dec duration 0) as [Hd|Hd].
  { destruct (generate_day_slots_nonpositive target_date duration preferences
                timezone Hd) as [H | [e H]]; rewrite H in Hrun; [|discriminate].
    injection Hrun as <-. constructor. }
  rewrite generate_day_slots_map_seq in Hrun by lia. injection Hrun as <-.
  apply StronglySorted_map_seq. intros i j Hij.
  unfold precedes, nth_day_slot. simpl. rewrite !instant_dt_add.
  assert (0 < timedelta_minutes duration)
    by (apply (proj1 (timedelta_minutes_pos _)); lia).
  assert (0 <= timedelta_minutes (buffer_time preferences))
    by (unfold timedelta_minutes, us_per_minute, us_per_second; lia).
  assert (Z.of_nat i + 1 <= Z.of_nat j) by lia.
  nia.
Qed.

(** X20.  With a buffer that is not negative, in a timezone with a fixed
    offset, the candidates come in chronological order and never overlap
    one another: each slot of the generated list has ended when any later
    slot of the list starts, within a day and from one day to the next. *)
Theorem potential_slots_chronological (start_date end_date : date) (duration : Z)
    (preferences : UserPreferences) (tz : tzinfo) (exclude_weekends : bool)
    (slots : list TimeSlot) :
  0 <= buffer_time preferences ->
  valid_time (work_start_time preferences) ->
  valid_time (work_end_time preferences) ->
  fixed_offset tz ->
  _generate_potential_slots start_date end_date duration preferences tz
    exclude_weekends = Ok slots ->
  StronglySorted precedes slots.
Proof.
  intros Hbuf Hws Hwe Hfixed. unfold _generate_potential_slots.
  generalize (Z.to_nat (end_date - start_date + 1)) as days.
  intros days. revert start_date slots.
  induction days as [|days IH]; intros cur slots Hrun.
  - injection Hrun as <-. constructor.
  - cbn [dates_loop] in Hrun.
    destruct (exclude_weekends && (date_weekday cur >=? 5)); [exact (IH _ _ Hrun)|].
    destruct (_generate_day_slots cur duration preferences tz) as [day| |] eqn:Hday;
      simpl in Hrun; try discriminate.
    destruct (dates_loop days (cur + 1) duration preferences tz exclude_weekends)
      as [rest| |] eqn:Hrest; simpl in Hrun; try discriminate.
    injection Hrun as <-. apply StronglySorted_app.
    + exact (generate_day_slots_chronological _ _ _ _ _ Hbuf Hday).
    + exact (IH _ _ Hrest).
    + intros a b Ha Hb.
      pose proof (proj1 (Forall_forall _ _) (generate_day_slots_slots _ _ _ _ _ Hday)
                    a Ha) as (_ & _ & _ & _ & _ & Hfit).
      pose proof (proj1 (Forall_forall _ _) (dates_loop_slots _ _ _ _ _ _ _ Hrest)
                    b Hb) as (d & Hd & _ & (_ & _ & _ & Hoff & Hwall & _)).
      unfold precedes.
      assert (Hb_start : instant (work_start_dt d preferences tz)
                         <= instant (start_time b))
        by (unfold instant; rewrite Hoff; lia).
      unfold work_start_dt, work_end_dt, instant in *.
      rewrite ?utcoff_localize in *. cbn [wall localize] in *. unfold combine in *.
      rewrite (Hfixed (d * us_per_day + work_start_time preferences)
                      (cur * us_per_day + work_end_time preferences)) in Hb_start.
      unfold valid_time in *.
      assert (us_per_day = 86400000000) by reflexivity.
      nia.
Qed.

(** ** The further theorems at work on Monday 2024-01-15 *)

(** 09:00 to 17:00 holds six slots of an hour with a quarter between. *)
Lemma generate_day_slots_closed_form_witness :
  exists slots,
    _generate_day_slots monday 60 default_UserPreferences UTC = Ok slots
    /\ List.length slots = 6%nat.
Proof.
  destruct (generate_day_slots_closed_form monday 60 default_UserPreferences UTC)
    as (slots & Hrun & Hlen & _).
  - lia.
  - vm_compute. reflexivity.
  - exists slots. split; [exact Hrun|]. rewrite Hlen. vm_compute. reflexivity.
Defined.

Lemma generate_day_slots_spacing_witness :
  exists slots,
    _generate_day_slots monday 60 default_UserPreferences UTC = Ok slots
    /\ slots <> []
    /\ forall i a b,
         nth_error slots i = Some a -> nth_error slots (Datatypes.S i) = Some b ->
         start_time b
         = dt_add (end_time a) (timedelta_minutes (buffer_time default_UserPreferences)).
Proof.
  eexists. split; [vm_compute; reflexivity|]. split; [discriminate|].
  eapply proj1.
  apply (generate_day_slots_spacing monday 60 default_UserPreferences UTC).
  vm_compute. reflexivity.
Defined.

(** That Monday, with the meeting from 10:00 to 11:00 and a buffer of 15
    minutes: no returned slot overlaps the meeting, and one that starts
    after it starts at 11:15 or later. *)
Lemma returned_slots_are_free_witness :
  exists slots,
    find_available_slots (__init__ busy_service empty_service) utc_runtime 60
      None None (Some monday) (Some monday) true = Ok slots
    /\ slots <> []
    /\ forall slot,
         In slot slots ->
         (instant (ev_end_time meeting_10_to_11) <= instant (start_time slot)
          \/ instant (end_time slot) <= instant (ev_start_time meeting_10_to_11))
         /\ (instant (ev_end_time meeting_10_to_11) < instant (start_time slot) ->
             instant (at_time monday 11 15) <= instant (start_time slot)).
Proof.
  eexists. split; [vm_compute; reflexivity|]. split; [discriminate|].
  intros slot Hin.
  destruct (returned_slots_are_free (__init__ busy_service empty_service)
              utc_runtime 60 None None (Some monday) (Some monday) true _
              ltac:(vm_compute; reflexivity))
    as (events & Hev & Hfree).
  vm_compute in Hev. injection Hev as <-.
  destruct (Hfree slot meeting_10_to_11 Hin (or_introl eq_refl)
              ltac:(discriminate)) as (_ & Hapart & Hbefore & _).
  split; [exact Hapart|].
  intros Hgap. specialize (Hbefore Hgap).
  assert (Hbuffer : timedelta_minutes (buffer_time (preferences_of None))
                    = 15 * us_per_minute) by reflexivity.
  assert (Hquarter : instant (at_time monday 11 15)
                     = instant (ev_end_time meeting_10_to_11) + 15 * us_per_minute)
    by reflexivity.
  rewrite Hbuffer in Hbefore. rewrite Hquarter. lia.
Defined.

Lemma confidence_stays_in_range_witness :
  exists returned,
    find_available_slots (__init__ busy_service empty_service) utc_runtime 60
      (Some (at_time monday 14 0)) None (Some monday) (Some monday) true
    = Ok returned
    /\ returned <> []
    /\ Forall (fun slot =>
                 PrimFloat.leb 0 (confidence slot) = true
                 /\ PrimFloat.leb (confidence slot) 1 = true) returned.
Proof.
  eexists. split; [vm_compute; reflexivity|]. split; [discriminate|].
  apply (proj2 (confidence_stays_in_range [] (Some (at_time monday 14 0))
                  default_UserPreferences UTC)
           (__init__ busy_service empty_service) utc_runtime 60 None
           (Some monday) (Some monday) true).
  vm_compute. reflexivity.
Defined.

(** Two days give eleven free candidates: the ten best are returned, and
    the one left out is not better than any of them. *)
Lemma truncation_keeps_the_best_witness :
  let potential_slots :=
    match _generate_potential_slots monday (monday + 1) 60 default_UserPreferences
            UTC true with
    | Ok slots => slots
    | _ => []
    end in
  let ranked :=
    _score_time_slots
      (_filter_conflicting_slots potential_slots [meeting_10_to_11]
         default_UserPreferences)
      None default_UserPreferences UTC in
  List.length ranked = 11%nat
  /\ find_available_slots (__init__ busy_service empty_service) utc_runtime 60
       None None (Some monday) (Some (monday + 1)) true
     = Ok (firstn 10 ranked)
  /\ forall returned left_out,
       In returned (firstn 10 ranked) -> In left_out (skipn 10 ranked) ->
       PrimFloat.leb (confidence left_out) (confidence returned) = true.
Proof.
  intros potential_slots ranked. split; [vm_compute; reflexivity|].
  destruct (truncation_keeps_the_best (__init__ busy_service empty_service)
              utc_runtime 60 None None (Some monday) (Some (monday + 1)) true
              UTC [meeting_10_to_11] potential_slots
              ltac:(reflexivity) ltac:(vm_compute; reflexivity)
              ltac:(vm_compute; reflexivity))
    as (_ & Hfront & Hbest).
  split; [|exact Hbest].
  apply Hfront.
  - intros E [<-|[]] _. split; reflexivity.
  - intros p Hp. discriminate.
Defined.



Lemma filter_refines_check_availability_witness :
  conflict_free (start_time (slot_at monday 11 15 60))
    (end_time (slot_at monday 11 15 60)) [meeting_10_to_11] = true.
Proof.
  apply (proj1 (filter_refines_check_availability (slot_at monday 11 15 60)
                  [meeting_10_to_11] default_UserPreferences)).
  vm_compute. reflexivity.
Defined.

(** The lunch of the user context converts, with the defaults for what
    the dict leaves out. *)
Lemma dict_to_event_spec_witness :
  _dict_to_event utc_runtime lunch_dict = Ok lunch.
Proof.
  apply (proj2 (proj1 (dict_to_event_spec utc_runtime lunch_dict) lunch)).
  exists "2024-01-15T13:00:00+00:00"%string, "2024-01-15T14:00:00+00:00"%string,
         "scheduled"%string.
  repeat split; reflexivity.
Defined.

(** One dict without a start time: the meeting of the calendar is all that
    the aggregation returns. *)
Lemma context_events_all_or_nothing_witness :
  let incomplete : event_dict :=
    [ ("title", PyStr "Review"); ("end_time", PyStr "2024-01-15T14:00:00+00:00") ]
      %string in
  _get_existing_events (__init__ busy_service empty_service) utc_runtime monday
    monday (Some (context_with [lunch_dict; incomplete]))
  = Ok [meeting_10_to_11].
Proof.
  intros incomplete.
  apply (proj2 (context_events_all_or_nothing busy_service empty_service
                  utc_runtime monday monday (context_with [lunch_dict; incomplete]))
           incomplete (KeyError "start_time")).
  - right. left. reflexivity.
  - reflexivity.
Defined.

(** Google knows no such event: nothing is suggested.  Outlook has it,
    from 10:00 to 11:00: ten half hours of the coming days are. *)
Lemma suggest_reschedule_options_spec_witness :
  suggest_reschedule_options (__init__ empty_service busy_service) utc_runtime
    "event_1" (Some 30) "google" = Ok []
  /\ exists slots,
       suggest_reschedule_options (__init__ empty_service busy_service) utc_runtime
         "event_1" (Some 30) "outlook" = Ok slots
       /\ List.length slots = 10%nat.
Proof.
  split.
  - apply (proj1 (proj2 (proj2 (proj2
             (suggest_reschedule_options_spec (__init__ empty_service busy_service)
                utc_runtime "event_1" (Some 30) "google")))
             (google_calendar (__init__ empty_service busy_service))
             (or_introl (conj eq_refl eq_refl)))).
    left. reflexivity.
  - rewrite (proj1 (proj2 (proj2 (proj2 (proj2
               (suggest_reschedule_options_spec (__init__ empty_service busy_service)
                  utc_runtime "event_1" (Some 30) "outlook")))
               (outlook_calendar (__init__ empty_service busy_service))
               (or_intror (conj eq_refl eq_refl))))
               30 meeting_10_to_11 ltac:(discriminate) eq_refl).
    eexists. split; [vm_compute; reflexivity|reflexivity].
Defined.

(** A workshop takes 120 minutes, however the word is capitalised. *)
Lemma optimal_meeting_duration_spec_witness :
  get_optimal_meeting_duration utc_runtime "WorkShop" 0 None = 120.
Proof.
  apply (proj1 (proj2 (proj2 (proj2
           (optimal_meeting_duration_spec utc_runtime "WorkShop" 0 None))))
           "workshop"%string 120 None).
  - do 5 right. left. reflexivity.
  - reflexivity.
Defined.

Lemma EventStatus_round_trip_witness :
  EventStatus_of_string "cancelled" = Ok CANCELLED.
Proof.
  apply (proj2 (proj1 (proj2 (EventStatus_round_trip "cancelled" CANCELLED)))).
  reflexivity.
Defined.

(** A user context in a timezone the database does not know: no slot is
    found, and the client is told 500. *)
Lemma schedule_event_outcomes_witness :
  let ctx :=
    {| user_id := "u1"; email := "u1@example.com";
       preferences := default_UserPreferences;
       current_timezone := "Mars/Olympus_Mons"; existing_events := [] |} in
  let request :=
    {| req_title := "Review"; req_description := None; req_start_time := None;
       req_duration := 60; req_preferred_time := None; req_location := None;
       req_attendees := []; req_calendar_provider := GOOGLE;
       req_user_context := Some ctx |} in
  schedule_event (__init__ busy_service empty_service) utc_runtime request
  = HTTPException 500 "Event scheduling failed".
Proof.
  intros ctx request.
  apply (proj1 (proj2 (schedule_event_outcomes
                         (__init__ busy_service empty_service) utc_runtime request))).
  vm_compute. reflexivity.
Defined.

Lemma get_events_endpoint_outcomes_witness :
  get_events_endpoint (GoogleCalendarAPI busy_service) monday monday "outlook"
  = HTTPException 500 "Failed to fetch events".
Proof.
  apply (proj2 (get_events_endpoint_outcomes busy_service monday monday "outlook")).
  discriminate.
Defined.

Lemma potential_slots_chronological_witness :
  exists slots,
    _generate_potential_slots monday (monday + 6) 60 default_UserPreferences UTC
      true = Ok slots
    /\ List.length slots = 30%nat
    /\ StronglySorted precedes slots.
Proof.
  eexists. split; [vm_compute; reflexivity|]. split; [reflexivity|].
  apply (potential_slots_chronological monday (monday + 6) 60
           default_UserPreferences UTC true).
  - vm_compute. discriminate.
  - vm_compute. split; [discriminate|reflexivity].
  - vm_compute. split; [discriminate|reflexivity].
  - intros w w'. reflexivity.
  - vm_compute. reflexivity.
Defined.

(** ** More edges of the pipeline *)

Lemma find_available_slots_same_events (self self' : Scheduler) (rt : Runtime)
    (duration : Z) (preferred_time : option datetime)
    (user_context : option UserContext) (start_date end_date : option date)
    (exclude_weekends : bool) :
  max_suggestions self = max_suggestions self' ->
  _get_existing_events self rt (resolved_start rt start_date)
    (resolved_end rt start_date end_date) user_context
  = _get_existing_events self' rt (resolved_start rt start_date)
      (resolved_end rt start_date end_date) user_context ->
  find_available_slots self rt duration preferred_time user_context
    start_date end_date exclude_weekends
  = find_available_slots self' rt duration preferred_time user_context
      start_date end_date exclude_weekends.
Proof.
  intros Hmax Hsame.
  destruct (find_available_slots_unfold self rt duration preferred_time user_context
              start_date end_date exclude_weekends) as [events [Hev ->]].
  destruct (find_available_slots_unfold self' rt duration preferred_time user_context
              start_date end_date exclude_weekends) as [events' [Hev' ->]].
  rewrite Hsame, Hev' in Hev. injection Hev as <-. rewrite Hmax. reflexivity.
Qed.

Lemma get_existing_events_provided (google_service outlook_service : Service)
    (rt : Runtime) (start_date end_date : date) (user_context : option UserContext) :
  _get_existing_events (__init__ google_service outlook_service) rt start_date
    end_date user_context
  = Ok (provided google_service start_date end_date
        ++ provided outlook_service start_date end_date
        ++ context_events rt user_context).
Proof.
  rewrite get_existing_events_until_failure. unfold provided. simpl.
  destruct (list_events google_service start_date end_date);
    destruct (list_events outlook_service start_date end_date);
    simpl; rewrite ?app_nil_r, ?app_assoc; reflexivity.
Qed.

(** X21.  To the scheduler [__init__] builds, a calendar that cannot be
    reached looks like an empty calendar: if Google's request fails,
    [find_available_slots] and [check_availability] answer as they would
    with a Google service that lists no events, so an interval that
    conflicts with an event of the unreachable calendar can be reported
    free. *)
Theorem outage_reads_as_empty_calendar (google_service outlook_service : Service)
    (rt : Runtime) (duration : Z) (preferred_time : option datetime)
    (user_context : option UserContext) (start_date end_date : option date)
    (exclude_weekends : bool) (start_time end_time : datetime) :
  let nothing_listed :=
    {| list_events := fun _ _ => Returned [];
       insert_event := insert_event google_service;
       patch_event := patch_event google_service;
       delete_event := delete_event google_service;
       fetch_event := fetch_event google_service |} in
  (forall d d', exists e, list_events google_service d d' = Failed e) ->
  find_available_slots (__init__ google_service outlook_service) rt duration
    preferred_time user_context start_date end_date exclude_weekends
  = find_available_slots (__init__ nothing_listed outlook_service) rt duration
      preferred_time user_context start_date end_date exclude_weekends
  /\ check_availability (__init__ google_service outlook_service) rt start_time
       end_time user_context
     = check_availability (__init__ nothing_listed outlook_service) rt start_time
         end_time user_context.
Proof.
  intros nothing_listed Hdown.
  assert (Hagg : forall d d',
            _get_existing_events (__init__ google_service outlook_service) rt d d'
              user_context
            = _get_existing_events (__init__ nothing_listed outlook_service) rt d d'
                user_context).
  { intros d d'. rewrite !get_existing_events_provided. unfold provided at 1 3.
    destruct (Hdown d d') as [e ->]. reflexivity. }
  split.
  - apply find_available_slots_same_events; [reflexivity|apply Hagg].
  - unfold check_availability. rewrite Hagg. reflexivity.
Qed.

Lemma dates_loop_weekend_only (duration : Z) (preferences : UserPreferences)
    (tz : tzinfo) :
  forall days first,
    (forall d, first <= d < first + Z.of_nat days -> 5 <= date_weekday d) ->
    dates_loop days first duration preferences tz true = Ok [].
Proof.
  induction days as [|days IH]; intros first Hall; [reflexivity|].
  cbn [dates_loop].
  replace (date_weekday first >=? 5) with true.
  - simpl. apply IH. intros d Hd. apply Hall. rewrite Nat2Z.inj_succ. lia.
  - symmetry. rewrite Z.geb_leb. apply Z.leb_le. apply Hall.
    rewrite Nat2Z.inj_succ. lia.
Qed.

Lemma dates_loop_exclusion_removes (duration : Z) (preferences : UserPreferences)
    (tz : tzinfo) :
  forall days first weekdays_only all_days,
    dates_loop days first duration preferences tz true = Ok weekdays_only ->
    dates_loop days first duration preferences tz false = Ok all_days ->
    incl weekdays_only all_days.
Proof.
  induction days as [|days IH]; intros first l1 l2 H1 H2.
  - injection H1 as <-. intros x [].
  - cbn [dates_loop] in H1, H2. simpl in H2.
    destruct (_generate_day_slots first duration preferences tz) as [day| |];
      simpl in H2; try discriminate.
    destruct (dates_loop days (first + 1) duration preferences tz false)
      as [rest2| |] eqn:Hrest2; simpl in H2; try discriminate.
    injection H2 as <-.
    destruct (true && (date_weekday first >=? 5)).
    + apply incl_appr. exact (IH _ _ _ H1 Hrest2).
    + simpl in H1.
      destruct (dates_loop days (first + 1) duration preferences tz true)
        as [rest1| |] eqn:Hrest1; simpl in H1; try discriminate.
      injection H1 as <-. apply incl_app_app; [apply incl_refl|].
      exact (IH _ _ _ Hrest1 Hrest2).
Qed.

(** X22.  With weekends excluded, a date range made of Saturdays and
    Sundays only yields no candidate, and [find_available_slots] returns
    the empty list for it; whatever the range, excluding weekends only
    removes candidates: each one is a candidate too when weekends are
    included. *)
Theorem weekend_exclusion (start_date end_date : date) (duration : Z)
    (preferences : UserPreferences) (tz : tzinfo) :
  ((forall d, start_date <= d <= end_date -> 5 <= date_weekday d) ->
   _generate_potential_slots start_date end_date duration preferences tz true
   = Ok []
   /\ forall self rt preferred_time user_context,
        find_available_slots self rt duration preferred_time user_context
          (Some start_date) (Some end_date) true = Ok [])
  /\ (forall weekdays_only all_days,
        _generate_potential_slots start_date end_date duration preferences tz true
        = Ok weekdays_only ->
        _generate_potential_slots start_date end_date duration preferences tz false
        = Ok all_days ->
        incl weekdays_only all_days).
Proof.
  split.
  - intros Hall.
    assert (Hgen : forall prefs zone,
              _generate_potential_slots start_date end_date duration prefs zone true
              = Ok []).
    { intros prefs zone. unfold _generate_potential_slots.
      apply dates_loop_weekend_only. intros d Hd. apply Hall.
      lia. }
    split; [apply Hgen|].
    intros self rt preferred_time user_context.
    destruct (find_available_slots_unfold self rt duration preferred_time
                user_context (Some start_date) (Some end_date) true)
      as [events [_ ->]].
    destruct (pytz_timezone rt (timezone_of user_context)) as [zone|];
      [|reflexivity].
    simpl. rewrite Hgen. simpl.
    destruct (_score_time_slots_compares [] preferred_time);
      rewrite ?firstn_nil; reflexivity.
  - intros l1 l2. unfold _generate_potential_slots.
    apply dates_loop_exclusion_removes.
Qed.

(** X23.  Every slot [find_available_slots] returns lies in the working
    hours of a date of the requested range (today and the 14 days after
    it by default): between the localized work start and work end of that
    date, which is a Monday to Friday when weekends are excluded. *)
Theorem returned_slots_in_working_hours (self : Scheduler) (rt : Runtime)
    (duration : Z) (preferred_time : option datetime)
    (user_context : option UserContext) (start_date end_date : option date)
    (exclude_weekends : bool) (slots : list TimeSlot) :
  find_available_slots self rt duration preferred_time user_context
    start_date end_date exclude_weekends = Ok slots ->
  Forall (fun slot =>
            exists tz d,
              pytz_timezone rt (timezone_of user_context) = Some tz
              /\ resolved_start rt start_date <= d <= resolved_end rt start_date end_date
              /\ (exclude_weekends = true -> date_weekday d < 5)
              /\ instant (work_start_dt d (preferences_of user_context) tz)
                 <= instant (start_time slot)
              /\ instant (start_time slot) < instant (end_time slot)
              /\ instant (end_time slot)
                 <= instant (work_end_dt d (preferences_of user_context) tz))
         slots.
Proof.
  intros Hrun. apply Forall_forall. intros slot Hin.
  destruct (find_available_slots_returned _ _ _ _ _ _ _ _ _ _ Hrun Hin)
    as (tz & events & candidate & Htz & _ & (d & Hd & Hw & Hg) & _ & Hs & He).
  exists tz, d. split; [assumption|].
  destruct Hg as (Hend & _ & Hpos & Hoff & Hwall & Hfit).
  rewrite Hs, He.
  split.
  { lia. }
  split; [assumption|].
  split; [unfold instant; rewrite Hoff; lia|].
  split; [rewrite Hend, instant_dt_add; lia|assumption].
Qed.

(** X24.  Back to back is no conflict: a slot that starts at the very
    instant an event ends, or ends at the very instant an event starts,
    is kept by the filter whatever the buffer, because both buffer tests
    ask for a gap that is strictly positive. *)
Theorem back_to_back_is_kept (slot : TimeSlot) (E : Event)
    (preferences : UserPreferences) :
  instant (start_time slot) < instant (end_time slot) ->
  instant (ev_start_time E) < instant (ev_end_time E) ->
  instant (start_time slot) = instant (ev_end_time E)
  \/ instant (end_time slot) = instant (ev_start_time E) ->
  _filter_conflicting_slots [slot] [E] preferences = [slot].
Proof.
  intros Hs He Htouch. rewrite filter_conflicting_is_filter.
  assert (Hav : is_available slot [E] preferences = true);
    [|cbn [filter]; rewrite Hav; reflexivity].
  apply is_available_iff. intros E' [<-|[]].
  unfold rejects, overlap, buffer_violation_before, buffer_violation_after.
  intros [_ [[H1 H2] | [[H1 H2] | [H1 H2]]]]; lia.
Qed.

(** X25.  A date range whose end is before its start is not an error:
    [find_available_slots] returns the empty list for it. *)
Theorem reversed_range_finds_nothing (self : Scheduler) (rt : Runtime) (duration : Z)
    (preferred_time : option datetime) (user_context : option UserContext)
    (start_date end_date : date) (exclude_weekends : bool) :
  end_date < start_date ->
  find_available_slots self rt duration preferred_time user_context
    (Some start_date) (Some end_date) exclude_weekends = Ok [].
Proof.
  intros Hrev.
  destruct (find_available_slots_unfold self rt duration preferred_time user_context
              (Some start_date) (Some end_date) exclude_weekends)
    as [events [_ ->]].
  destruct (pytz_timezone rt (timezone_of user_context)) as [tz|]; [|reflexivity].
  unfold _generate_potential_slots. simpl.
  replace (Z.to_nat (end_date - start_date + 1)) with 0%nat by lia.
  simpl. destruct (_score_time_slots_compares [] preferred_time);
    rewrite ?firstn_nil; reflexivity.
Qed.

Lemma outage_reads_as_empty_calendar_witness :
  check_availability (__init__ unreachable_service busy_service) utc_runtime
    (at_time monday 10 0) (at_time monday 11 0) None
  = check_availability
      (__init__ {| list_events := fun _ _ => Returned [];
                   insert_event := insert_event unreachable_service;
                   patch_event := patch_event unreachable_service;
                   delete_event := delete_event unreachable_service;
                   fetch_event := fetch_event unreachable_service |}
                busy_service)
      utc_runtime (at_time monday 10 0) (at_time monday 11 0) None.
Proof.
  apply (proj2 (outage_reads_as_empty_calendar unreachable_service busy_service
                  utc_runtime 60 None None None None true
                  (at_time monday 10 0) (at_time monday 11 0)
                  (fun _ _ => ex_intro _ (ApiError "connection refused") eq_refl))).
Defined.

Lemma weekend_exclusion_witness :
  _generate_potential_slots (monday + 5) (monday + 6) 60 default_UserPreferences
    UTC true = Ok []
  /\ find_available_slots (__init__ busy_service empty_service) utc_runtime 60
       None None (Some (monday + 5)) (Some (monday + 6)) true = Ok [].
Proof.
  assert (Hweekend : forall d, monday + 5 <= d <= monday + 6 -> 5 <= date_weekday d).
  { intros d Hd.
    assert (Hcases : d = monday + 5 \/ d = monday + 6) by lia.
    destruct Hcases as [-> | ->]; vm_compute; discriminate. }
  destruct (proj1 (weekend_exclusion (monday + 5) (monday + 6) 60
                     default_UserPreferences UTC) Hweekend) as [Hgen Hfind].
  split; [exact Hgen|apply Hfind].
Defined.

Lemma returned_slots_in_working_hours_witness :
  exists slots,
    find_available_slots (__init__ busy_service empty_service) utc_runtime 60
      None None (Some monday) (Some (monday + 6)) true = Ok slots
    /\ List.length slots = 10%nat
    /\ Forall (fun slot =>
                 exists tz d,
                   pytz_timezone utc_runtime (timezone_of None) = Some tz
                   /\ resolved_start utc_runtime (Some monday) <= d
                      <= resolved_end utc_runtime (Some monday) (Some (monday + 6))
                   /\ (true = true -> date_weekday d < 5)
                   /\ instant (work_start_dt d (preferences_of None) tz)
                      <= instant (start_time slot)
                   /\ instant (start_time slot) < instant (end_time slot)
                   /\ instant (end_time slot)
                      <= instant (work_end_dt d (preferences_of None) tz))
              slots.
Proof.
  eexists. split; [vm_compute; reflexivity|]. split; [reflexivity|].
  apply (returned_slots_in_working_hours (__init__ busy_service empty_service)
           utc_runtime 60 None None (Some monday) (Some (monday + 6)) true).
  vm_compute. reflexivity.
Defined.

Lemma back_to_back_is_kept_witness :
  _filter_conflicting_slots [slot_at monday 11 0 60] [meeting_10_to_11]
    default_UserPreferences = [slot_at monday 11 0 60].
Proof.
  apply (back_to_back_is_kept (slot_at monday 11 0 60) meeting_10_to_11
           default_UserPreferences).
  - vm_compute. reflexivity.
  - vm_compute. reflexivity.
  - left. vm_compute. reflexivity.
Defined.

Lemma reversed_range_finds_nothing_witness :
  find_available_slots (__init__ empty_service empty_service) utc_runtime 60 None
    None (Some (monday + 1)) (Some monday) true = Ok [].
Proof.
  apply (reversed_range_finds_nothing (__init__ empty_service empty_service)
           utc_runtime 60 None None (monday + 1) monday true).
  vm_compute. reflexivity.
Defined.

(** ** Naive datetimes among aware ones *)

Lemma find_available_slots_returns (self : Scheduler) (rt : Runtime) (duration : Z)
    (preferred_time : option datetime) (user_context : option UserContext)
    (start_date end_date : option date) (exclude_weekends : bool) :
  (0 < duration -> 0 < duration + buffer_time (preferences_of user_context)) ->
  exists slots,
    find_available_slots self rt duration preferred_time user_context
      start_date end_date exclude_weekends = Ok slots.
Proof.
  intros Hbuf.
  destruct (Z_le_gt_dec duration 0) as [Hd|Hd].
  { exists []. apply find_available_slots_nonpositive, Hd. }
  destruct (find_available_slots_outcome self rt duration preferred_time user_context
              start_date end_date exclude_weekends) as [[slots [Hok _]] | Hloop];
    [eauto|].
  exfalso.
  destruct (find_available_slots_unfold self rt duration preferred_time user_context
              start_date end_date exclude_weekends) as [events [_ Heq]].
  rewrite Heq in Hloop.
  destruct (pytz_timezone rt (timezone_of user_context)) as [tz|]; [|discriminate].
  unfold _generate_potential_slots in Hloop.
  destruct (dates_loop_terminates duration (preferences_of user_context) tz
              exclude_weekends ltac:(lia) ltac:(apply Hbuf; lia)
              (Z.to_nat (resolved_end rt start_date end_date
                         - resolved_start rt start_date + 1))
              (resolved_start rt start_date)) as [potential Hgen].
  rewrite Hgen in Hloop. cbv zeta in Hloop.
  destruct (_filter_conflicting_slots_compares potential events _
            && _score_time_slots_compares _ preferred_time); discriminate.
Qed.

(** X26.  One naive datetime empties the result.  The slots
    [find_available_slots] generates are timezone-aware; if the
    aggregation holds a busy interval that is not cancelled and whose
    start or end is naive, or if the preferred time is naive, then no slot
    is returned, whatever the calendars hold: the result is the empty
    list, for every input whose buffer lets the generation loop end. *)
Theorem naive_datetime_finds_nothing (self : Scheduler) (rt : Runtime) (duration : Z)
    (preferred_time : option datetime) (user_context : option UserContext)
    (start_date end_date : option date) (exclude_weekends : bool)
    (events : list Event) :
  _get_existing_events self rt (resolved_start rt start_date)
    (resolved_end rt start_date end_date) user_context = Ok events ->
  (exists E, In E events /\ status E <> CANCELLED
             /\ (aware (ev_start_time E) = false \/ aware (ev_end_time E) = false))
  \/ (exists p, preferred_time = Some p /\ aware p = false) ->
  (forall slots,
     find_available_slots self rt duration preferred_time user_context
       start_date end_date exclude_weekends = Ok slots -> slots = [])
  /\ ((0 < duration -> 0 < duration + buffer_time (preferences_of user_context)) ->
      find_available_slots self rt duration preferred_time user_context
        start_date end_date exclude_weekends = Ok []).
Proof.
  intros Hev Hnaive.
  assert (Hnone : forall slots,
            find_available_slots self rt duration preferred_time user_context
              start_date end_date exclude_weekends = Ok slots -> slots = []).
  { intros [|slot rest] Hrun; [reflexivity|]. exfalso.
    destruct (find_available_slots_compared _ _ _ _ _ _ _ _ _ _ Hrun
                (or_introl eq_refl))
      as (tz & events' & candidate & _ & Hev' & _ & Hav & Hs & He & Hcmp & Hp
          & Has & Hae).
    rewrite Hev in Hev'. injection Hev' as <-.
    destruct Hnaive as [(E & HE & Hc & Hkind) | (p & Hpref & Hkind)].
    - destruct (is_available_compares_kept _ _ _ Hav Hcmp E HE Hc) as [Hk1 Hk2].
      rewrite <- Hs in Hk1. rewrite <- He in Hk2.
      apply comparable_iff in Hk1, Hk2. destruct Hkind; congruence.
    - specialize (Hp p Hpref). apply comparable_iff in Hp. congruence. }
  split; [exact Hnone|].
  intros Hbuf.
  destruct (find_available_slots_returns self rt duration preferred_time user_context
              start_date end_date exclude_weekends Hbuf) as [slots Hrun].
  rewrite Hrun. f_equal. apply Hnone, Hrun.
Qed.

(** The lunch of the user context, written without an offset, leaves
    nothing of that Monday; written with it, it leaves the slots around
    it. *)
Lemma naive_datetime_finds_nothing_witness :
  find_available_slots (__init__ busy_service empty_service) utc_runtime 60 None
    (Some (context_with [naive_lunch_dict])) (Some monday) (Some monday) true
  = Ok []
  /\ exists slots,
       find_available_slots (__init__ busy_service empty_service) utc_runtime 60 None
         (Some (context_with [lunch_dict])) (Some monday) (Some monday) true
       = Ok slots
       /\ List.length slots = 4%nat.
Proof.
  split; [|eexists; split; [vm_compute; reflexivity|reflexivity]].
  refine (proj2 (naive_datetime_finds_nothing (__init__ busy_service empty_service)
                   utc_runtime 60 None (Some (context_with [naive_lunch_dict]))
                   (Some monday) (Some monday) true
                   [meeting_10_to_11; naive_lunch] _ _) _).
  - vm_compute. reflexivity.
  - left. exists naive_lunch. split; [right; left; reflexivity|].
    split; [discriminate|left; reflexivity].
  - intros _. reflexivity.
Defined.
